(** * MultiSense-Agent: embedding normaliser, RAG engine, conversation memory

    A shallow embedding of the Python services under [app/services] and of
    the webhook verification route, with the properties the specification
    states about them.

    Conventions of the embedding:
    - a Python call that may raise is a value of [pyresult]: [Return v] or
      [Raise e];
    - Python [str] is [string]; a [dict] keyed by strings is a [gmap];
    - Python floats are kept abstract behind the class [PyNum], so every
      statement holds for IEEE doubles as well as for exact rationals. *)

From stdpp Require Import gmap strings list fin_maps pretty sorting.
From Stdlib Require Import Ascii QArith.
From Stdlib Require Import PrimFloat Uint63.
Close Scope Q_scope.

Local Open Scope general_if_scope.

(** ** Outcomes of Python calls *)

Inductive exn :=
| TypeError
| IndexError
| AttributeError
| ExternalError (msg : string)   (* an [Exception] raised by a remote service *)
| BaseExc (msg : string).        (* a [BaseException] outside [Exception] *)

Inductive pyresult (A : Type) :=
| Return (a : A)
| Raise (e : exn).
Arguments Return {A} a.
Arguments Raise {A} e.

#[global] Instance pyresult_ret : MRet pyresult := λ _ a, Return a.
#[global] Instance pyresult_bind : MBind pyresult := λ _ _ f m,
  match m with
  | Return a => f a
  | Raise e => Raise e
  end.

(** [except Exception] catches everything but a bare [BaseException]. *)
Definition is_Exception (e : exn) : bool :=
  match e with
  | BaseExc _ => false
  | _ => true
  end.

(** A call that raises errors only, that is instances of [Exception]. *)
Definition errors_only {A} (r : pyresult A) : Prop :=
  ∀ e, r = Raise e → is_Exception e = true.

(** ** Numbers of the embedding API *)

Class PyNum (F : Type) := {
  of_int : Z → F;          (* int operand promoted to float *)
  f_add : F → F → F;       (* [+] *)
  f_div : F → F → F        (* [/] *)
}.

(** Exact rationals. *)
#[global] Instance Q_num : PyNum Q :=
  {| of_int := inject_Z; f_add := Qplus; f_div := Qdiv |}.

(** IEEE binary64, the representation of a CPython [float]; [of_int] is
    only ever applied to [0] and to a list length. *)
#[global] Instance float_num : PyNum float :=
  {| of_int := λ z, PrimFloat.of_uint63 (Uint63.of_Z z);
     f_add := PrimFloat.add;
     f_div := PrimFloat.div |}.

(** ** State-and-exception monad for the stateful services *)

Definition pyM (S A : Type) : Type := S → pyresult A * S.

#[global] Instance pyM_ret {S} : MRet (pyM S) := λ _ a s, (Return a, s).
#[global] Instance pyM_bind {S} : MBind (pyM S) := λ _ _ f m s,
  match m s with
  | (Return a, s') => f a s'
  | (Raise e, s') => (Raise e, s')
  end.

(** A pure call that may raise, run inside a stateful one. *)
Definition lift {S A} (r : pyresult A) : pyM S A := λ s, (r, s).

(** ** Strings *)

Definition nl : string := String "010"%char EmptyString.

(** [str.isspace] on the code points below 256. *)
Definition py_isspace (c : ascii) : bool :=
  let n := nat_of_ascii c in
  bool_decide (9 ≤ n ≤ 13) || bool_decide (28 ≤ n ≤ 32)
  || bool_decide (n = 133) || bool_decide (n = 160).

Fixpoint lstrip (s : string) : string :=
  match s with
  | EmptyString => EmptyString
  | String c s' => if py_isspace c then lstrip s' else s
  end.

Definition rstrip (s : string) : string :=
  String.rev (lstrip (String.rev s)).

(** [s.strip()] *)
Definition strip (s : string) : string := rstrip (lstrip s).

(** Truthiness of a [str]. *)
Definition truthy (s : string) : bool :=
  match s with
  | EmptyString => false
  | _ => true
  end.

Module Normalizer.
Section normalizer.
Context {F : Type} `{PyNum F}.

(** What [feature_extraction] can hand back, after [tolist()]. *)
#[warnings="-register-all"]
Inductive pyval :=
| PyFloat (x : F)
| PyList (l : list pyval)
| PyTuple (l : list pyval)     (* an iterable that is not a [list] *)
| PyNone.                      (* neither iterable nor convertible *)

(** The raw result: a native value, or an array object that has [tolist]. *)
Inductive api_result :=
| Native (v : pyval)
| Ndarray (tolist : pyval).

Definition is_list (v : pyval) : bool :=
  match v with
  | PyList _ => true
  | _ => false
  end.

(** [len(v)] for the values on which the code calls it (lists only). *)
Definition py_len (v : pyval) : nat :=
  match v with
  | PyList l | PyTuple l => length l
  | _ => 0
  end.

(** [v[i]] *)
Definition getitem (v : pyval) (i : nat) : pyresult pyval :=
  match v with
  | PyList l | PyTuple l =>
      match l !! i with
      | Some x => Return x
      | None => Raise IndexError
      end
  | _ => Raise TypeError
  end.

(** [float(v)] *)
Definition py_float (v : pyval) : pyresult F :=
  match v with
  | PyFloat x => Return x
  | _ => Raise TypeError
  end.

(** [acc + v] inside [sum] *)
Definition py_add (acc : F) (v : pyval) : pyresult F :=
  match v with
  | PyFloat x => Return (f_add acc x)
  | _ => Raise TypeError
  end.

(** [sum(result[t][d] for t in ts)], continued from the running total. *)
Fixpoint sum_tokens (result : pyval) (d : nat) (ts : list nat) (acc : F)
  : pyresult F :=
  match ts with
  | [] => Return acc
  | t :: ts' =>
      row ← getitem result t;
      x ← getitem row d;
      acc' ← py_add acc x;
      sum_tokens result d ts' acc'
  end.

(** [[f(d) for d in ds]] where [f] may raise. *)
Fixpoint comprehension {A B} (f : A → pyresult B) (ds : list A)
  : pyresult (list B) :=
  match ds with
  | [] => Return []
  | d :: ds' =>
      y ← f d;
      ys ← comprehension f ds';
      Return (y :: ys)
  end.

(** The 2D branch: mean-pool across tokens. *)
Definition mean_pool (result : pyval) (num_tokens dim : nat)
  : pyresult (list pyval) :=
  comprehension
    (λ d, s ← sum_tokens result d (seq 0 num_tokens) (of_int 0);
          Return (PyFloat (f_div s (of_int (Z.of_nat num_tokens)))))
    (seq 0 dim).

(** [HFEmbeddings._normalize] (rag_engine.py) and
    [HFService._normalize_embedding] (hf_service.py): the two bodies are
    the same statement for statement. *)
Definition _normalize (r : api_result) : pyresult (list pyval) :=
  (* if hasattr(result, "tolist"): result = result.tolist() *)
  let result := match r with
                | Native v => v
                | Ndarray v => v
                end in
  match result with
  (* not isinstance(result, list) or len(result) == 0 *)
  | PyFloat x => Return [PyFloat x]          (* [float(result)] *)
  | PyNone => Raise TypeError                (* float(None) *)
  | PyTuple l => Return l                    (* list(result) *)
  | PyList [] => Return []                   (* list(result) *)
  | PyList (r0 :: _) =>
      (* 3D -> first element -> 2D *)
      let result :=
        if is_list r0 && bool_decide (0 < py_len r0)%nat
           && match r0 with
              | PyList (r00 :: _) => is_list r00
              | _ => false
              end
        then r0 else result in
      (* 2D -> mean-pool across tokens *)
      match result with
      | PyList ((PyList row0 :: _) as rows) =>
          mean_pool result (length rows) (length row0)
      | PyList xs =>
          comprehension (λ x, y ← py_float x; Return (PyFloat y)) xs
      | _ => Raise TypeError
      end
  end.

Definition _normalize_embedding := _normalize.

(** Builders for inputs of a given rank. *)
Definition rank1 (v : list F) : pyval := PyList (PyFloat <$> v).
Definition rank2 (m : list (list F)) : pyval := PyList (rank1 <$> m).
Definition rank3 (b : list (list (list F))) : pyval := PyList (rank2 <$> b).

(** Column [d] of a token matrix, and the mean as Python computes it:
    a left-to-right sum started at [0], divided by the count. *)
Definition column (m : list (list F)) (d : nat) : list F :=
  omap (λ row, row !! d) m.

Definition py_sum (xs : list F) : F := fold_left f_add xs (of_int 0).

Definition mean (xs : list F) : F :=
  f_div (py_sum xs) (of_int (Z.of_nat (length xs))).

End normalizer.
Arguments pyval : clear implicits.
Arguments api_result : clear implicits.
End Normalizer.

(** ** Webhook verification (whatsapp_service.py, routes/webhook.py) *)

Module Webhook.

(** [WhatsAppService.verify_webhook]; [None] is Python's [None]. *)
Definition verify_webhook (verify_token mode token challenge : string)
  : option string :=
  if bool_decide (mode = "subscribe") && bool_decide (token = verify_token)
  then Some challenge
  else None.

Inductive http_response :=
| PlainTextResponse (content : string) (status_code : Z)
| HTTPException (status_code : Z) (detail : string).

Definition status_of (r : http_response) : Z :=
  match r with
  | PlainTextResponse _ c => c
  | HTTPException c _ => c
  end.

(** The GET route: [params] are the query parameters of the request. *)
Definition verify_webhook_route (verify_token : string)
    (params : gmap string string) : http_response :=
  let mode := default "" (params !! "hub.mode") in
  let token := default "" (params !! "hub.verify_token") in
  let challenge := default "" (params !! "hub.challenge") in
  let result := verify_webhook verify_token mode token challenge in
  (* if result: *)
  match result with
  | Some r =>
      if truthy r then PlainTextResponse r 200
      else HTTPException 403 "Webhook verification failed"
  | None => HTTPException 403 "Webhook verification failed"
  end.

(** A request carrying the three parameters. *)
Definition request (mode token challenge : string) : gmap string string :=
  {[ "hub.mode" := mode; "hub.verify_token" := token;
     "hub.challenge" := challenge ]}.

End Webhook.

(** ** Conversation memory (memory_service.py, models.py) *)

Module Memory.

Inductive MessageType := TEXT | VOICE | IMAGE | DOCUMENT.

(** Instants are microsecond counts, as in [datetime]; [utcnow()] is an
    argument of each operation. *)
Definition timedelta_hours (h : Z) : Z := h * 3600000000.

Record ConversationTurn := {
  role : string;
  content : string;
  timestamp : Z;
  message_type : MessageType
}.

(** Objects live in a heap and are named by their location, so that two
    references to one object are told apart from two equal objects. *)
Definition loc := nat.

Inductive pyobj :=
| ObjTurn (t : ConversationTurn)
| ObjDict (d : gmap string string).

Record ConversationHistory := {
  session_id : string;
  turns : list loc;
  created_at : Z;
  updated_at : Z
}.

Record MemoryService := {
  _conversations : gmap string ConversationHistory;
  max_history : Z;
  ttl_hours : Z
}.

Record process := {
  heap : list pyobj;
  memory : MemoryService
}.

(** Allocation of a new object: its location is one no object has yet. *)
Definition alloc (o : pyobj) (h : list pyobj) : loc * list pyobj :=
  (length h, h ++ [o]).

(** [l[start:]] for a Python list and a signed [start]. *)
Definition slice_from {A} (start : Z) (l : list A) : list A :=
  let n := Z.of_nat (length l) in
  let lo := if bool_decide (start < 0)%Z then Z.max 0 (n + start) else start in
  drop (Z.to_nat lo) l.

Definition with_conversations (m : MemoryService)
    (c : gmap string ConversationHistory) : MemoryService :=
  {| _conversations := c; max_history := max_history m;
     ttl_hours := ttl_hours m |}.

(** [MemoryService.add_turn]; the clock reads of one call are one instant. *)
Definition add_turn (sid r c : string) (mt : MessageType) (now : Z)
    (p : process) : process :=
  let m := memory p in
  (* if session_id not in self._conversations: ... ; conv = ...[session_id] *)
  let conv :=
    match _conversations m !! sid with
    | Some conv => conv
    | None => {| session_id := sid; turns := [];
                 created_at := now; updated_at := now |}
    end in
  (* conv.turns.append(ConversationTurn(...)) *)
  let '(l, h) :=
    alloc (ObjTurn {| role := r; content := c; timestamp := now;
                      message_type := mt |}) (heap p) in
  let ts := turns conv ++ [l] in
  (* if len(conv.turns) > self.max_history: *)
  let ts :=
    if bool_decide (Z.of_nat (length ts) > max_history m)%Z
    then slice_from (- max_history m) ts
    else ts in
  let conv := {| session_id := session_id conv; turns := ts;
                 created_at := created_at conv; updated_at := now |} in
  {| heap := h;
     memory := with_conversations m (<[sid := conv]> (_conversations m)) |}.

(** [MemoryService._cleanup_expired] *)
Definition _cleanup_expired (now : Z) (m : MemoryService) : MemoryService :=
  let cutoff := (now - timedelta_hours (ttl_hours m))%Z in
  let expired :=
    (map_to_list (_conversations m))
      ≫= (λ '(sid, conv),
            if bool_decide (updated_at conv < cutoff)%Z then [sid] else []) in
  with_conversations m
    (foldl (λ convs sid, delete sid convs) (_conversations m) expired).

Definition cleanup (now : Z) (p : process) : process :=
  {| heap := heap p; memory := _cleanup_expired now (memory p) |}.

(** [MemoryService.get_history]: the result is the stored list of turn
    objects, not a copy of them. *)
Definition get_history (sid : string) (now : Z) (p : process)
  : list loc * process :=
  let p := cleanup now p in
  match _conversations (memory p) !! sid with
  | None => ([], p)
  | Some conv => (turns conv, p)
  end.

(** Attribute reads [t.role], [t.content] through a reference. *)
Definition read_turn (h : list pyobj) (l : loc) : pyresult ConversationTurn :=
  match h !! l with
  | Some (ObjTurn t) => Return t
  | _ => Raise AttributeError
  end.

Definition message (t : ConversationTurn) : gmap string string :=
  {[ "role" := role t; "content" := content t ]}.

(** The comprehension of [get_chat_messages]: one new dict per turn. *)
Fixpoint build_messages (ts : list loc) : pyM (list pyobj) (list loc) :=
  match ts with
  | [] => mret []
  | t :: ts' =>
      turn ← (λ h, (read_turn h t, h));
      d ← (λ h, let '(l, h') := alloc (ObjDict (message turn)) h in
                (Return l, h'));
      ds ← build_messages ts';
      mret (d :: ds)
  end.

(** [MemoryService.get_chat_messages] *)
Definition get_chat_messages (sid : string) (now : Z) (p : process)
  : pyresult (list loc) * process :=
  let '(ts, p) := get_history sid now p in
  let '(r, h) := build_messages ts (heap p) in
  (r, {| heap := h; memory := memory p |}).

(** [MemoryService.clear_session] *)
Definition clear_session (sid : string) (p : process) : bool * process :=
  match _conversations (memory p) !! sid with
  | Some _ =>
      (true, {| heap := heap p;
                memory := with_conversations (memory p)
                            (delete sid (_conversations (memory p))) |})
  | None => (false, p)
  end.

(** [MemoryService.get_active_sessions]; the order of the keys is the
    map's own, the dict's insertion order is not tracked. *)
Definition get_active_sessions (now : Z) (p : process)
  : list string * process :=
  let p := cleanup now p in
  ((map_to_list (_conversations (memory p))).*1, p).

(** The turns a session holds, read through the heap. *)
Definition stored_turns (sid : string) (p : process)
  : list (option pyobj) :=
  match _conversations (memory p) !! sid with
  | None => []
  | Some conv => (λ l, heap p !! l) <$> turns conv
  end.

(** The turn references a session holds. *)
Definition session_turns (sid : string) (p : process) : list loc :=
  match _conversations (memory p) !! sid with
  | None => []
  | Some conv => turns conv
  end.

(** The arguments of one [add_turn] call with the instant it is made at,
    and a run of such calls on one session. *)
Definition turn_args : Type := string * string * MessageType * Z.

Definition turn_of (a : turn_args) : ConversationTurn :=
  let '(r, c, mt, now) := a in
  {| role := r; content := c; timestamp := now; message_type := mt |}.

Definition add_turns (sid : string) (calls : list turn_args) (p : process)
  : process :=
  foldl (λ p '(r, c, mt, now), add_turn sid r c mt now p) p calls.

(** The last [n] elements of a list. *)
Definition lastn {A} (n : nat) (l : list A) : list A :=
  drop (length l - n) l.

Definition new_service (max ttl : Z) : process :=
  {| heap := [];
     memory := {| _conversations := ∅; max_history := max;
                  ttl_hours := ttl |} |}.

End Memory.

(** ** RAG engine (rag_engine.py) *)

Module Rag.
Import Normalizer.

(** Values of a Chroma metadata dict. *)
Inductive meta_value :=
| MStr (s : string)
| MInt (n : Z).

#[global] Instance meta_value_eq_dec : EqDecision meta_value.
Proof. solve_decision. Defined.

#[global] Instance meta_value_countable : Countable meta_value.
Proof.
  refine (inj_countable'
            (λ v, match v with MStr s => inl s | MInt n => inr n end)
            (λ x, match x with inl s => MStr s | inr n => MInt n end) _).
  by intros [].
Defined.

(** Iteration order of a Python [set]. CPython walks the hash table, and
    the hash of a [str] is salted per process, so the order is no function
    of the insertion order: the engine is run against any [SetOrder], a
    listing of each element of the set exactly once. *)
Record SetOrder := {
  set_to_list : gset meta_value → list meta_value;
  set_to_list_NoDup : ∀ s, NoDup (set_to_list s);
  set_to_list_elem : ∀ s x, x ∈ set_to_list s ↔ x ∈ s
}.

Definition order_elements : SetOrder :=
  {| set_to_list := elements;
     set_to_list_NoDup := NoDup_elements;
     set_to_list_elem := λ s x, elem_of_elements s x |}.

Lemma NoDup_reverse_elements (s : gset meta_value) :
  NoDup (reverse (elements s)).
Proof. rewrite reverse_Permutation. apply NoDup_elements. Qed.

Definition order_reversed : SetOrder :=
  {| set_to_list := λ s, reverse (elements s);
     set_to_list_NoDup := NoDup_reverse_elements;
     set_to_list_elem := λ s x,
       iff_trans (elem_of_reverse x (elements s)) (elem_of_elements s x) |}.

(** The order of a small CPython set: the table is walked by slot, and
    the slot of an element is its hash modulo the table size. [slot] is
    that function for one process. *)
Definition slot_le (slot : meta_value → nat) : relation meta_value :=
  λ x y, slot x ≤ slot y.

#[global] Instance slot_le_dec slot x y : Decision (slot_le slot x y) :=
  decide (slot x ≤ slot y).

Lemma NoDup_by_slot (slot : meta_value → nat) (s : gset meta_value) :
  NoDup (merge_sort (slot_le slot) (elements s)).
Proof. rewrite merge_sort_Permutation. apply NoDup_elements. Qed.

Lemma elem_of_by_slot (slot : meta_value → nat) (s : gset meta_value) x :
  x ∈ merge_sort (slot_le slot) (elements s) ↔ x ∈ s.
Proof. rewrite merge_sort_Permutation. apply elem_of_elements. Qed.

Definition order_by_slot (slot : meta_value → nat) : SetOrder :=
  {| set_to_list := λ s, merge_sort (slot_le slot) (elements s);
     set_to_list_NoDup := NoDup_by_slot slot;
     set_to_list_elem := elem_of_by_slot slot |}.

Section rag.
Context {F : Type} `{PyNum F}.

Record QueryResult := {
  documents : list (list string);
  metadatas : list (list (option (gmap string meta_value)));
  distances : list (list F)
}.

(** Calls made on the vector store, in order. *)
Inductive store_op :=
| GetOrCreateCollection (name : string)
| Upsert (ids : list string) (embeddings : list (list (pyval F)))
    (docs : list string) (metas : list (gmap string meta_value))
| Query (embedding : list (pyval F)) (n_results : Z).

(** The collaborators the engine is built on: the HuggingFace inference
    client, the LangChain splitter, [hashlib], PyPDF2 and the Chroma
    client. Each is taken by what it returns or raises. *)
Record RAGEngine := {
  collection_name : string;
  top_k : Z;
  feature_extraction : string → pyresult (api_result F);
  split_text : string → list string;
  md5_hexdigest : string → string;
  pdf_pages : list Byte.byte → pyresult (list string);
  chroma_get_or_create_collection : string → pyresult unit;
  chroma_upsert : list string → list (list (pyval F)) → list string →
                  list (gmap string meta_value) → pyresult unit;
  chroma_query : list (pyval F) → Z → pyresult QueryResult
}.

Definition StoreM := pyM (list store_op).

(** A store call: logged, then its outcome. *)
Definition call {A} (op : store_op) (outcome : pyresult A) : StoreM A :=
  λ tr, (outcome, tr ++ [op]).

(** [try: body except Exception: handler] *)
Definition try_except {S A} (body : pyM S A) (handler : exn → pyM S A)
  : pyM S A :=
  λ s, match body s with
       | (Return a, s') => (Return a, s')
       | (Raise e, s') =>
           if is_Exception e then handler e s' else (Raise e, s')
       end.

Definition _get_or_create_collection (eng : RAGEngine) : StoreM unit :=
  call (GetOrCreateCollection (collection_name eng))
       (chroma_get_or_create_collection eng (collection_name eng)).

(** [HFEmbeddings.embed_query] *)
Definition embed_query (eng : RAGEngine) (text : string)
  : pyresult (list (pyval F)) :=
  result ← feature_extraction eng text;
  _normalize result.

(** [HFEmbeddings.embed_documents] *)
Definition embed_documents (eng : RAGEngine) (texts : list string)
  : pyresult (list (list (pyval F))) :=
  comprehension (embed_query eng) texts.

(** [l[0]] *)
Definition index0 {A} (l : list A) : pyresult A :=
  match l with
  | x :: _ => Return x
  | [] => Raise IndexError
  end.

Fixpoint zip3 {A B C} (a : list A) (b : list B) (c : list C)
  : list (A * B * C) :=
  match a, b, c with
  | x :: a', y :: b', z :: c' => (x, y, z) :: zip3 a' b' c'
  | _, _, _ => []
  end.

(** [meta.get("source", "unknown")] *)
Definition source_of (meta : option (gmap string meta_value))
  : pyresult meta_value :=
  match meta with
  | Some m => Return (default (MStr "unknown") (m !! "source"))
  | None => Raise AttributeError
  end.

(** The loop of [retrieve_context] over the zipped results. *)
Fixpoint combine_chunks
    (rows : list (string * option (gmap string meta_value) * F))
    (context_parts : list string) (sources : gset meta_value)
  : pyresult (list string * gset meta_value) :=
  match rows with
  | [] => Return (context_parts, sources)
  | (doc, meta, _) :: rows' =>
      src ← source_of meta;
      combine_chunks rows' (context_parts ++ [doc]) (sources ∪ {[src]})
  end.

Definition separator : string := nl +:+ nl +:+ "---" +:+ nl +:+ nl.

(** [top_k or self.top_k] *)
Definition effective_k (eng : RAGEngine) (top_k' : option Z) : Z :=
  match top_k' with
  | Some n => if bool_decide (n = 0%Z) then top_k eng else n
  | None => top_k eng
  end.

(** The [try] block of [RAGEngine.retrieve_context]. *)
Definition retrieval_body (order : SetOrder) (eng : RAGEngine)
    (query : string) (k : Z) : StoreM (string * list meta_value) :=
  _ ← _get_or_create_collection eng;
  query_embedding ← lift (embed_query eng query);
  results ← call (Query query_embedding k)
                 (chroma_query eng query_embedding k);
  (* if not results["documents"][0]: return "", [] *)
  docs ← lift (index0 (documents results));
  match docs with
  | [] => mret (EmptyString, [])
  | _ :: _ =>
      metas ← lift (index0 (metadatas results));
      dists ← lift (index0 (distances results));
      '(context_parts, sources) ←
        lift (combine_chunks (zip3 docs metas dists) [] ∅);
      mret (String.concat separator context_parts,
            set_to_list order sources)
  end.

(** [RAGEngine.retrieve_context] *)
Definition retrieve_context (order : SetOrder) (eng : RAGEngine)
    (query : string) (top_k' : option Z)
  : StoreM (string * list meta_value) :=
  let k := effective_k eng top_k' in
  try_except (retrieval_body order eng query k)
             (λ _, mret (EmptyString, [])).

(** The three remote calls of a retrieval raise errors only. *)
Definition raises_errors_only (eng : RAGEngine) (query : string) (k : Z)
  : Prop :=
  errors_only (chroma_get_or_create_collection eng (collection_name eng))
  ∧ errors_only (feature_extraction eng query)
  ∧ ∀ emb, errors_only (chroma_query eng emb k).

(** [RAGEngine.extract_text_from_pdf] *)
Fixpoint page_parts (i : nat) (pages : list string) : list string :=
  match pages with
  | [] => []
  | page_text :: pages' =>
      (if truthy page_text
       then ["[Page " +:+ pretty (i + 1) +:+ "]" +:+ nl +:+ page_text]
       else [])
      ++ page_parts (S i) pages'
  end.

Definition extract_text_from_pdf (eng : RAGEngine) (pdf_data : list Byte.byte)
  : pyresult string :=
  pages ← pdf_pages eng pdf_data;
  Return (String.concat (nl +:+ nl) (page_parts 0 pages)).

(** [RAGEngine.ingest_document] *)
Definition ingest_document (eng : RAGEngine) (content filename : string)
    (metadata : option (gmap string meta_value)) : StoreM Z :=
  let chunks := split_text eng content in
  match chunks with
  | [] => mret 0%Z
  | _ :: _ =>
      embeddings ← lift (embed_documents eng chunks);
      let doc_hash := String.substring 0 8 (md5_hexdigest eng filename) in
      let n := length chunks in
      let ids := (λ i, doc_hash +:+ "_chunk_" +:+ pretty i) <$> seq 0 n in
      let metadatas :=
        (λ i : nat,
           default ∅ metadata
           ∪ {[ "source" := MStr filename;
                "chunk_index" := MInt (Z.of_nat i);
                "total_chunks" := MInt (Z.of_nat n) ]}) <$> seq 0 n in
      _ ← _get_or_create_collection eng;
      _ ← call (Upsert ids embeddings chunks metadatas)
               (chroma_upsert eng ids embeddings chunks metadatas);
      mret (Z.of_nat n)
  end.

(** [RAGEngine.ingest_pdf] *)
Definition ingest_pdf (eng : RAGEngine) (pdf_data : list Byte.byte)
    (filename : string) : StoreM Z :=
  text ← lift (extract_text_from_pdf eng pdf_data);
  if truthy (strip text)
  then ingest_document eng text filename (Some {[ "type" := MStr "pdf" ]})
  else mret 0%Z.

(** Distinct values of a list, in order of first appearance. *)
Fixpoint first_appearance (seen : list meta_value) (l : list meta_value)
  : list meta_value :=
  match l with
  | [] => []
  | x :: l' =>
      if bool_decide (x ∈ seen) then first_appearance seen l'
      else x :: first_appearance (x :: seen) l'
  end.

(** The [source] value the loop reads off one metadata dict. *)
Definition source_value (m : gmap string meta_value) : meta_value :=
  default (MStr "unknown") (m !! "source").

End rag.
Arguments QueryResult : clear implicits.
Arguments store_op : clear implicits.
Arguments RAGEngine F : clear implicits.
End Rag.

(** ** Multi-modal processor, text path (processor.py) *)

Module Processor.
Import Normalizer Rag Memory.

Section processor.
Context {F : Type} `{PyNum F}.

Record ChatResponse := {
  response : string;
  response_session_id : string;
  sources : list meta_value;
  response_message_type : MessageType
}.

(** The services the processor holds; [chat_completion] is the remote
    language model, taken by what it answers to a list of messages. *)
Record MultiModalProcessor := {
  rag : RAGEngine F;
  set_order : SetOrder;
  chat_completion : list (gmap string string) → pyresult string
}.

(** The Python process as the text path sees it: the object heap with the
    memory service, the calls made on the vector store, and the message
    lists sent to the language model. *)
Record world := {
  proc : process;
  store : list (store_op F);
  llm_calls : list (list (gmap string string))
}.

Definition in_memory {A} (f : process → A * process) : pyM world A :=
  λ w, let '(a, p) := f (proc w) in
       (Return a, {| proc := p; store := store w; llm_calls := llm_calls w |}).

Definition in_memory_try {A} (f : process → pyresult A * process)
  : pyM world A :=
  λ w, let '(r, p) := f (proc w) in
       (r, {| proc := p; store := store w; llm_calls := llm_calls w |}).

Definition in_store {A} (m : StoreM A) : pyM world A :=
  λ w, let '(r, s) := m (store w) in
       (r, {| proc := proc w; store := s; llm_calls := llm_calls w |}).

(** [d[k] = v] through a reference [l]. *)
Definition setitem (l : loc) (k v : string) (p : process)
  : pyresult unit * process :=
  match heap p !! l with
  | Some (ObjDict d) =>
      (Return (),
       {| heap := <[l := ObjDict (<[k := v]> d)]> (heap p);
          memory := memory p |})
  | _ => (Raise TypeError, p)
  end.

(** The dicts a list of references denotes when it is serialised. *)
Definition read_messages (h : list pyobj) (ls : list loc)
  : list (gmap string string) :=
  omap (λ l, match h !! l with
             | Some (ObjDict d) => Some d
             | _ => None
             end) ls.

(** The remote call: its argument is logged as sent. *)
Definition call_llm (mp : MultiModalProcessor) (history : list loc)
  : pyM world string :=
  λ w, let sent := read_messages (heap (proc w)) history in
       (chat_completion mp sent,
        {| proc := proc w; store := store w;
           llm_calls := llm_calls w ++ [sent] |}).

Definition augmented_prompt (text context : string) : string :=
  "Use the following context to answer the user's question. "
  +:+ "If the context is not relevant, answer from your general knowledge."
  +:+ nl +:+ nl
  +:+ "--- Retrieved Context ---" +:+ nl +:+ context +:+ nl
  +:+ "--- End Context ---" +:+ nl +:+ nl
  +:+ "User Question: " +:+ text.

(** The validation of [ChatResponse(..., sources=sources, ...)]: the field
    is declared [List[str]], and a source that is not a string is
    rejected. *)
Definition is_str (v : meta_value) : bool :=
  match v with
  | MStr _ => true
  | MInt _ => false
  end.

(** [MultiModalProcessor.process_text]; [t_user], [t_read] and [t_reply]
    are the instants of its three accesses to the memory service. *)
Definition process_text (mp : MultiModalProcessor) (text sid : string)
    (use_rag : bool) (t_user t_read t_reply : Z) : pyM world ChatResponse :=
  (* self.memory.add_turn(session_id, "user", text, MessageType.TEXT) *)
  _ ← in_memory (λ p, ((), add_turn sid "user" text TEXT t_user p));
  (* augmented_prompt = text; if use_rag: ... *)
  '(prompt, sources) ←
    (if use_rag
     then
       '(context, sources) ←
         in_store (retrieve_context (set_order mp) (rag mp) text None);
       mret (if truthy context then augmented_prompt text context else text,
             sources)
     else mret (text, []));
  (* history = self.memory.get_chat_messages(session_id) *)
  history ← in_memory_try (get_chat_messages sid t_read);
  (* if history: history[-1]["content"] = augmented_prompt *)
  _ ← match last history with
      | Some l => in_memory_try (setitem l "content" prompt)
      | None => mret ()
      end;
  response ← call_llm mp history;
  (* self.memory.add_turn(session_id, "assistant", response, ...) *)
  _ ← in_memory (λ p, ((), add_turn sid "assistant" response TEXT t_reply p));
  (* return ChatResponse(...) *)
  if forallb is_str sources
  then mret {| response := response; response_session_id := sid;
               sources := sources; response_message_type := TEXT |}
  else lift (Raise (ExternalError "ValidationError")).

(** The state right after the user turn is recorded. *)
Definition after_user_turn (text sid : string) (t_user : Z) (w : world)
  : world :=
  {| proc := add_turn sid "user" text TEXT t_user (proc w);
     store := store w; llm_calls := llm_calls w |}.

End processor.
Arguments ChatResponse : clear implicits.
Arguments MultiModalProcessor F : clear implicits.
Arguments world F : clear implicits.
End Processor.

(** ** Voice, image and document paths (processor.py) *)

Module Media.
Import Normalizer Rag Memory Processor.

(** [str.lower] on the code points below 256: the letters [A] to [Z] and
    the accented capitals 192 to 222, the multiplication sign apart. *)
Definition py_lower (c : ascii) : ascii :=
  let n := nat_of_ascii c in
  if bool_decide (65 ≤ n ≤ 90)
     || (bool_decide (192 ≤ n ≤ 222) && negb (bool_decide (n = 215)))
  then ascii_of_nat (n + 32)
  else c.

Fixpoint lower (s : string) : string :=
  match s with
  | EmptyString => EmptyString
  | String c s' => String (py_lower c) (lower s')
  end.

(** [sub in s] *)
Fixpoint contains (sub s : string) : bool :=
  String.prefix sub s
  || match s with
     | EmptyString => false
     | String _ s' => contains sub s'
     end.

(** [s.endswith(suffix)] *)
Fixpoint endswith (s suffix : string) : bool :=
  bool_decide (s = suffix)
  || match s with
     | EmptyString => false
     | String _ s' => endswith s' suffix
     end.

(** [x or default] for an optional string. *)
Definition py_or (x : option string) (default : string) : string :=
  match x with
  | Some s => if truthy s then s else default
  | None => default
  end.

(** The pictographs the replies open with. They lie beyond the code
    points that the strings of this development hold, so they are named
    here instead of spelled. *)
Record Glyphs := {
  microphone : string;
  camera : string;
  page_facing_up : string;
  check_mark : string;
  bar_chart : string;
  warning_sign : string;
  hourglass : string;
  cross_mark : string
}.

Section media.
Context {F : Type} `{PyNum F}.

(** [HFService.transcribe_audio] and [HFService.vision_analysis], each
    taken as a whole by what it returns or raises. Their retries, and for
    [vision_analysis] the chat completion it runs on a prompt of the
    user, happen inside them: [llm_calls] lists the calls that
    [process_text] makes, not these. *)
Record HFService := {
  transcribe_audio : list Byte.byte → string → pyresult string;
  vision_analysis : list Byte.byte → string → string → pyresult string
}.

(** [MultiModalProcessor.process_voice] *)
Definition process_voice (g : Glyphs) (hf : HFService)
    (mp : MultiModalProcessor F) (audio_data : list Byte.byte)
    (sid filename : string) (t_user t_read t_reply : Z)
  : pyM (world F) (ChatResponse) :=
  transcription ← lift (transcribe_audio hf audio_data filename);
  result ← process_text mp transcription sid true t_user t_read t_reply;
  (* result.message_type = ...; result.response = ... *)
  mret {| response :=
            microphone g +:+ " *Transcription:* _" +:+ transcription +:+ "_"
            +:+ nl +:+ nl +:+ response result;
          response_session_id := response_session_id result;
          sources := sources result;
          response_message_type := VOICE |}.

Definition default_image_prompt : string :=
  "Analyze this image in detail. Describe what you see, "
  +:+ "any text visible, and any notable elements.".

(** [MultiModalProcessor.process_image]; [t_user] and [t_reply] are the
    instants of its two writes to the memory service. *)
Definition process_image (g : Glyphs) (hf : HFService)
    (image_data : list Byte.byte) (sid : string) (caption : option string)
    (mime_type : string) (t_user t_reply : Z)
  : pyM (world F) (ChatResponse) :=
  let prompt := py_or caption default_image_prompt in
  analysis ← lift (vision_analysis hf image_data prompt mime_type);
  _ ← in_memory
        (λ p, ((), add_turn sid "user"
                     ("[Image sent] "
                      +:+ py_or caption "Image analysis requested")
                     IMAGE t_user p));
  _ ← in_memory (λ p, ((), add_turn sid "assistant" analysis IMAGE t_reply p));
  mret {| response := camera g +:+ " *Image Analysis:*" +:+ nl +:+ nl
                      +:+ analysis;
          response_session_id := sid;
          sources := [];
          response_message_type := IMAGE |}.

(** The test
    [mime_type and "pdf" in mime_type.lower()
       or filename.lower().endswith(".pdf")]. *)
Definition is_pdf (mime_type : option string) (filename : string) : bool :=
  match mime_type with
  | Some m => truthy m && contains "pdf" (lower m)
  | None => false
  end
  || endswith (lower filename) ".pdf".

Definition ingested_reply (g : Glyphs) (filename : string) (chunks : Z)
  : string :=
  page_facing_up g +:+ " *Document Processed:* _" +:+ filename +:+ "_"
  +:+ nl +:+ nl
  +:+ check_mark g +:+ " Successfully ingested into knowledge base." +:+ nl
  +:+ bar_chart g +:+ " Created *" +:+ pretty chunks
  +:+ "* searchable chunks." +:+ nl +:+ nl
  +:+ "You can now ask me questions about this document!".

Definition unsupported_reply (g : Glyphs) (mime_type : option string)
  : string :=
  warning_sign g
  +:+ " Currently, I only support PDF documents for RAG ingestion." +:+ nl
  +:+ "Received: " +:+ py_or mime_type "unknown type" +:+ nl +:+ nl
  +:+ "Please send a PDF file to add it to my knowledge base.".

(** [MultiModalProcessor.process_document] *)
Definition process_document (g : Glyphs) (mp : MultiModalProcessor F)
    (doc_data : list Byte.byte) (sid filename : string)
    (mime_type : option string) (t_user t_reply : Z)
  : pyM (world F) (ChatResponse) :=
  response_text ←
    (if is_pdf mime_type filename
     then
       chunks ← in_store (ingest_pdf (rag mp) doc_data filename);
       mret (ingested_reply g filename chunks)
     else mret (unsupported_reply g mime_type));
  _ ← in_memory
        (λ p, ((), add_turn sid "user"
                     ("[Document sent: " +:+ filename +:+ "]")
                     DOCUMENT t_user p));
  _ ← in_memory
        (λ p, ((), add_turn sid "assistant" response_text DOCUMENT t_reply p));
  mret {| response := response_text;
          response_session_id := sid;
          sources := [MStr filename];
          response_message_type := DOCUMENT |}.

End media.
Arguments HFService : clear implicits.
End Media.

(** ** WhatsApp messages (whatsapp_service.py, routes/webhook.py) *)

Module WhatsApp.
Import Normalizer Rag Memory Processor Media.

Record WhatsAppMessage := {
  message_id : string;
  from_number : string;
  timestamp : string;
  message_type : MessageType;
  text : option string;
  media_id : option string;
  mime_type : option string;
  caption : option string
}.

(** The requests made on the WhatsApp Cloud API. *)
Inductive api_call :=
| MarkAsRead (message_id : string)
| SendReaction (to message_id emoji : string)
| SendTextMessage (to message : string)
| DownloadMedia (media_id : option string).

(** The API, taken by how each request ends. *)
Record WhatsAppService := {
  mark_as_read_request : string → pyresult unit;
  send_text_message_request : string → string → pyresult unit;
  send_reaction_request : string → string → string → pyresult unit;
  download_media_request : option string → pyresult (list Byte.byte)
}.

(** [range(0, stop, step)] for a positive [step]. *)
Definition range_step (stop step : nat) : list nat :=
  (λ k, k * step) <$> seq 0 ((stop + step - 1) / step).

(** [for x in l: f(x)] *)
Fixpoint for_each {S A} (l : list A) (f : A → pyM S unit) : pyM S unit :=
  match l with
  | [] => mret ()
  | x :: l' => _ ← f x; for_each l' f
  end.

Section whatsapp.
Context {F : Type} `{PyNum F}.

(** The process as the background task sees it: the services of the
    processor and the requests made on the API so far. *)
Record runtime := {
  services : world F;
  outbox : list api_call
}.

Definition request {A} (c : api_call) (outcome : pyresult A)
  : pyM runtime A :=
  λ r, (outcome, {| services := services r; outbox := outbox r ++ [c] |}).

Definition in_services {A} (m : pyM (world F) A) : pyM runtime A :=
  λ r, let '(a, w) := m (services r) in
       (a, {| services := w; outbox := outbox r |}).

(** [WhatsAppService.mark_as_read]: a failed request is logged, not
    raised. *)
Definition mark_as_read (svc : WhatsAppService) (message_id : string)
  : pyM runtime unit :=
  try_except
    (request (MarkAsRead message_id) (mark_as_read_request svc message_id))
    (λ _, mret ()).

Definition send_text_message (svc : WhatsAppService) (to message : string)
  : pyM runtime unit :=
  request (SendTextMessage to message)
          (send_text_message_request svc to message).

Definition send_reaction (svc : WhatsAppService) (to message_id emoji : string)
  : pyM runtime unit :=
  request (SendReaction to message_id emoji)
          (send_reaction_request svc to message_id emoji).

Definition download_media (svc : WhatsAppService) (media_id : option string)
  : pyM runtime (list Byte.byte) :=
  request (DownloadMedia media_id) (download_media_request svc media_id).

(** [process_text(text=None, ...)]: [add_turn] creates the record of the
    session when it is missing, then [ConversationTurn(content=None)] is
    rejected by the validation of the model. *)
Definition process_text_without_text (sid : string) (now : Z)
  : pyM (world F) ChatResponse :=
  in_memory_try
    (λ p,
       let m := memory p in
       let conv :=
         match _conversations m !! sid with
         | Some conv => conv
         | None => {| session_id := sid; turns := [];
                      created_at := now; updated_at := now |}
         end in
       (Raise (ExternalError "ValidationError"),
        {| heap := heap p;
           memory :=
             with_conversations m (<[sid := conv]> (_conversations m)) |})).

(** The routing on the message type, lines 89 to 123 of the task. The
    enum has four values, so the last branch, [result = None], is not
    taken. *)
Definition route_message (g : Glyphs) (svc : WhatsAppService)
    (hf : HFService) (mp : MultiModalProcessor F) (message : WhatsAppMessage)
    (t_user t_read t_reply : Z) : pyM runtime ChatResponse :=
  let session_id := from_number message in
  match message_type message with
  | TEXT =>
      in_services
        match text message with
        | Some text =>
            process_text mp text session_id true t_user t_read t_reply
        | None => process_text_without_text session_id t_user
        end
  | VOICE =>
      audio_data ← download_media svc (media_id message);
      in_services
        (process_voice g hf mp audio_data session_id "voice.ogg"
           t_user t_read t_reply)
  | IMAGE =>
      image_data ← download_media svc (media_id message);
      in_services
        (process_image g hf image_data session_id (caption message)
           (py_or (mime_type message) "image/jpeg") t_user t_reply)
  | DOCUMENT =>
      doc_data ← download_media svc (media_id message);
      in_services
        (process_document g mp doc_data session_id
           (py_or (caption message) "document.pdf")
           (mime_type message) t_user t_reply)
  end.

(** The sending of the response, lines 126 to 138; a response object is
    always truthy. *)
Definition send_response (g : Glyphs) (svc : WhatsAppService)
    (message : WhatsAppMessage) (result : ChatResponse) : pyM runtime unit :=
  let response_text := response result in
  _ ← (if bool_decide (4000 < String.length response_text)
       then
         let chunks :=
           (λ i, String.substring i 4000 response_text)
             <$> range_step (String.length response_text) 4000 in
         for_each chunks
           (λ chunk, send_text_message svc (from_number message) chunk)
       else send_text_message svc (from_number message) response_text);
  send_reaction svc (from_number message) (message_id message)
    (check_mark g).

Definition apology (g : Glyphs) : string :=
  cross_mark g
  +:+ " Sorry, I encountered an error processing your message. "
  +:+ "Please try again.".

(** [process_whatsapp_message], the background task, from line 80 on:
    the [try] statement, run on the two services once they are obtained. *)
Definition process_whatsapp_message (g : Glyphs) (svc : WhatsAppService)
    (hf : HFService) (mp : MultiModalProcessor F) (message : WhatsAppMessage)
    (t_user t_read t_reply : Z) : pyM runtime unit :=
  try_except
    (_ ← mark_as_read svc (message_id message);
     _ ← send_reaction svc (from_number message) (message_id message)
           (hourglass g);
     result ← route_message g svc hf mp message t_user t_read t_reply;
     send_response g svc message result)
    (λ _,
       try_except
         (_ ← send_text_message svc (from_number message) (apology g);
          send_reaction svc (from_number message) (message_id message)
            (cross_mark g))
         (λ _, mret ())).

(** A call of [process_whatsapp_message] from its first line. The two
    services are obtained before the [try] (lines 78 and 79): each is the
    singleton, or the error of its construction when this is its first
    use; the processor comes with the models of hf_service.py. *)
Definition process_whatsapp_message_call (g : Glyphs)
    (get_whatsapp_service : pyresult WhatsAppService)
    (get_processor : pyresult (HFService * MultiModalProcessor F))
    (message : WhatsAppMessage) (t_user t_read t_reply : Z)
  : pyM runtime unit :=
  whatsapp ← lift get_whatsapp_service;
  processor ← lift get_processor;
  process_whatsapp_message g whatsapp (fst processor) (snd processor)
    message t_user t_read t_reply.

End whatsapp.
Arguments runtime F : clear implicits.
End WhatsApp.

(** ** Chat and upload routes (routes/chat.py) *)

Module Routes.
Import Normalizer Rag Memory Processor Media.

Inductive ProcessingStatus := RECEIVED | PROCESSING | COMPLETED | ERROR.

Record ChatRequest := {
  message : string;
  session_id : string;
  use_rag : bool
}.

Record DocumentUploadResponse := {
  filename : string;
  chunks_created : Z;
  status : ProcessingStatus;
  upload_message : string
}.

(** An uploaded file: its name and what reading it gives. *)
Record UploadFile := {
  upload_filename : string;
  read : pyresult (list Byte.byte)
}.

(** What a route hands to the framework: a response body, or an
    [HTTPException], which the framework turns into an error response. *)
Inductive reply (A : Type) :=
| Response (body : A)
| HTTPException (status_code : Z) (detail : string).
Arguments Response {A} body.
Arguments HTTPException {A} status_code detail.

Section routes.
Context {F : Type} `{PyNum F}.

(** [str(e)], the text of an exception. *)
Variable str : exn → string.

(** [chat]; [get_processor] is what obtaining the processor gives: the
    singleton, or the error of its construction when this is its first
    use. The three instants are those of [process_text]. *)
Definition chat (get_processor : pyresult (MultiModalProcessor F))
    (request : ChatRequest) (t_user t_read t_reply : Z)
  : pyM (world F) (reply ChatResponse) :=
  try_except
    (processor ← lift get_processor;
     response ← process_text processor (message request) (session_id request)
                  (use_rag request) t_user t_read t_reply;
     mret (Response response))
    (λ e, mret (HTTPException 500 ("Chat processing failed: " +:+ str e))).

(** [upload_document] *)
Definition upload_document (eng : RAGEngine F) (file : UploadFile)
  : StoreM (reply DocumentUploadResponse) :=
  if negb (endswith (lower (upload_filename file)) ".pdf")
  then
    mret (HTTPException 400
            "Only PDF files are supported. Please upload a .pdf file.")
  else
    try_except
      (content ← lift (read file);
       chunks ← ingest_pdf eng content (upload_filename file);
       mret (Response
               {| filename := upload_filename file;
                  chunks_created := chunks;
                  status := COMPLETED;
                  upload_message :=
                    "Successfully ingested " +:+ upload_filename file
                    +:+ " (" +:+ pretty chunks +:+ " chunks created)" |}))
      (λ e,
         mret (HTTPException 500
                 ("Document processing failed: " +:+ str e))).

End routes.
End Routes.

(** ** Notions used to state further properties *)

(** Every character of [s] is white space for [str.isspace]. *)
Fixpoint all_space (s : string) : bool :=
  match s with
  | EmptyString => true
  | String c s' => py_isspace c && all_space s'
  end.

(** The process once the background task has marked the message as read
    and sent the reaction that stands for "working". *)
Definition acknowledged {F} (g : Media.Glyphs)
    (message : WhatsApp.WhatsAppMessage) (r : WhatsApp.runtime F)
  : WhatsApp.runtime F :=
  {| WhatsApp.services := WhatsApp.services r;
     WhatsApp.outbox :=
       WhatsApp.outbox r
       ++ [WhatsApp.MarkAsRead (WhatsApp.message_id message);
           WhatsApp.SendReaction (WhatsApp.from_number message)
             (WhatsApp.message_id message) (Media.hourglass g)] |}.

(** Every session holds at most [n] turns. *)
Definition within_maximum (n : nat) (p : Memory.process) : Prop :=
  ∀ sid conv,
    Memory._conversations (Memory.memory p) !! sid = Some conv →
    length (Memory.turns conv) ≤ n.

(** ** Concrete inputs *)

(** A 2 x 2 token matrix of doubles. *)
Definition tokens_2x2 : list (list float) := [[1; 2]; [3; 4]]%float.

(** A well-formed verification request. *)
Definition handshake : gmap string string :=
  Webhook.request "subscribe" "multisense-verify-token" "1158201444".

(** The calls of [test_max_history_limit]. *)
Definition ten_messages : list Memory.turn_args :=
  (λ i : nat, ("user", "Message " +:+ pretty i, Memory.TEXT, Z.of_nat i))
    <$> seq 0 10.

(** A session written at instant 0, and its record. *)
Definition stale_process : Memory.process :=
  Memory.add_turn "alice" "user" "hello" Memory.TEXT 0
    (Memory.new_service 20 24).

Definition stale_conv : Memory.ConversationHistory :=
  {| Memory.session_id := "alice"; Memory.turns := [0];
     Memory.created_at := 0; Memory.updated_at := 0 |}.

(** An engine over doubles whose inference call answers a pooled
    two-dimensional embedding, whose splitter keeps the stripped content
    as one chunk, and whose store answers as given. *)
Definition demo_engine (lookup : pyresult unit)
    (found : pyresult (Rag.QueryResult float)) (pages : list string)
  : Rag.RAGEngine float :=
  {| Rag.collection_name := "multisense_documents";
     Rag.top_k := 5;
     Rag.feature_extraction := λ _,
       Return (Normalizer.Native (Normalizer.rank1 [1; 0]%float));
     Rag.split_text := λ s, if truthy (strip s) then [strip s] else [];
     Rag.md5_hexdigest := λ _, "9e107d9d372bb6826bd81d3542a419d6";
     Rag.pdf_pages := λ _, Return pages;
     Rag.chroma_get_or_create_collection := λ _, lookup;
     Rag.chroma_upsert := λ _ _ _ _, Return ();
     Rag.chroma_query := λ _ _, found |}.

(** Two hits, the nearer one from [b.pdf], the other from [a.pdf]. *)
Definition two_hits : Rag.QueryResult float :=
  {| Rag.documents := [["beta"; "alpha"]];
     Rag.metadatas :=
       [[Some {[ "source" := Rag.MStr "b.pdf" ]};
         Some {[ "source" := Rag.MStr "a.pdf" ]}]];
     Rag.distances := [[0.125; 0.25]%float] |}.

Definition two_hits_metas : list (gmap string Rag.meta_value) :=
  [{[ "source" := Rag.MStr "b.pdf" ]}; {[ "source" := Rag.MStr "a.pdf" ]}].

(** A process in which [a.pdf] hashes to slot 2 and [b.pdf] to slot 5. *)
Definition slots (v : Rag.meta_value) : nat :=
  if decide (v = Rag.MStr "b.pdf") then 5 else 2.

(** A processor on that engine with a model that answers. *)
Definition demo_processor : Processor.MultiModalProcessor float :=
  {| Processor.rag := demo_engine (Return ()) (Return two_hits) [];
     Processor.set_order := Rag.order_elements;
     Processor.chat_completion := λ _, Return "It is about beta." |}.

Definition new_world : Processor.world float :=
  {| Processor.proc := Memory.new_service 20 24;
     Processor.store := [];
     Processor.llm_calls := [] |}.

Definition demo_context : string := "beta" +:+ Rag.separator +:+ "alpha".

(** The same processor with the vector store down, and with a model
    whose call fails. *)
Definition offline_processor : Processor.MultiModalProcessor float :=
  {| Processor.rag :=
       demo_engine (Raise (ExternalError "connection refused"))
         (Return two_hits) [];
     Processor.set_order := Rag.order_elements;
     Processor.chat_completion := λ _, Return "It is about beta." |}.

(** A processor whose store holds one chunk, filed under a number. *)
Definition numbered_hit : Rag.QueryResult float :=
  {| Rag.documents := [["beta"]];
     Rag.metadatas := [[Some {[ "source" := Rag.MInt 7 ]}]];
     Rag.distances := [[0.125]%float] |}.

Definition numbered_processor : Processor.MultiModalProcessor float :=
  {| Processor.rag := demo_engine (Return ()) (Return numbered_hit) [];
     Processor.set_order := Rag.order_elements;
     Processor.chat_completion := λ _, Return "It is about beta." |}.

Definition failing_processor : Processor.MultiModalProcessor float :=
  {| Processor.rag := demo_engine (Return ()) (Return two_hits) [];
     Processor.set_order := Rag.order_elements;
     Processor.chat_completion := λ _, Raise (ExternalError "503") |}.

(** Stand-ins for the pictographs, remote models that answer, and an API
    that accepts every request. *)
Definition demo_glyphs : Media.Glyphs :=
  {| Media.microphone := "(microphone)";
     Media.camera := "(camera)";
     Media.page_facing_up := "(page)";
     Media.check_mark := "(done)";
     Media.bar_chart := "(chart)";
     Media.warning_sign := "(warning)";
     Media.hourglass := "(working)";
     Media.cross_mark := "(failed)" |}.

Definition demo_hf : Media.HFService :=
  {| Media.transcribe_audio := λ _ _, Return "what is beta";
     Media.vision_analysis := λ _ _ _, Return "a cat on a mat" |}.

Definition demo_api : WhatsApp.WhatsAppService :=
  {| WhatsApp.mark_as_read_request := λ _, Return ();
     WhatsApp.send_text_message_request := λ _ _, Return ();
     WhatsApp.send_reaction_request := λ _ _ _, Return ();
     WhatsApp.download_media_request := λ _, Return [] |}.

(** An API on which the task is cancelled at the first reaction. *)
Definition cancelling_api : WhatsApp.WhatsAppService :=
  {| WhatsApp.mark_as_read_request := λ _, Return ();
     WhatsApp.send_text_message_request := λ _ _, Return ();
     WhatsApp.send_reaction_request := λ _ _ _, Raise (BaseExc "CancelledError");
     WhatsApp.download_media_request := λ _, Return [] |}.

(** A text message, a message of a type the parser does not know (it
    comes out as a text message without text), and a document without a
    caption. *)
Definition text_message : WhatsApp.WhatsAppMessage :=
  {| WhatsApp.message_id := "wamid.1"; WhatsApp.from_number := "alice";
     WhatsApp.timestamp := "1700000000";
     WhatsApp.message_type := Memory.TEXT;
     WhatsApp.text := Some "topic"; WhatsApp.media_id := None;
     WhatsApp.mime_type := None; WhatsApp.caption := None |}.

Definition sticker_message : WhatsApp.WhatsAppMessage :=
  {| WhatsApp.message_id := "wamid.2"; WhatsApp.from_number := "alice";
     WhatsApp.timestamp := "1700000000";
     WhatsApp.message_type := Memory.TEXT;
     WhatsApp.text := None; WhatsApp.media_id := None;
     WhatsApp.mime_type := None; WhatsApp.caption := None |}.

Definition spreadsheet_message : WhatsApp.WhatsAppMessage :=
  {| WhatsApp.message_id := "wamid.3"; WhatsApp.from_number := "alice";
     WhatsApp.timestamp := "1700000000";
     WhatsApp.message_type := Memory.DOCUMENT;
     WhatsApp.text := None; WhatsApp.media_id := Some "media.3";
     WhatsApp.mime_type := Some "application/vnd.ms-excel";
     WhatsApp.caption := None |}.

(** A text for each exception: the message of those that carry one. *)
Definition exn_text (e : exn) : string :=
  match e with
  | TypeError => "TypeError"
  | IndexError => "IndexError"
  | AttributeError => "AttributeError"
  | ExternalError msg => msg
  | BaseExc msg => msg
  end.

Definition new_runtime : WhatsApp.runtime float :=
  {| WhatsApp.services := new_world; WhatsApp.outbox := [] |}.

(** * Properties *)

(** ** Embedding normaliser *)

Section normalizer_facts.
Import Normalizer.
Context {F : Type} `{PyNum F}.

Lemma comprehension_total {A B} (f : A → pyresult B) (g : A → B) ds :
  (∀ d, d ∈ ds → f d = Return (g d)) →
  comprehension f ds = Return (g <$> ds).
Proof.
  induction ds as [|d ds IH]; intros Hf; simpl; [done|].
  rewrite Hf by left. simpl.
  rewrite IH; [done|]. intros d' Hd'. apply Hf. by right.
Qed.

Lemma getitem_rank2 (m : list (list F)) t row :
  m !! t = Some row → getitem (rank2 m) t = Return (rank1 row).
Proof.
  intros Hrow. unfold rank2, getitem.
  by rewrite list_lookup_fmap, Hrow.
Qed.

Lemma getitem_rank1 (row : list F) d x :
  row !! d = Some x → getitem (rank1 row) d = Return (PyFloat x).
Proof.
  intros Hx. unfold rank1, getitem.
  by rewrite list_lookup_fmap, Hx.
Qed.

(** Summing column [d] over the token indices of a suffix of the matrix. *)
Lemma sum_tokens_suffix (pre suf : list (list F)) d acc :
  Forall (λ row, d < length row) suf →
  sum_tokens (rank2 (pre ++ suf)) d (seq (length pre) (length suf)) acc
  = Return (fold_left f_add (column suf d) acc).
Proof.
  revert pre acc.
  induction suf as [|row suf IH]; intros pre acc Hwide; [done|].
  apply Forall_cons in Hwide as [Hd Hwide].
  destruct (lookup_lt_is_Some_2 row d Hd) as [x Hx].
  cbn [length seq sum_tokens].
  rewrite (getitem_rank2 _ _ row) by (by apply list_lookup_middle).
  cbn [mbind pyresult_bind].
  rewrite (getitem_rank1 _ _ x Hx).
  cbn [mbind pyresult_bind py_add].
  specialize (IH (pre ++ [row]) (f_add acc x) Hwide).
  rewrite <- app_assoc, length_app in IH. cbn [app length] in IH.
  rewrite Nat.add_1_r in IH. rewrite IH.
  unfold column. cbn [omap list_omap]. by rewrite Hx.
Qed.

Lemma column_length (m : list (list F)) d :
  Forall (λ row, d < length row) m → length (column m d) = length m.
Proof.
  induction 1 as [|row m Hd _ IH]; [done|].
  destruct (lookup_lt_is_Some_2 row d Hd) as [x Hx].
  unfold column in *. cbn [omap list_omap]. rewrite Hx. simpl. by rewrite IH.
Qed.

Lemma column_lookup (m : list (list F)) d t row :
  Forall (λ row, d < length row) m →
  m !! t = Some row → column m d !! t = row !! d.
Proof.
  intros Hwide. revert t.
  induction Hwide as [|r m Hd _ IH]; intros t Ht; [done|].
  destruct (lookup_lt_is_Some_2 r d Hd) as [x Hx].
  unfold column in *. cbn [omap list_omap]. rewrite Hx.
  destruct t as [|t]; simpl in *.
  - by simplify_eq.
  - by apply IH.
Qed.

Lemma mean_pool_rectangular (m : list (list F)) D :
  Forall (λ row, length row = D) m →
  mean_pool (rank2 m) (length m) D
  = Return (PyFloat <$> ((λ d, mean (column m d)) <$> seq 0 D)).
Proof.
  intros Hrect. unfold mean_pool.
  rewrite <- list_fmap_compose.
  apply comprehension_total. intros d Hd.
  apply elem_of_seq in Hd as [_ Hd]. simpl in Hd.
  assert (Forall (λ row : list F, d < length row) m) as Hwide.
  { eapply Forall_impl; [exact Hrect|]. simpl. intros row ->. done. }
  pose proof (sum_tokens_suffix [] m d (of_int 0) Hwide) as Hsum.
  simpl in Hsum. rewrite Hsum. simpl.
  unfold mean, py_sum. by rewrite column_length.
Qed.

Lemma normalize_rank2_unfold (row0 : list F) (m : list (list F)) :
  _normalize (Native (rank2 (row0 :: m)))
  = mean_pool (rank2 (row0 :: m)) (length (row0 :: m)) (length row0).
Proof.
  destruct row0 as [|x row0]; unfold _normalize, rank2, rank1;
    cbn [fmap list_fmap is_list py_len length andb];
    rewrite ?length_fmap; [done|].
  rewrite andb_false_r. cbn [length]. by rewrite !length_fmap.
Qed.

Lemma normalize_rank2 (m : list (list F)) D :
  m ≠ [] → Forall (λ row, length row = D) m →
  _normalize (Native (rank2 m))
  = Return (PyFloat <$> ((λ d, mean (column m d)) <$> seq 0 D)).
Proof.
  intros Hne Hrect. destruct m as [|row0 m]; [done|].
  rewrite normalize_rank2_unfold.
  pose proof (mean_pool_rectangular _ _ Hrect) as Hpool.
  apply Forall_cons in Hrect as [Hrow0 _].
  by rewrite Hrow0.
Qed.

(** C2. A rank-2 input of T >= 1 token rows, each of width D, is
    normalised to exactly D numbers, and the number at position [d] is the
    arithmetic mean of column [d]: the sum of [input[t][d]] over the T
    tokens, taken left to right from 0, divided by T. The same holds when
    the rows arrive as an array object and go through [tolist()]. *)
Theorem normalize_rank2_is_column_mean (m : list (list F)) (D : nat) :
  m ≠ [] →
  Forall (λ row, length row = D) m →
  ∃ out : list F,
    _normalize (Native (rank2 m)) = Return (PyFloat <$> out)
    ∧ _normalize (Ndarray (rank2 m)) = Return (PyFloat <$> out)
    ∧ length out = D
    ∧ ∀ d, d < D →
        out !! d = Some (mean (column m d))
        ∧ length (column m d) = length m
        ∧ ∀ t row, m !! t = Some row → column m d !! t = row !! d.
Proof.
  intros Hne Hrect.
  exists ((λ d, mean (column m d)) <$> seq 0 D).
  split; [by apply normalize_rank2|].
  split; [by apply (normalize_rank2 m D)|].
  split; [by rewrite length_fmap, length_seq|].
  intros d Hd.
  assert (Forall (λ row : list F, d < length row) m) as Hwide.
  { eapply Forall_impl; [exact Hrect|]. simpl. intros row ->. done. }
  split; [|split].
  - rewrite list_lookup_fmap, lookup_seq_lt by done. done.
  - by apply column_length.
  - intros t row Ht. by apply column_lookup.
Qed.

(** C8, as the code has it. A scalar result is wrapped as a one-element
    vector; an empty list comes back as the empty list, and an iterable
    that is not a list comes back as the list of its elements. *)
Theorem normalize_scalar_and_empty (x : F) (l : list (pyval F)) :
  _normalize (Native (PyFloat x)) = Return [PyFloat x]
  ∧ _normalize (Ndarray (PyFloat x)) = Return [PyFloat x]
  ∧ _normalize (Native (PyList [])) = Return []
  ∧ _normalize (Ndarray (PyList [])) = Return []
  ∧ _normalize (Native (PyTuple l)) = Return l.
Proof. by repeat split. Qed.

(** C9. A rank-3 input is normalised to what its first rank-2 element
    alone is normalised to, whether that is a vector or an exception. *)
Theorem normalize_rank3_first_slice (first : list (list F))
    (rest : list (list (list F))) :
  _normalize (Native (rank3 (first :: rest))) = _normalize (Native (rank2 first))
  ∧ _normalize (Ndarray (rank3 (first :: rest)))
    = _normalize (Ndarray (rank2 first)).
Proof.
  assert (_normalize (Native (rank3 (first :: rest)))
          = _normalize (Native (rank2 first))) as Heq.
  { destruct first as [|row0 rows]; [done|].
    destruct row0 as [|x row0]; done. }
  split; [exact Heq|exact Heq].
Qed.

End normalizer_facts.

(** C8, as stated, fails on the empty list: the result has no element. *)
Lemma normalize_empty_is_not_singleton :
  Normalizer._normalize (F := float) (Normalizer.Native (Normalizer.PyList []))
  = Return []
  ∧ ∀ x, Normalizer._normalize (F := float)
           (Normalizer.Native (Normalizer.PyList [])) ≠ Return [x].
Proof. split; [reflexivity|]. intros x Hx. discriminate Hx. Qed.

(** C2 at a 2 x 2 matrix of doubles. *)

Lemma normalize_rank2_is_column_mean_witness :
  tokens_2x2 ≠ []
  ∧ Forall (λ row, length row = 2) tokens_2x2
  ∧ ∃ out : list float,
      Normalizer._normalize (Normalizer.Native (Normalizer.rank2 tokens_2x2))
      = Return (Normalizer.PyFloat <$> out)
      ∧ Normalizer._normalize
          (Normalizer.Ndarray (Normalizer.rank2 tokens_2x2))
        = Return (Normalizer.PyFloat <$> out)
      ∧ length out = 2
      ∧ ∀ d, d < 2 →
          out !! d = Some (Normalizer.mean (Normalizer.column tokens_2x2 d))
          ∧ length (Normalizer.column tokens_2x2 d) = length tokens_2x2
          ∧ ∀ t row, tokens_2x2 !! t = Some row →
              Normalizer.column tokens_2x2 d !! t = row !! d.
Proof.
  split; [discriminate|].
  split; [repeat constructor|].
  apply (normalize_rank2_is_column_mean tokens_2x2 2);
    [discriminate|repeat constructor].
Defined.

(** The same matrix over exact rationals: the means are 4/2 and 6/2. *)
Example normalize_rank2_rationals :
  Normalizer._normalize
    (Normalizer.Native
       (Normalizer.rank2 [[inject_Z 1; inject_Z 2]; [inject_Z 3; inject_Z 4]]))
  = Return [Normalizer.PyFloat (4 # 2)%Q; Normalizer.PyFloat (6 # 2)%Q].
Proof. vm_compute. reflexivity. Qed.

(** A ragged matrix is not rejected up front: the indexing fails. *)
Example normalize_ragged :
  Normalizer._normalize
    (Normalizer.Native (Normalizer.rank2 [[1; 2]; [3]]%float))
  = Raise IndexError.
Proof. vm_compute. reflexivity. Qed.

(** ** Webhook verification *)

Section webhook_facts.
Import Webhook.

Lemma truthy_nonempty (s : string) : truthy s = true ↔ s ≠ "".
Proof. destruct s; simpl; split; congruence. Qed.

(** C6, as the code has it. For a request whose [hub.challenge] is not
    empty, the route answers 200 with the challenge as body exactly when
    [hub.mode] is "subscribe" and [hub.verify_token] is the configured
    token, and raises the 403 exception in every other case; a parameter
    that is absent counts as the empty string. *)
Theorem verify_webhook_route_nonempty_challenge (verify_token : string)
    (params : gmap string string) :
  default "" (params !! "hub.challenge") ≠ "" →
  (verify_webhook_route verify_token params
   = PlainTextResponse (default "" (params !! "hub.challenge")) 200
   ↔ default "" (params !! "hub.mode") = "subscribe"
     ∧ default "" (params !! "hub.verify_token") = verify_token)
  ∧ (¬ (default "" (params !! "hub.mode") = "subscribe"
        ∧ default "" (params !! "hub.verify_token") = verify_token) →
     verify_webhook_route verify_token params
     = HTTPException 403 "Webhook verification failed").
Proof.
  intros Hne. apply truthy_nonempty in Hne.
  unfold verify_webhook_route, verify_webhook.
  repeat case_bool_decide; simpl; rewrite ?Hne;
    (split; [split; [intros; simplify_eq; tauto | tauto] | tauto]).
Qed.

End webhook_facts.

(** C6 at a well-formed verification request. *)

Lemma verify_webhook_route_nonempty_challenge_witness :
  default "" (handshake !! "hub.challenge") ≠ ""
  ∧ Webhook.verify_webhook_route "multisense-verify-token" handshake
    = Webhook.PlainTextResponse "1158201444" 200.
Proof.
  assert (default "" (handshake !! "hub.challenge") ≠ "") as Hne
    by (vm_compute; discriminate).
  split; [exact Hne|].
  apply (proj1 (verify_webhook_route_nonempty_challenge
                  "multisense-verify-token" handshake Hne)).
  split; reflexivity.
Defined.

(** C6, as stated, fails when the challenge is the empty string: the
    service verifies the request and hands back the challenge, and the
    route answers 403. *)
Lemma verify_webhook_route_empty_challenge :
  Webhook.verify_webhook "multisense-verify-token"
    "subscribe" "multisense-verify-token" "" = Some ""
  ∧ Webhook.verify_webhook_route "multisense-verify-token"
      (Webhook.request "subscribe" "multisense-verify-token" "")
    = Webhook.HTTPException 403 "Webhook verification failed".
Proof. split; vm_compute; reflexivity. Qed.

(** ** Conversation memory *)

Section memory_facts.
Import Memory.

Lemma lookup_foldl_delete {V} (ks : list string) (m : gmap string V) k :
  foldl (λ m k, delete k m) m ks !! k
  = if bool_decide (k ∈ ks) then None else m !! k.
Proof.
  revert m. induction ks as [|k' ks IH]; intros m; cbn [foldl].
  - rewrite bool_decide_false; [done|]. apply not_elem_of_nil.
  - rewrite IH. destruct (decide (k = k')) as [->|Hne].
    + rewrite lookup_delete_eq, (bool_decide_true (k' ∈ k' :: ks)) by left.
      by case_bool_decide.
    + rewrite lookup_delete_ne by done.
      rewrite (bool_decide_ext (k ∈ k' :: ks) (k ∈ ks)); [done|].
      rewrite elem_of_cons. split; [|by right].
      intros [?|?]; [congruence|done].
Qed.

(** What the sweep leaves of a session. *)
Lemma cleanup_expired_lookup (now : Z) (m : MemoryService) sid :
  _conversations (_cleanup_expired now m) !! sid
  = conv ← _conversations m !! sid;
    if bool_decide (updated_at conv < now - timedelta_hours (ttl_hours m))%Z
    then None else Some conv.
Proof.
  unfold _cleanup_expired, with_conversations. cbn [_conversations].
  rewrite lookup_foldl_delete.
  destruct (_conversations m !! sid) as [conv|] eqn:Hsid; simpl.
  - case_bool_decide as Hin; case_bool_decide as Hold; try done.
    + apply list_elem_of_bind in Hin as ([sid' conv'] & Hin & Hel).
      apply elem_of_map_to_list in Hel.
      case_bool_decide; [|by apply not_elem_of_nil in Hin].
      apply list_elem_of_singleton in Hin as ->. by simplify_eq.
    + exfalso. apply Hin, list_elem_of_bind. exists (sid, conv). split.
      * rewrite bool_decide_true by done. by left.
      * by apply elem_of_map_to_list.
  - by case_bool_decide.
Qed.

Lemma cleanup_expired_settings now m :
  max_history (_cleanup_expired now m) = max_history m
  ∧ ttl_hours (_cleanup_expired now m) = ttl_hours m.
Proof. done. Qed.

Lemma get_history_state sid now p : (get_history sid now p).2 = cleanup now p.
Proof. unfold get_history. by destruct (_ !! sid). Qed.

Lemma get_history_absent sid now p :
  _conversations (memory p) !! sid = None → (get_history sid now p).1 = [].
Proof.
  intros Hnone. unfold get_history.
  destruct (_conversations (memory (cleanup now p)) !! sid) eqn:Hl; [|done].
  exfalso. unfold cleanup in Hl. cbn [memory] in Hl.
  rewrite cleanup_expired_lookup, Hnone in Hl. done.
Qed.

(** C7. A session last written before [now - TTL] is deleted by the sweep
    that [get_history] (asked about any session) and [get_active_sessions]
    run before they answer at instant [now]: [get_history] returns the
    empty list for it, then and on every later call, and
    [get_active_sessions] does not list it. *)
Theorem expired_session_is_swept (p : process) (sid : string)
    (conv : ConversationHistory) (now : Z) :
  _conversations (memory p) !! sid = Some conv →
  (updated_at conv < now - timedelta_hours (ttl_hours (memory p)))%Z →
  (∀ other, _conversations (memory (get_history other now p).2) !! sid = None)
  ∧ (get_history sid now p).1 = []
  ∧ (∀ other later,
       (get_history sid later (get_history other now p).2).1 = [])
  ∧ (sid ∉ fst (get_active_sessions now p))
  ∧ _conversations (memory (get_active_sessions now p).2) !! sid = None.
Proof.
  intros Hsid Hold.
  assert (_conversations (memory (cleanup now p)) !! sid = None) as Hgone.
  { unfold cleanup. cbn [memory].
    rewrite cleanup_expired_lookup, Hsid. simpl.
    by rewrite bool_decide_true. }
  repeat split.
  - intros other. by rewrite get_history_state.
  - unfold get_history. by rewrite Hgone.
  - intros other later. apply get_history_absent.
    by rewrite get_history_state.
  - unfold get_active_sessions. cbn [fst].
    intros Hin. apply list_elem_of_fmap in Hin as ([sid' c] & -> & Hin).
    apply elem_of_map_to_list in Hin. simpl in *. congruence.
  - done.
Qed.

(** *** [add_turn], one call *)

Lemma add_turn_heap sid r c mt now p :
  heap (add_turn sid r c mt now p)
  = heap p ++ [ObjTurn (turn_of (r, c, mt, now))].
Proof. done. Qed.

Lemma add_turn_settings sid r c mt now p :
  max_history (memory (add_turn sid r c mt now p)) = max_history (memory p)
  ∧ ttl_hours (memory (add_turn sid r c mt now p)) = ttl_hours (memory p).
Proof. done. Qed.

Lemma add_turn_session_turns sid r c mt now p :
  session_turns sid (add_turn sid r c mt now p)
  = let ts := session_turns sid p ++ [length (heap p)] in
    if bool_decide (Z.of_nat (length ts) > max_history (memory p))%Z
    then slice_from (- max_history (memory p)) ts
    else ts.
Proof.
  unfold session_turns, add_turn, with_conversations, alloc.
  cbn [memory _conversations]. rewrite lookup_insert_eq. cbn [turns].
  by destruct (_conversations (memory p) !! sid).
Qed.

Lemma add_turn_other_session sid sid' r c mt now p :
  sid ≠ sid' →
  _conversations (memory (add_turn sid r c mt now p)) !! sid'
  = _conversations (memory p) !! sid'.
Proof.
  intros Hne. unfold add_turn, with_conversations, alloc.
  cbn [memory _conversations]. by rewrite lookup_insert_ne.
Qed.

Lemma slice_from_last {A} (n : nat) (l : list A) :
  0 < n → slice_from (- Z.of_nat n) l = lastn n l.
Proof.
  intros Hn. unfold slice_from, lastn.
  rewrite bool_decide_true by lia. f_equal. lia.
Qed.

Lemma slice_from_zero {A} (l : list A) : slice_from (- 0) l = l.
Proof. done. Qed.

(** With a positive maximum the session keeps the last [max] references. *)
Lemma add_turn_session_turns_positive sid r c mt now p (n : nat) :
  max_history (memory p) = Z.of_nat n → 0 < n →
  session_turns sid (add_turn sid r c mt now p)
  = lastn n (session_turns sid p ++ [length (heap p)]).
Proof.
  intros Hmax Hn. rewrite add_turn_session_turns. cbn zeta. rewrite Hmax.
  case_bool_decide as Hlen.
  - by apply slice_from_last.
  - unfold lastn. replace (_ - n) with 0 by lia. done.
Qed.

(** With a maximum of zero the slice [turns[-0:]] is the whole list. *)
Lemma add_turn_session_turns_zero sid r c mt now p :
  max_history (memory p) = 0%Z →
  session_turns sid (add_turn sid r c mt now p)
  = session_turns sid p ++ [length (heap p)].
Proof.
  intros Hmax. rewrite add_turn_session_turns. cbn zeta. rewrite Hmax.
  by case_bool_decide.
Qed.

(** *** [add_turn], a run of calls *)

Lemma add_turns_cons sid a calls p :
  add_turns sid (a :: calls) p
  = add_turns sid calls
      (add_turn sid a.1.1.1 a.1.1.2 a.1.2 a.2 p).
Proof. by destruct a as [[[r c] mt] now]. Qed.

Lemma add_turns_settings sid calls p :
  max_history (memory (add_turns sid calls p)) = max_history (memory p).
Proof.
  revert p. induction calls as [|a calls IH]; intros p; [done|].
  rewrite add_turns_cons, IH. apply add_turn_settings.
Qed.

Lemma add_turns_zero_length sid calls p :
  max_history (memory p) = 0%Z →
  length (session_turns sid (add_turns sid calls p))
  = length (session_turns sid p) + length calls.
Proof.
  revert p. induction calls as [|a calls IH]; intros p Hmax.
  - simpl. lia.
  - rewrite add_turns_cons, IH by (by rewrite (proj1 (add_turn_settings _ _ _ _ _ _))).
    rewrite add_turn_session_turns_zero by done.
    rewrite length_app. simpl. lia.
Qed.

(** C3, where the code departs from it. With a configured maximum of 0,
    no call trims anything: after N calls on a new service the session
    holds N turns, which is more than the maximum as soon as N >= 1. *)
Theorem add_turn_zero_maximum_keeps_every_turn (sid : string) (ttl : Z)
    (calls : list turn_args) :
  length (session_turns sid (add_turns sid calls (new_service 0 ttl)))
  = length calls.
Proof. by rewrite add_turns_zero_length. Qed.

(** *** The same run under a positive maximum *)

Lemma lastn_length {A} (n : nat) (l : list A) :
  length (lastn n l) = length l `min` n.
Proof. unfold lastn. rewrite length_drop. lia. Qed.

Lemma lastn_short {A} (n : nat) (l : list A) : length l ≤ n → lastn n l = l.
Proof. intros Hl. unfold lastn. by replace (length l - n) with 0 by lia. Qed.

Lemma lastn_app_long {A} (n : nat) (l k : list A) :
  n ≤ length k → lastn n (l ++ k) = lastn n k.
Proof.
  intros Hk. unfold lastn. rewrite length_app, drop_app_ge by lia.
  f_equal. lia.
Qed.

Lemma lastn_lastn_app {A} (n : nat) (l k : list A) :
  lastn n (lastn n l ++ k) = lastn n (l ++ k).
Proof.
  destruct (decide (length l ≤ n)) as [Hl|Hl];
    [by rewrite (lastn_short n l)|].
  unfold lastn at 1 3. rewrite !length_app, lastn_length.
  unfold lastn. rewrite <- (drop_app_le l k (length l - n)) by lia.
  rewrite drop_drop. f_equal. lia.
Qed.

Lemma lastn_seq (n h N : nat) : n ≤ N → lastn n (seq h N) = seq (h + N - n) n.
Proof.
  intros Hn. unfold lastn. rewrite length_seq, drop_seq. f_equal; lia.
Qed.

Lemma add_turns_heap sid calls p :
  heap (add_turns sid calls p) = heap p ++ ((ObjTurn ∘ turn_of) <$> calls).
Proof.
  revert p. induction calls as [|a calls IH]; intros p.
  - by rewrite app_nil_r.
  - rewrite add_turns_cons, IH, add_turn_heap. cbn [fmap list_fmap].
    rewrite <- app_assoc. by destruct a as [[[r c] mt] now].
Qed.

Lemma add_turns_session_turns_bounded sid calls p (n : nat) :
  max_history (memory p) = Z.of_nat n → 0 < n →
  length (session_turns sid p) ≤ n →
  session_turns sid (add_turns sid calls p)
  = lastn n (session_turns sid p ++ seq (length (heap p)) (length calls)).
Proof.
  revert p. induction calls as [|a calls IH]; intros p Hmax Hn Hlen.
  - simpl. by rewrite app_nil_r, lastn_short.
  - rewrite add_turns_cons.
    rewrite IH; [|by rewrite (proj1 (add_turn_settings _ _ _ _ _ _))|done|].
    + rewrite (add_turn_session_turns_positive _ _ _ _ _ _ n) by done.
      rewrite lastn_lastn_app, add_turn_heap, length_app, <- app_assoc.
      cbn [length app seq]. by rewrite Nat.add_1_r.
    + rewrite (add_turn_session_turns_positive _ _ _ _ _ _ n) by done.
      rewrite lastn_length. lia.
Qed.

Lemma add_turns_session_turns_positive sid a calls p (n : nat) :
  max_history (memory p) = Z.of_nat n → 0 < n →
  session_turns sid (add_turns sid (a :: calls) p)
  = lastn n (session_turns sid p
             ++ seq (length (heap p)) (length (a :: calls))).
Proof.
  intros Hmax Hn. rewrite add_turns_cons.
  rewrite (add_turns_session_turns_bounded _ _ _ n);
    [|by rewrite (proj1 (add_turn_settings _ _ _ _ _ _))|done|].
  - rewrite (add_turn_session_turns_positive _ _ _ _ _ _ n) by done.
    rewrite lastn_lastn_app, add_turn_heap, length_app, <- app_assoc.
    cbn [length app seq]. by rewrite Nat.add_1_r.
  - rewrite (add_turn_session_turns_positive _ _ _ _ _ _ n) by done.
    rewrite lastn_length. lia.
Qed.

Lemma stored_turns_session_turns sid p :
  stored_turns sid p = (λ l, heap p !! l) <$> session_turns sid p.
Proof. unfold stored_turns, session_turns. by destruct (_ !! sid). Qed.

(** For a positive maximum the statement of C3 holds of the code: after
    more calls than the maximum, the session holds exactly the objects of
    the last [max] calls, in the order of the calls. *)
Lemma add_turns_positive_maximum sid calls p (n : nat) :
  max_history (memory p) = Z.of_nat n → 0 < n → n < length calls →
  length (session_turns sid (add_turns sid calls p)) = n
  ∧ stored_turns sid (add_turns sid calls p)
    = (λ a, Some (ObjTurn (turn_of a))) <$> lastn n calls.
Proof.
  intros Hmax Hn Hlong. destruct calls as [|a calls]; [simpl in *; lia|].
  assert (session_turns sid (add_turns sid (a :: calls) p)
          = seq (length (heap p) + length (a :: calls) - n) n) as Hts.
  { rewrite (add_turns_session_turns_positive _ _ _ _ n) by done.
    rewrite lastn_app_long by (rewrite length_seq; lia).
    apply lastn_seq. lia. }
  split; [by rewrite Hts, length_seq|].
  rewrite stored_turns_session_turns, Hts, add_turns_heap.
  apply list_eq. intros i.
  rewrite !list_lookup_fmap. unfold lastn. rewrite lookup_drop.
  destruct (decide (i < n)) as [Hi|Hi].
  - rewrite lookup_seq_lt by done. cbn [fmap option_fmap option_map].
    rewrite lookup_app_r by lia. rewrite list_lookup_fmap.
    replace (length (heap p) + length (a :: calls) - n + i - length (heap p))
      with (length (a :: calls) - n + i) by lia.
    destruct (lookup_lt_is_Some_2 (a :: calls) (length (a :: calls) - n + i))
      as [x Hx]; [lia|].
    by rewrite Hx.
  - rewrite lookup_seq_ge by lia.
    rewrite (lookup_ge_None_2 (a :: calls)) by lia. done.
Qed.

(** Under a positive maximum no call leaves the session it writes to
    with more than [max] turns, and it leaves the others as they were. *)
Lemma add_turn_positive_maximum_bound sid r c mt now p (n : nat) :
  max_history (memory p) = Z.of_nat n → 0 < n →
  length (session_turns sid (add_turn sid r c mt now p)) ≤ n.
Proof.
  intros Hmax Hn.
  rewrite (add_turn_session_turns_positive _ _ _ _ _ _ n) by done.
  rewrite lastn_length. lia.
Qed.

End memory_facts.

(** The scenario of [test_max_history_limit]: ten calls under a maximum
    of five leave five turns; under a maximum of zero they leave ten. *)

Example max_history_limit_five :
  length (Memory.session_turns "session-4"
            (Memory.add_turns "session-4" ten_messages
               (Memory.new_service 5 24))) = 5.
Proof. vm_compute. reflexivity. Qed.

Example max_history_limit_zero :
  length (Memory.session_turns "session-4"
            (Memory.add_turns "session-4" ten_messages
               (Memory.new_service 0 24))) = 10.
Proof. vm_compute. reflexivity. Qed.

(** C7 at a session written at instant 0 and read one microsecond after
    its 24 hours have passed. *)

Lemma expired_session_is_swept_witness :
  Memory._conversations (Memory.memory stale_process) !! "alice"
  = Some stale_conv
  ∧ (Memory.updated_at stale_conv
     < 86400000001
       - Memory.timedelta_hours
           (Memory.ttl_hours (Memory.memory stale_process)))%Z
  ∧ fst (Memory.get_history "alice" 86400000001 stale_process) = []
  ∧ ("alice" ∉ fst (Memory.get_active_sessions 86400000001 stale_process)).
Proof.
  assert (Memory._conversations (Memory.memory stale_process) !! "alice"
          = Some stale_conv) as Hconv by (vm_compute; reflexivity).
  assert (Memory.updated_at stale_conv
          < 86400000001
            - Memory.timedelta_hours
                (Memory.ttl_hours (Memory.memory stale_process)))%Z
    as Hold by (vm_compute; reflexivity).
  destruct (expired_session_is_swept stale_process "alice" stale_conv
              86400000001 Hconv Hold) as (_ & Hhist & _ & Hactive & _).
  repeat split; assumption.
Defined.

(** ** RAG engine *)

Section rag_facts.
Import Normalizer Rag.
Context {F : Type} `{PyNum F}.

(** *** Which exceptions the engine's own code can raise *)

Lemma errors_only_Return {A} (a : A) : errors_only (Return a).
Proof. intros e He. discriminate He. Qed.

Lemma errors_only_bind {A B} (m : pyresult A) (f : A → pyresult B) :
  errors_only m → (∀ a, errors_only (f a)) → errors_only (m ≫= f).
Proof.
  intros Hm Hf e. destruct m as [a|e']; simpl.
  - apply Hf.
  - intros [= ->]. by apply Hm.
Qed.

Lemma errors_only_getitem (v : pyval F) i : errors_only (getitem v i).
Proof.
  intros e. unfold getitem.
  destruct v as [x|l|l|]; try destruct (l !! i); by intros [= <-].
Qed.

Lemma errors_only_py_float (v : pyval F) : errors_only (py_float v).
Proof. intros e. destruct v; by intros [= <-]. Qed.

Lemma errors_only_py_add acc (v : pyval F) : errors_only (py_add acc v).
Proof. intros e. destruct v; by intros [= <-]. Qed.

Lemma errors_only_sum_tokens (result : pyval F) d ts acc :
  errors_only (sum_tokens result d ts acc).
Proof.
  revert acc. induction ts as [|t ts IH]; intros acc.
  - apply errors_only_Return.
  - cbn [sum_tokens].
    apply errors_only_bind; [apply errors_only_getitem|]. intros row.
    apply errors_only_bind; [apply errors_only_getitem|]. intros x.
    apply errors_only_bind; [apply errors_only_py_add|]. intros acc'.
    apply IH.
Qed.

Lemma errors_only_comprehension {A B} (f : A → pyresult B) ds :
  (∀ d, errors_only (f d)) → errors_only (comprehension f ds).
Proof.
  intros Hf. induction ds as [|d ds IH].
  - apply errors_only_Return.
  - cbn [comprehension].
    apply errors_only_bind; [apply Hf|]. intros y.
    apply errors_only_bind; [apply IH|]. intros ys.
    apply errors_only_Return.
Qed.

Lemma errors_only_mean_pool (result : pyval F) T D :
  errors_only (mean_pool result T D).
Proof.
  apply errors_only_comprehension. intros d.
  apply errors_only_bind; [apply errors_only_sum_tokens|]. intros s.
  apply errors_only_Return.
Qed.

Lemma errors_only_normalize (r : api_result F) : errors_only (_normalize r).
Proof.
  assert (∀ xs : list (pyval F),
            errors_only
              (comprehension (λ x, y ← py_float x; Return (PyFloat y)) xs))
    as Hflat.
  { intros xs. apply errors_only_comprehension. intros x.
    apply errors_only_bind; [apply errors_only_py_float|]. intros y.
    apply errors_only_Return. }
  unfold _normalize.
  repeat case_match; subst;
    first [ apply errors_only_Return
          | apply errors_only_mean_pool
          | apply Hflat
          | by intros e [= <-] ].
Qed.

Lemma errors_only_index0 {A} (l : list A) : errors_only (index0 l).
Proof. intros e. destruct l; by intros [= <-]. Qed.

Lemma errors_only_combine_chunks
    (rows : list (string * option (gmap string meta_value) * F)) parts srcs :
  errors_only (combine_chunks rows parts srcs).
Proof.
  revert parts srcs. induction rows as [|[[doc meta] dist] rows IH];
    intros parts srcs.
  - apply errors_only_Return.
  - cbn [combine_chunks].
    apply errors_only_bind; [|intros src; apply IH].
    intros e. destruct meta; by intros [= <-].
Qed.

(** *** Retrieval *)

Lemma errors_only_embed_query (eng : RAGEngine F) query :
  errors_only (feature_extraction eng query) →
  errors_only (embed_query eng query).
Proof.
  intros Hfe. apply errors_only_bind; [done|].
  intros r. apply errors_only_normalize.
Qed.

Lemma retrieve_context_unfold order eng query top_k' :
  retrieve_context order eng query top_k'
  = try_except (retrieval_body order eng query (effective_k eng top_k'))
               (λ _, mret (EmptyString, [])).
Proof. done. Qed.

Lemma retrieval_body_errors_only order eng query k tr :
  raises_errors_only eng query k →
  errors_only (fst (retrieval_body order eng query k tr)).
Proof.
  intros (Hcoll & Hfe & Hq) e.
  pose proof (errors_only_embed_query eng query Hfe) as Hemb.
  unfold retrieval_body, _get_or_create_collection, call, lift.
  unfold mbind, pyM_bind, mret, pyM_ret.
  destruct (chroma_get_or_create_collection _ _) as [[]|e1] eqn:E1;
    cbn [fst]; [|intros He; simplify_eq; by apply Hcoll].
  destruct (embed_query eng query) as [emb|e2] eqn:E2;
    cbn [fst]; [|intros He; simplify_eq; by apply Hemb].
  destruct (chroma_query eng emb k) as [res|e3] eqn:E3;
    cbn [fst]; [|intros He; simplify_eq; by apply (Hq emb)].
  destruct (index0 (documents res)) as [docs|e4] eqn:E4;
    cbn [fst]; [|intros He; simplify_eq;
      by apply (errors_only_index0 (documents res))].
  destruct docs as [|doc docs]; cbn [fst]; [done|].
  destruct (index0 (metadatas res)) as [metas|e5] eqn:E5;
    cbn [fst]; [|intros He; simplify_eq;
      by apply (errors_only_index0 (metadatas res))].
  destruct (index0 (distances res)) as [dists|e6] eqn:E6;
    cbn [fst]; [|intros He; simplify_eq;
      by apply (errors_only_index0 (distances res))].
  destruct (combine_chunks _ _ _) as [[parts srcs]|e7] eqn:E7;
    cbn [fst]; [done|].
  intros He; simplify_eq.
  by apply (errors_only_combine_chunks
              (zip3 (doc :: docs) metas dists) [] ∅).
Qed.

Lemma try_except_empty {S A} (body : pyM S A) (v : A) (tr : S) :
  errors_only (fst (body tr)) →
  fst (try_except body (λ _, mret v) tr)
  = match fst (body tr) with
    | Return a => Return a
    | Raise _ => Return v
    end.
Proof.
  intros Hbody. unfold try_except.
  destruct (body tr) as [[a|e] tr'] eqn:E; cbn [fst] in *; [done|].
  by rewrite (Hbody e eq_refl).
Qed.

(** C4. When the remote calls of a retrieval raise errors only, the call
    returns and never raises; and it returns the empty context with the
    empty source list when the collection lookup raises, when the
    embedding of the query raises (in the inference call or in the
    normaliser), when the search raises, and when the search comes back
    with no document. *)
Theorem retrieve_context_degrades_to_empty (order : SetOrder)
    (eng : RAGEngine F) (query : string) (top_k' : option Z)
    (tr : list (store_op F)) :
  raises_errors_only eng query (effective_k eng top_k') →
  (∃ v, fst (retrieve_context order eng query top_k' tr) = Return v)
  ∧ ((∃ e, chroma_get_or_create_collection eng (collection_name eng)
           = Raise e) →
     fst (retrieve_context order eng query top_k' tr)
     = Return (EmptyString, []))
  ∧ ((∃ e, embed_query eng query = Raise e) →
     fst (retrieve_context order eng query top_k' tr)
     = Return (EmptyString, []))
  ∧ (∀ emb, embed_query eng query = Return emb →
       (∃ e, chroma_query eng emb (effective_k eng top_k') = Raise e) →
       fst (retrieve_context order eng query top_k' tr)
       = Return (EmptyString, []))
  ∧ (∀ emb res rest,
       embed_query eng query = Return emb →
       chroma_query eng emb (effective_k eng top_k') = Return res →
       documents res = [] :: rest →
       fst (retrieve_context order eng query top_k' tr)
       = Return (EmptyString, [])).
Proof.
  intros Herr. rewrite retrieve_context_unfold.
  rewrite try_except_empty by (by apply retrieval_body_errors_only).
  set (k := effective_k eng top_k').
  split; [by destruct (fst (retrieval_body order eng query k tr)); eauto|].
  unfold retrieval_body, _get_or_create_collection, call, lift.
  unfold mbind, pyM_bind, mret, pyM_ret.
  split; [|split; [|split]].
  - intros [e ->]. done.
  - intros [e ->]. by destruct (chroma_get_or_create_collection _ _) as [[]|].
  - intros emb -> [e ->].
    by destruct (chroma_get_or_create_collection _ _) as [[]|].
  - intros emb res rest -> -> ->.
    by destruct (chroma_get_or_create_collection _ _) as [[]|].
Qed.

Lemma combine_chunks_total (docs : list string)
    (metas : list (gmap string meta_value)) (dists : list F) parts srcs :
  length metas = length docs → length dists = length docs →
  combine_chunks (zip3 docs (Some <$> metas) dists) parts srcs
  = Return (parts ++ docs, srcs ∪ list_to_set (source_value <$> metas)).
Proof.
  revert metas dists parts srcs.
  induction docs as [|doc docs IH]; intros metas dists parts srcs Hm Hd.
  - destruct metas; [|done]. simpl.
    by rewrite app_nil_r, (right_id_L ∅ (∪)).
  - destruct metas as [|meta metas]; [done|].
    destruct dists as [|dist dists]; [done|].
    simpl in Hm, Hd. cbn [fmap list_fmap zip3 combine_chunks source_of].
    unfold mbind, pyresult_bind. rewrite IH by lia.
    rewrite <- app_assoc. cbn [app list_to_set]. f_equal. f_equal.
    unfold source_value. by rewrite (assoc_L (∪)).
Qed.

Lemma elem_of_first_appearance seen l x :
  x ∈ first_appearance seen l ↔ x ∈ l ∧ x ∉ seen.
Proof.
  revert seen. induction l as [|y l IH]; intros seen; cbn [first_appearance].
  - rewrite !elem_of_nil. tauto.
  - case_bool_decide as Hy.
    + rewrite IH, elem_of_cons. split; [tauto|].
      intros [[->|?] ?]; tauto.
    + rewrite !elem_of_cons, IH, elem_of_cons. split.
      * intros [->|(? & ?)]; [tauto|]. split; [tauto|]. tauto.
      * intros [[->|?] ?]; [tauto|].
        destruct (decide (x = y)); [tauto|]. right. split; [done|].
        intros [?|?]; tauto.
Qed.

Lemma NoDup_first_appearance seen l : NoDup (first_appearance seen l).
Proof.
  revert seen. induction l as [|y l IH]; intros seen; cbn [first_appearance].
  - constructor.
  - case_bool_decide as Hy; [apply IH|].
    constructor; [|apply IH].
    rewrite elem_of_first_appearance, elem_of_cons. tauto.
Qed.

Lemma combine_chunks_missing (docs : list string)
    (ms : list (option (gmap string meta_value))) (dists : list F)
    parts srcs :
  length ms = length docs → length dists = length docs → None ∈ ms →
  combine_chunks (zip3 docs ms dists) parts srcs = Raise AttributeError.
Proof.
  revert ms dists parts srcs.
  induction docs as [|doc docs IH]; intros ms dists parts srcs Hm Hd Hnone.
  - destruct ms; [|done]. by apply elem_of_nil in Hnone.
  - destruct ms as [|m ms]; [done|].
    destruct dists as [|dist dists]; [done|].
    simpl in Hm, Hd. cbn [zip3 combine_chunks].
    destruct m as [m|]; cbn [source_of]; [|done].
    unfold mbind, pyresult_bind. apply IH; [lia..|].
    by apply elem_of_cons in Hnone as [?|?].
Qed.

(** C1, as the code has it. The search returns a non-empty list of
    results: texts, with one metadata entry and one distance for each.
    When every result has a metadata dict, the call returns the texts
    joined by the separator, in result order, together with the distinct
    [source] values of the results ("unknown" where a dict has none),
    each once. The sources are listed in the iteration order of a Python
    set: the same values as the first-appearance listing, in an order the
    code does not fix. When a result has no metadata dict, the call
    returns the empty context and no sources. *)
Theorem retrieve_context_joins_texts_and_lists_sources (order : SetOrder)
    (eng : RAGEngine F) (query : string) (top_k' : option Z)
    (tr : list (store_op F)) (emb : list (pyval F)) (res : QueryResult F)
    (docs : list string) (ms : list (option (gmap string meta_value)))
    (dists : list F) rest_d rest_m rest_s :
  chroma_get_or_create_collection eng (collection_name eng) = Return () →
  embed_query eng query = Return emb →
  chroma_query eng emb (effective_k eng top_k') = Return res →
  documents res = docs :: rest_d →
  metadatas res = ms :: rest_m →
  distances res = dists :: rest_s →
  docs ≠ [] → length ms = length docs → length dists = length docs →
  (∀ metas : list (gmap string meta_value),
     ms = Some <$> metas →
     ∃ sources,
       fst (retrieve_context order eng query top_k' tr)
       = Return (String.concat separator docs, sources)
       ∧ sources = set_to_list order (list_to_set (source_value <$> metas))
       ∧ NoDup sources
       ∧ (∀ v, v ∈ sources ↔ v ∈ source_value <$> metas)
       ∧ sources ≡ₚ first_appearance [] (source_value <$> metas))
  ∧ (None ∈ ms →
     fst (retrieve_context order eng query top_k' tr)
     = Return (EmptyString, [])).
Proof.
  intros Hcoll Hemb Hq Hd Hm Hs Hne Hlm Hls. split.
  - intros metas ->. rewrite length_fmap in Hlm.
    exists (set_to_list order (list_to_set (source_value <$> metas))).
    assert (∀ v, v ∈ set_to_list order (list_to_set (source_value <$> metas))
                 ↔ v ∈ source_value <$> metas) as Helem.
    { intros v. rewrite set_to_list_elem. apply elem_of_list_to_set. }
    split; [|split; [done|split; [apply set_to_list_NoDup|split; [done|]]]].
    + rewrite retrieve_context_unfold. unfold try_except, retrieval_body.
      unfold _get_or_create_collection, call, lift.
      unfold mbind, pyM_bind, mret, pyM_ret.
      rewrite Hcoll, Hemb, Hq, Hd, Hm, Hs. cbn [index0].
      destruct docs as [|doc docs]; [done|].
      rewrite combine_chunks_total by done.
      cbn [fst]. by rewrite (left_id_L ∅ (∪)).
    + apply NoDup_Permutation;
        [apply set_to_list_NoDup|apply NoDup_first_appearance|].
      intros v. rewrite Helem, elem_of_first_appearance, elem_of_nil. tauto.
  - intros Hnone.
    rewrite retrieve_context_unfold. unfold try_except, retrieval_body.
    unfold _get_or_create_collection, call, lift.
    unfold mbind, pyM_bind, mret, pyM_ret.
    rewrite Hcoll, Hemb, Hq, Hd, Hm, Hs. cbn [index0].
    destruct docs as [|doc docs]; [done|].
    by rewrite combine_chunks_missing.
Qed.

(** *** Ingestion *)

(** C5. Content that is empty once stripped of whitespace yields a count
    of zero and no call on the vector store. In [ingest_pdf] this is the
    engine's own test of the extracted text. In [ingest_document] the
    count is the number of chunks the splitter returns, so the statement
    is that of the splitter: it holds when the splitter returns no chunk
    for blank content. *)
Theorem blank_content_is_not_ingested (eng : RAGEngine F)
    (tr : list (store_op F)) :
  (∀ pdf_data filename text,
     extract_text_from_pdf eng pdf_data = Return text →
     strip text = EmptyString →
     ingest_pdf eng pdf_data filename tr = (Return 0%Z, tr))
  ∧ ((∀ s, strip s = EmptyString → split_text eng s = []) →
     ∀ content filename metadata,
       strip content = EmptyString →
       ingest_document eng content filename metadata tr = (Return 0%Z, tr)).
Proof.
  split.
  - intros pdf_data filename text Htext Hblank.
    unfold ingest_pdf, lift. unfold mbind, pyM_bind, mret, pyM_ret.
    by rewrite Htext, Hblank.
  - intros Hsplit content filename metadata Hblank.
    unfold ingest_document. by rewrite (Hsplit content Hblank).
Qed.

End rag_facts.

(** *** The engine at concrete collaborators *)

(** C1, as stated, fails in a process where the first source met hashes
    to the higher slot: the sources come back as [a.pdf; b.pdf] while the
    order of first appearance in the results is [b.pdf; a.pdf]. *)
Lemma retrieve_context_sources_not_in_result_order :
  fst (Rag.retrieve_context (Rag.order_by_slot slots)
         (demo_engine (Return ()) (Return two_hits) []) "topic" None [])
  = Return ("beta" +:+ Rag.separator +:+ "alpha",
            [Rag.MStr "a.pdf"; Rag.MStr "b.pdf"])
  ∧ Rag.first_appearance [] (Rag.source_value <$> two_hits_metas)
    = [Rag.MStr "b.pdf"; Rag.MStr "a.pdf"].
Proof. split; vm_compute; reflexivity. Qed.

(** Under the reversed listing of the same set the sources of the same
    hits do come in result order: the order is the set's, not the code's. *)
Example retrieve_context_sources_follow_set_order :
  fst (Rag.retrieve_context Rag.order_reversed
         (demo_engine (Return ()) (Return two_hits) []) "topic" None [])
  = Return ("beta" +:+ Rag.separator +:+ "alpha",
            [Rag.MStr "b.pdf"; Rag.MStr "a.pdf"]).
Proof. vm_compute. reflexivity. Qed.

(** C1 at the same two hits. *)
Lemma retrieve_context_joins_texts_and_lists_sources_witness :
  ∃ sources,
    fst (Rag.retrieve_context Rag.order_elements
           (demo_engine (Return ()) (Return two_hits) []) "topic" None [])
    = Return (String.concat Rag.separator ["beta"; "alpha"], sources)
    ∧ sources = Rag.set_to_list Rag.order_elements
                  (list_to_set (Rag.source_value <$> two_hits_metas))
    ∧ NoDup sources
    ∧ (∀ v, v ∈ sources ↔ v ∈ Rag.source_value <$> two_hits_metas)
    ∧ sources ≡ₚ Rag.first_appearance []
                   (Rag.source_value <$> two_hits_metas).
Proof.
  assert (["beta"; "alpha"] ≠ @nil string) as Hne by discriminate.
  assert (length (Some <$> two_hits_metas)
          = length (A:=string) ["beta"; "alpha"]) as Hlm by reflexivity.
  assert (Rag.metadatas two_hits = (Some <$> two_hits_metas) :: [])
    as Hm by reflexivity.
  exact (proj1 (retrieve_context_joins_texts_and_lists_sources
                  Rag.order_elements
                  (demo_engine (Return ()) (Return two_hits) []) "topic"
                  None []
                  [Normalizer.PyFloat 1%float; Normalizer.PyFloat 0%float]
                  two_hits ["beta"; "alpha"] (Some <$> two_hits_metas)
                  [0.125; 0.25]%float [] [] []
                  eq_refl eq_refl eq_refl eq_refl Hm eq_refl
                  Hne Hlm eq_refl)
           two_hits_metas eq_refl).
Defined.

(** A hit that was stored without metadata: the read of its source
    raises, and the call answers as if nothing was found. *)
Example retrieve_context_hit_without_metadata :
  fst (Rag.retrieve_context Rag.order_elements
         (demo_engine (Return ())
            (Return {| Rag.documents := [["beta"; "alpha"]];
                       Rag.metadatas :=
                         [[Some {[ "source" := Rag.MStr "b.pdf" ]}; None]];
                       Rag.distances := [[0.125; 0.25]%float] |}) [])
         "topic" None [])
  = Return (EmptyString, []).
Proof. vm_compute. reflexivity. Qed.

(** C4 at a store that refuses the connection. *)
Lemma retrieve_context_degrades_to_empty_witness :
  Rag.raises_errors_only
    (demo_engine (Raise (ExternalError "connection refused"))
       (Return two_hits) [])
    "topic" 5
  ∧ fst (Rag.retrieve_context Rag.order_elements
           (demo_engine (Raise (ExternalError "connection refused"))
              (Return two_hits) [])
           "topic" None [])
    = Return (EmptyString, []).
Proof.
  assert (Rag.raises_errors_only
            (demo_engine (Raise (ExternalError "connection refused"))
               (Return two_hits) [])
            "topic" 5) as Herr.
  { split; [|split; [|intros emb]]; intros e He;
      first [discriminate He | by injection He as <-]. }
  split; [exact Herr|].
  destruct (retrieve_context_degrades_to_empty Rag.order_elements
              (demo_engine (Raise (ExternalError "connection refused"))
                 (Return two_hits) [])
              "topic" None [] Herr) as (_ & Hlookup & _).
  apply Hlookup. by eexists.
Defined.

(** What is not an error is not caught: an interrupt goes through. *)
Example retrieve_context_lets_interrupts_through :
  fst (Rag.retrieve_context Rag.order_elements
         (demo_engine (Raise (BaseExc "KeyboardInterrupt"))
            (Return two_hits) [])
         "topic" None [])
  = Raise (BaseExc "KeyboardInterrupt").
Proof. vm_compute. reflexivity. Qed.

(** A PDF whose one page has text is chunked and stored under ids made
    of the hash prefix and the chunk index. *)
Example ingest_pdf_one_page :
  Rag.ingest_pdf (demo_engine (Return ()) (Return two_hits) ["hello"])
    [] "a.pdf" []
  = (Return 1%Z,
     [Rag.GetOrCreateCollection "multisense_documents";
      Rag.Upsert ["9e107d9d_chunk_0"]
        [[Normalizer.PyFloat 1%float; Normalizer.PyFloat 0%float]]
        ["[Page 1]" +:+ nl +:+ "hello"]
        [{[ "type" := Rag.MStr "pdf"; "source" := Rag.MStr "a.pdf";
            "chunk_index" := Rag.MInt 0; "total_chunks" := Rag.MInt 1 ]}]]).
Proof. vm_compute. reflexivity. Qed.

(** C5 at a PDF without text and at content made of blanks. *)
Lemma blank_content_is_not_ingested_witness :
  Rag.ingest_pdf (demo_engine (Return ()) (Return two_hits) [])
    [] "empty.pdf" []
  = (Return 0%Z, [])
  ∧ Rag.ingest_document (demo_engine (Return ()) (Return two_hits) [])
      ("  " +:+ nl) "blank.txt" None []
    = (Return 0%Z, []).
Proof.
  destruct (blank_content_is_not_ingested
              (demo_engine (Return ()) (Return two_hits) []) [])
    as [Hpdf Hdoc].
  split.
  - apply (Hpdf [] "empty.pdf" EmptyString); reflexivity.
  - apply Hdoc; [|reflexivity].
    intros s Hs. cbn [Rag.split_text demo_engine]. by rewrite Hs.
Defined.

(** ** Text path of the processor *)

Section message_facts.
Import Memory Processor.

Lemma read_turn_Return h l turn :
  read_turn h l = Return turn ↔ h !! l = Some (ObjTurn turn).
Proof.
  unfold read_turn. destruct (h !! l) as [[t|d]|]; split; congruence.
Qed.

(** The comprehension only appends dicts to the heap; when it returns, the
    references it returns are the new ones, one per turn, each a dict
    built from the turn it stands for. *)
Lemma build_messages_spec (ts : list loc) (h : list pyobj) :
  ∃ ds : list (gmap string string),
    snd (build_messages ts h) = h ++ (ObjDict <$> ds)
    ∧ ∀ locs, fst (build_messages ts h) = Return locs →
        locs = seq (length h) (length ts)
        ∧ Forall2 (λ t d, ∃ turn, h !! t = Some (ObjTurn turn)
                                  ∧ d = message turn) ts ds.
Proof.
  revert h. induction ts as [|t ts IH]; intros h.
  - exists []. split; [by rewrite app_nil_r|].
    intros locs [= <-]. by split.
  - cbn [build_messages]. unfold mbind, pyM_bind, mret, pyM_ret, alloc.
    destruct (read_turn h t) as [turn|e] eqn:Hread.
    + apply read_turn_Return in Hread.
      destruct (IH (h ++ [ObjDict (message turn)])) as (ds & Hheap & Hlocs).
      exists (message turn :: ds).
      destruct (build_messages ts (h ++ [ObjDict (message turn)]))
        as [[locs'|e] h'] eqn:Hrest; cbn [fst snd] in *.
      * split; [by rewrite Hheap, <- app_assoc|].
        intros locs [= <-].
        destruct (Hlocs locs' eq_refl) as [-> Hall].
        rewrite length_app, Nat.add_1_r in *. split; [done|].
        constructor; [by eauto|].
        eapply Forall2_impl; [exact Hall|].
        intros t' d (turn' & Hl & ->). exists turn'. split; [|done].
        apply lookup_app_Some in Hl as [Hl|[_ Hl]]; [done|].
        by destruct (t' - length h) as [|[|?]].
      * split; [by rewrite Hheap, <- app_assoc|]. intros locs Hl. done.
    + exists []. cbn [fst snd]. split; [by rewrite app_nil_r|].
      intros locs Hl. done.
Qed.

Lemma read_messages_new (h : list pyobj) (ds : list (gmap string string)) :
  read_messages (h ++ (ObjDict <$> ds)) (seq (length h) (length ds)) = ds.
Proof.
  revert h. induction ds as [|d ds IH]; intros h; [done|].
  cbn [length seq fmap list_fmap]. unfold read_messages.
  cbn [omap list_omap]. rewrite list_lookup_middle by done.
  f_equal. specialize (IH (h ++ [ObjDict d])).
  rewrite <- app_assoc, length_app, Nat.add_1_r in IH. exact IH.
Qed.

Lemma get_chat_messages_spec sid now p :
  ∃ ds : list (gmap string string),
    heap (snd (get_chat_messages sid now p)) = heap p ++ (ObjDict <$> ds)
    ∧ memory (snd (get_chat_messages sid now p))
      = _cleanup_expired now (memory p)
    ∧ ∀ locs, fst (get_chat_messages sid now p) = Return locs →
        locs = seq (length (heap p)) (length ds)
        ∧ Forall2 (λ t d, ∃ turn, heap p !! t = Some (ObjTurn turn)
                                  ∧ d = message turn)
            (fst (get_history sid now p)) ds.
Proof.
  unfold get_chat_messages.
  pose proof (get_history_state sid now p) as Hstate.
  destruct (get_history sid now p) as [ts p'] eqn:Hhist.
  cbn [snd fst] in *. subst p'.
  destruct (build_messages_spec ts (heap (cleanup now p)))
    as (ds & Hheap & Hlocs).
  destruct (build_messages ts (heap (cleanup now p))) as [r h'] eqn:Hbuild.
  cbn [fst snd heap memory cleanup] in *.
  exists ds. split; [done|]. split; [done|].
  intros locs ->. destruct (Hlocs locs eq_refl) as [-> Hall].
  split; [|done]. f_equal. by apply Forall2_length in Hall.
Qed.

End message_facts.

Section processor_facts.
Import Normalizer Rag Memory Processor.
Context {F : Type} `{PyNum F}.

Lemma get_history_turns sid now p :
  fst (get_history sid now p) = []
  ∨ fst (get_history sid now p) = session_turns sid p.
Proof.
  unfold get_history, session_turns, cleanup. cbn [memory].
  rewrite cleanup_expired_lookup.
  destruct (_conversations (memory p) !! sid) as [conv|]; simpl; [|by left].
  case_bool_decide; [by left|by right].
Qed.

Lemma last_drop {A} (n : nat) (l : list A) :
  drop n l = [] ∨ last (drop n l) = last l.
Proof.
  destruct (drop n l) as [|x k] eqn:Hdrop; [by left|right].
  rewrite <- (take_drop n l), Hdrop, last_app.
  by destruct (last (x :: k)) eqn:Hl; [|apply last_None in Hl].
Qed.

(** Once a call has been recorded, the reference it added is the last
    one of the session, unless the session holds nothing at all. *)
Lemma add_turn_last sid r c mt now p :
  session_turns sid (add_turn sid r c mt now p) = []
  ∨ last (session_turns sid (add_turn sid r c mt now p))
    = Some (length (heap p)).
Proof.
  rewrite add_turn_session_turns. cbn zeta.
  case_bool_decide; [|right; apply last_snoc].
  unfold slice_from.
  destruct (last_drop
              (Z.to_nat
                 (if bool_decide (- max_history (memory p) < 0)%Z
                  then Z.max 0
                         (Z.of_nat
                            (length (session_turns sid p ++ [length (heap p)]))
                          + - max_history (memory p))
                  else (- max_history (memory p))%Z))
              (session_turns sid p ++ [length (heap p)])) as [->| ->];
    [by left|right; apply last_snoc].
Qed.

Lemma snoc_cases {A} (l : list A) : l = [] ∨ ∃ l' x, l = l' ++ [x].
Proof.
  destruct (last l) as [x|] eqn:Hlast.
  - right. apply last_Some in Hlast as [l' ->]. eauto.
  - left. by apply last_None.
Qed.

Lemma setitem_new (h : list pyobj) m (ds : list (gmap string string)) d k v :
  setitem (length h + length ds) k v
    {| heap := h ++ (ObjDict <$> (ds ++ [d])); memory := m |}
  = (Return (),
     {| heap := h ++ (ObjDict <$> (ds ++ [<[k := v]> d])); memory := m |}).
Proof.
  unfold setitem. cbn [heap memory].
  rewrite !fmap_app. cbn [fmap list_fmap].
  rewrite lookup_app_r by lia.
  replace (length h + length ds - length h) with (length (ObjDict <$> ds))
    by (rewrite length_fmap; lia).
  rewrite list_lookup_middle by done.
  rewrite insert_app_r_alt by lia.
  replace (length h + length ds - length h)
    with (length (ObjDict <$> ds) + 0) by (rewrite length_fmap; lia).
  by rewrite insert_app_r.
Qed.

Lemma augmented_message (turn : ConversationTurn) prompt :
  <["content" := prompt]> (message turn)
  = {[ "role" := role turn; "content" := prompt ]}.
Proof.
  unfold message.
  rewrite insert_insert_ne by done. by rewrite insert_singleton_eq.
Qed.

(** What a run of the text path with a retrieved context leaves behind:
    the heap as it was once the user turn was recorded, then the message
    dicts, then at most the assistant turn; and, when the model was
    called, the dicts it was sent, the last of which carries the augmented
    prompt in place of the content of the last stored turn. *)
Lemma process_text_run mp text sid t1 t2 t3 (w : world F) context srcs
    store' :
  retrieve_context (set_order mp) (rag mp) text None (store w)
  = (Return (context, srcs), store') →
  context ≠ EmptyString →
  ∃ (ds : list (gmap string string)) (tail : list pyobj),
    heap (proc (snd (process_text mp text sid true t1 t2 t3 w)))
    = heap (add_turn sid "user" text TEXT t1 (proc w))
      ++ (ObjDict <$> ds) ++ tail
    ∧ (llm_calls (snd (process_text mp text sid true t1 t2 t3 w))
       = llm_calls w
       ∨ (llm_calls (snd (process_text mp text sid true t1 t2 t3 w))
          = llm_calls w ++ [ds]
          ∧ (ds = []
             ∨ ∃ ds0 l turn,
                 ds = ds0 ++ [{[ "role" := role turn;
                                 "content" := augmented_prompt text context ]}]
                 ∧ last (fst (get_history sid t2
                                (add_turn sid "user" text TEXT t1 (proc w))))
                   = Some l
                 ∧ heap (add_turn sid "user" text TEXT t1 (proc w)) !! l
                   = Some (ObjTurn turn)))).
Proof.
  intros Hretr Hctx. apply truthy_nonempty in Hctx.
  unfold process_text, in_memory, in_store, in_memory_try, call_llm, lift.
  unfold mbind, pyM_bind, mret, pyM_ret. cbn [proc store llm_calls].
  rewrite Hretr, Hctx. cbn [proc store llm_calls].
  set (p1 := add_turn sid "user" text TEXT t1 (proc w)).
  destruct (get_chat_messages_spec sid t2 p1) as (ds & Hheap & Hmem & Hlocs).
  destruct (get_chat_messages sid t2 p1) as [[history|e] p2] eqn:Hgcm;
    cbn [fst snd proc store llm_calls] in *.
  - destruct (Hlocs history eq_refl) as [-> Hall]. clear Hlocs.
    destruct (snoc_cases ds) as [->|(ds0 & dl & ->)].
    + (* no turn to send *)
      cbn [length seq last]. cbn [proc store llm_calls].
      change (read_messages (heap p2) []) with (@nil (gmap string string)).
      destruct (chat_completion mp []) as [answer|e];
        [destruct (forallb is_str srcs)|]; cbn [snd proc llm_calls].
      * exists [], [ObjTurn (turn_of ("assistant", answer, TEXT, t3))].
        rewrite add_turn_heap, Hheap.
        split; [by rewrite <- app_assoc|]. right. split; [done|by left].
      * exists [], [ObjTurn (turn_of ("assistant", answer, TEXT, t3))].
        rewrite add_turn_heap, Hheap.
        split; [by rewrite <- app_assoc|]. right. split; [done|by left].
      * exists [], []. rewrite Hheap.
        split; [done|]. right. split; [done|by left].
    + (* the last dict is rewritten, then all are sent *)
      apply Forall2_app_inv_r in Hall
        as (ts0 & ts1 & Hall0 & Hall1 & Hts).
      apply Forall2_length in Hall0 as Hlen0.
      inversion Hall1 as [|tl dl' ts2 ds2 (turn & Hturn & ->) Hnil];
        subst. inversion Hnil; subst. clear Hall1 Hnil.
      rewrite length_app. cbn [length]. rewrite Nat.add_1_r, seq_S, last_snoc.
      destruct p2 as [h2 m2]. cbn [heap memory] in *. subst h2.
      cbn [proc store llm_calls].
      rewrite setitem_new, augmented_message.
      cbn [proc store llm_calls heap].
      set (dl := {[ "role" := role turn;
                    "content" := augmented_prompt text context ]}).
      assert (read_messages (heap p1 ++ (ObjDict <$> (ds0 ++ [dl])))
                (seq (length (heap p1)) (length ds0)
                 ++ [length (heap p1) + length ds0])
              = ds0 ++ [dl]) as ->.
      { rewrite <- seq_S.
        replace (S (length ds0)) with (length (ds0 ++ [dl]))
          by (rewrite length_app; simpl; lia).
        apply read_messages_new. }
      assert (last (fst (get_history sid t2 p1)) = Some tl) as Hlast
        by (rewrite Hts; apply last_snoc).
      destruct (chat_completion mp (ds0 ++ [dl])) as [answer|e];
        [destruct (forallb is_str srcs)|]; cbn [snd proc llm_calls].
      * exists (ds0 ++ [dl]),
          [ObjTurn (turn_of ("assistant", answer, TEXT, t3))].
        rewrite add_turn_heap. cbn [heap]. rewrite <- app_assoc.
        split; [done|]. right. split; [done|]. right. by exists ds0, tl, turn.
      * exists (ds0 ++ [dl]),
          [ObjTurn (turn_of ("assistant", answer, TEXT, t3))].
        rewrite add_turn_heap. cbn [heap]. rewrite <- app_assoc.
        split; [done|]. right. split; [done|]. right. by exists ds0, tl, turn.
      * exists (ds0 ++ [dl]), []. cbn [heap]. rewrite app_nil_r.
        split; [done|]. right. split; [done|]. right. by exists ds0, tl, turn.
  - (* building the messages raised *)
    exists ds, []. rewrite app_nil_r. split; [done|]. by left.
Qed.

(** C10. With RAG enabled and a non-empty retrieved context: the user turn
    is recorded with the original text, as the last turn of its session;
    every object that exists at that point, this turn among them, is the
    same object when the call ends, so the dicts that
    [get_chat_messages] builds are new objects and writing to one changes
    no stored turn; and the augmented prompt is the content of the last
    message of the list sent to the language model. *)
Theorem process_text_augments_only_the_sent_messages
    (mp : MultiModalProcessor F) (text sid : string) (t_user t_read t_reply : Z)
    (w : world F) (context : string) (srcs : list meta_value)
    (store' : list (store_op F)) :
  retrieve_context (set_order mp) (rag mp) text None (store w)
  = (Return (context, srcs), store') →
  context ≠ EmptyString →
  heap (proc (after_user_turn text sid t_user w)) !! length (heap (proc w))
  = Some (ObjTurn {| role := "user"; content := text;
                     timestamp := t_user; message_type := TEXT |})
  ∧ (session_turns sid (proc (after_user_turn text sid t_user w)) = []
     ∨ last (session_turns sid (proc (after_user_turn text sid t_user w)))
       = Some (length (heap (proc w))))
  ∧ (∀ l o,
       heap (proc (after_user_turn text sid t_user w)) !! l = Some o →
       heap (proc (snd (process_text mp text sid true
                          t_user t_read t_reply w))) !! l = Some o)
  ∧ (∀ sent,
       llm_calls (snd (process_text mp text sid true
                         t_user t_read t_reply w))
       = llm_calls w ++ [sent] →
       sent ≠ [] →
       last sent = Some {[ "role" := "user";
                           "content" := augmented_prompt text context ]}).
Proof.
  intros Hretr Hctx.
  destruct (process_text_run mp text sid t_user t_read t_reply w
              context srcs store' Hretr Hctx) as (ds & tail & Hheap & Hllm).
  cbn [after_user_turn proc].
  assert (heap (add_turn sid "user" text TEXT t_user (proc w))
            !! length (heap (proc w))
          = Some (ObjTurn {| role := "user"; content := text;
                             timestamp := t_user; message_type := TEXT |}))
    as Huser by (rewrite add_turn_heap; by apply list_lookup_middle).
  split; [exact Huser|]. split; [apply add_turn_last|]. split.
  - intros l o Hl. rewrite Hheap. by apply lookup_app_l_Some.
  - intros sent Hsent Hne.
    destruct Hllm as [Hllm|[Hllm Hds]].
    + rewrite Hllm in Hsent. apply (f_equal length) in Hsent.
      rewrite length_app in Hsent. simpl in Hsent. lia.
    + rewrite Hllm in Hsent. apply app_inv_head in Hsent as [= ->].
      destruct Hds as [->|(ds0 & l & turn & -> & Hlast & Hturn)]; [done|].
      rewrite last_snoc. do 2 f_equal.
      destruct (get_history_turns sid t_read
                  (add_turn sid "user" text TEXT t_user (proc w)))
        as [Hnone|Hsome].
      { rewrite Hnone in Hlast. done. }
      rewrite Hsome in Hlast.
      destruct (add_turn_last sid "user" text TEXT t_user (proc w))
        as [Hnone|Hlu].
      { rewrite Hnone in Hlast. done. }
      rewrite Hlu in Hlast.
      assert (l = length (heap (proc w))) as -> by congruence.
      pose proof (eq_trans (eq_sym Hturn) Huser) as Heq.
      by injection Heq as ->.
Qed.

End processor_facts.

(** C10 at a new service, the two hits above and a model that answers. *)

Lemma process_text_augments_only_the_sent_messages_witness :
  Rag.retrieve_context Rag.order_elements
    (demo_engine (Return ()) (Return two_hits) []) "topic" None []
  = (Return (demo_context, [Rag.MStr "a.pdf"; Rag.MStr "b.pdf"]),
     [Rag.GetOrCreateCollection "multisense_documents";
      Rag.Query [Normalizer.PyFloat 1%float; Normalizer.PyFloat 0%float] 5])
  ∧ demo_context ≠ EmptyString
  ∧ Memory.heap (Processor.proc
                   (Processor.after_user_turn "topic" "alice" 1 new_world))
      !! 0
    = Some (Memory.ObjTurn
              {| Memory.role := "user"; Memory.content := "topic";
                 Memory.timestamp := 1; Memory.message_type := Memory.TEXT |})
  ∧ (∀ sent,
       Processor.llm_calls
         (snd (Processor.process_text demo_processor "topic" "alice" true
                 1 2 3 new_world))
       = [] ++ [sent] →
       sent ≠ [] →
       last sent
       = Some {[ "role" := "user";
                 "content" := Processor.augmented_prompt "topic" demo_context ]}).
Proof.
  assert (Rag.retrieve_context Rag.order_elements
            (demo_engine (Return ()) (Return two_hits) []) "topic" None []
          = (Return (demo_context, [Rag.MStr "a.pdf"; Rag.MStr "b.pdf"]),
             [Rag.GetOrCreateCollection "multisense_documents";
              Rag.Query
                [Normalizer.PyFloat 1%float; Normalizer.PyFloat 0%float] 5]))
    as Hretr by (vm_compute; reflexivity).
  assert (demo_context ≠ EmptyString) as Hctx by (vm_compute; discriminate).
  destruct (process_text_augments_only_the_sent_messages
              demo_processor "topic" "alice" 1 2 3 new_world demo_context
              [Rag.MStr "a.pdf"; Rag.MStr "b.pdf"]
              [Rag.GetOrCreateCollection "multisense_documents";
               Rag.Query
                 [Normalizer.PyFloat 1%float; Normalizer.PyFloat 0%float] 5]
              Hretr Hctx) as (Huser & _ & _ & Hsent).
  repeat split; assumption.
Defined.

(** The same run, computed: the model is sent one message, the augmented
    prompt, and the session then holds the original text and the answer. *)
Example process_text_demo_run :
  Processor.llm_calls
    (snd (Processor.process_text demo_processor "topic" "alice" true
            1 2 3 new_world))
  = [[ {[ "role" := "user";
          "content" := Processor.augmented_prompt "topic" demo_context ]} ]]
  ∧ Memory.stored_turns "alice"
      (Processor.proc
         (snd (Processor.process_text demo_processor "topic" "alice" true
                 1 2 3 new_world)))
    = [Some (Memory.ObjTurn
               {| Memory.role := "user"; Memory.content := "topic";
                  Memory.timestamp := 1;
                  Memory.message_type := Memory.TEXT |});
       Some (Memory.ObjTurn
               {| Memory.role := "assistant";
                  Memory.content := "It is about beta.";
                  Memory.timestamp := 3;
                  Memory.message_type := Memory.TEXT |})].
Proof. split; vm_compute; reflexivity. Qed.

(** * Further properties of the same code *)

(** ** Embedding normaliser: rank 1 and ragged rank 2 *)

Section normalizer_more.
Import Normalizer.
Context {F : Type} `{PyNum F}.

Lemma comprehension_floats (v : list F) :
  comprehension (λ x : pyval F, y ← py_float x; Return (PyFloat y))
    (PyFloat <$> v)
  = Return (PyFloat <$> v).
Proof.
  induction v as [|x v IH]; [done|].
  rewrite !fmap_cons. cbn [comprehension py_float].
  unfold mbind, pyresult_bind. unfold mbind, pyresult_bind in IH.
  by rewrite IH.
Qed.

(** X1. A rank-1 input, a flat list of numbers of any length, is
    returned element for element, whether it arrives as a list or as an
    array object. *)
Theorem normalize_rank1_is_identity (v : list F) :
  _normalize (Native (rank1 v)) = Return (PyFloat <$> v)
  ∧ _normalize (Ndarray (rank1 v)) = Return (PyFloat <$> v).
Proof.
  assert (_normalize (Native (rank1 v)) = Return (PyFloat <$> v)) as Heq.
  { destruct v as [|x v]; [done|].
    unfold _normalize, rank1. cbn [fmap list_fmap is_list andb].
    apply (comprehension_floats (x :: v)). }
  split; exact Heq.
Qed.

(** The width of the output is that of the first row. *)
Lemma mean_pool_first_row_width (m : list (list F)) D :
  Forall (λ row, D ≤ length row) m →
  mean_pool (rank2 m) (length m) D
  = Return (PyFloat <$> ((λ d, mean (column m d)) <$> seq 0 D)).
Proof.
  intros Hwide. unfold mean_pool.
  rewrite <- list_fmap_compose.
  apply comprehension_total. intros d Hd.
  apply elem_of_seq in Hd as [_ Hd]. simpl in Hd.
  assert (Forall (λ row : list F, d < length row) m) as Hd'.
  { eapply Forall_impl; [exact Hwide|]. simpl. intros row ?. lia. }
  pose proof (sum_tokens_suffix [] m d (of_int 0) Hd') as Hsum.
  simpl in Hsum. rewrite Hsum. simpl.
  unfold mean, py_sum. by rewrite column_length.
Qed.

(** X2. Ragged input is not rejected. When no row is narrower than the
    first one, the output has the width of the first row and entry [d] is
    the mean of column [d] over all rows: whatever a row holds beyond that
    width is dropped without notice. *)
Theorem normalize_drops_overlong_rows (row0 : list F) (rest : list (list F)) :
  Forall (λ row, length row0 ≤ length row) rest →
  _normalize (Native (rank2 (row0 :: rest)))
  = Return (PyFloat <$> ((λ d, mean (column (row0 :: rest) d))
                           <$> seq 0 (length row0)))
  ∧ ∀ d, d < length row0 →
      length (column (row0 :: rest) d) = S (length rest).
Proof.
  intros Hwide.
  assert (Forall (λ row, length row0 ≤ length row) (row0 :: rest)) as Hall
    by (by constructor).
  split.
  - rewrite normalize_rank2_unfold. by apply mean_pool_first_row_width.
  - intros d Hd. rewrite column_length; [done|].
    eapply Forall_impl; [exact Hall|]. simpl. intros row ?. lia.
Qed.

(** Column [d] cannot be summed when a row has no entry [d]. *)
Lemma sum_tokens_short_row (pre suf : list (list F)) d acc :
  Exists (λ row, length row ≤ d) suf →
  sum_tokens (rank2 (pre ++ suf)) d (seq (length pre) (length suf)) acc
  = Raise IndexError.
Proof.
  revert pre acc.
  induction suf as [|row suf IH]; intros pre acc Hshort.
  - by apply Exists_nil in Hshort.
  - cbn [length seq sum_tokens].
    rewrite (getitem_rank2 _ _ row) by (by apply list_lookup_middle).
    cbn [mbind pyresult_bind].
    destruct (decide (d < length row)) as [Hd|Hd].
    + destruct (lookup_lt_is_Some_2 row d Hd) as [x Hx].
      rewrite (getitem_rank1 _ _ x Hx). cbn [mbind pyresult_bind py_add].
      apply Exists_cons in Hshort as [Hrow|Hshort]; [lia|].
      specialize (IH (pre ++ [row]) (f_add acc x) Hshort).
      rewrite <- app_assoc, length_app in IH. cbn [app length] in IH.
      by rewrite Nat.add_1_r in IH.
    + unfold getitem, rank1. rewrite list_lookup_fmap.
      by rewrite lookup_ge_None_2 by lia.
Qed.

Lemma comprehension_raises {A B} (f : A → pyresult B) (e : exn) ds :
  (∀ d, d ∈ ds → (∃ y, f d = Return y) ∨ f d = Raise e) →
  (∃ d, d ∈ ds ∧ f d = Raise e) →
  comprehension f ds = Raise e.
Proof.
  induction ds as [|d ds IH]; intros Hall (d0 & Hin & Hd0).
  - by apply elem_of_nil in Hin.
  - cbn [comprehension].
    destruct (Hall d) as [[y Hy]|He]; [by left| |by rewrite He].
    rewrite Hy. cbn [mbind pyresult_bind].
    rewrite IH; [done| |].
    + intros d' Hd'. apply Hall. by right.
    + apply elem_of_cons in Hin as [->|Hin]; [congruence|eauto].
Qed.

(** X3. A row narrower than the first one is not averaged over what it
    has: the call raises [IndexError]. *)
Theorem normalize_short_row_raises (row0 : list F) (rest : list (list F)) :
  Exists (λ row, length row < length row0) rest →
  _normalize (Native (rank2 (row0 :: rest))) = Raise IndexError.
Proof.
  intros Hshort. rewrite normalize_rank2_unfold. unfold mean_pool.
  apply comprehension_raises.
  - intros d _.
    destruct (decide (Forall (λ row : list F, d < length row) (row0 :: rest)))
      as [Hall|Hsome].
    + left. pose proof (sum_tokens_suffix [] _ d (of_int 0) Hall) as Hsum.
      cbn [app length] in Hsum. cbn [length]. rewrite Hsum. by eexists.
    + right. apply not_Forall_Exists in Hsome; [|apply _].
      pose proof (sum_tokens_short_row [] (row0 :: rest) d (of_int 0)) as Hsum.
      cbn [app length] in Hsum. cbn [length]. rewrite Hsum; [done|].
      eapply Exists_impl; [exact Hsome|]. simpl. intros row ?. lia.
  - apply Exists_exists in Hshort as (row & Hin & Hrow).
    exists (length row). split; [apply elem_of_seq; lia|].
    pose proof (sum_tokens_short_row [] (row0 :: rest) (length row) (of_int 0))
      as Hsum.
    cbn [app length] in Hsum. cbn [length]. rewrite Hsum; [done|].
    apply Exists_cons. right. apply Exists_exists. by exists row.
Qed.

End normalizer_more.

(** X2 at a two-wide first row and a three-wide second row. *)
Lemma normalize_drops_overlong_rows_witness :
  Forall (λ row : list float, length [1; 2]%float ≤ length row)
    [[3; 4; 5]%float]
  ∧ Normalizer._normalize
      (Normalizer.Native (Normalizer.rank2 [[1; 2]; [3; 4; 5]]%float))
    = Return
        (Normalizer.PyFloat
           <$> ((λ d, Normalizer.mean
                        (Normalizer.column [[1; 2]; [3; 4; 5]]%float d))
                  <$> seq 0 2)).
Proof.
  assert (Forall (λ row : list float, length [1; 2]%float ≤ length row)
            [[3; 4; 5]%float]) as Hwide
    by (repeat constructor; simpl; lia).
  split; [exact Hwide|].
  exact (proj1 (normalize_drops_overlong_rows [1; 2]%float [[3; 4; 5]%float]
                  Hwide)).
Defined.

(** X3 at a two-wide first row and a one-wide second row. *)
Lemma normalize_short_row_raises_witness :
  Exists (λ row : list float, length row < length [1; 2]%float) [[3]%float]
  ∧ Normalizer._normalize
      (Normalizer.Native (Normalizer.rank2 [[1; 2]; [3]]%float))
    = Raise IndexError.
Proof.
  assert (Exists (λ row : list float, length row < length [1; 2]%float)
            [[3]%float]) as Hshort
    by (constructor; simpl; lia).
  split; [exact Hshort|].
  exact (normalize_short_row_raises [1; 2]%float [[3]%float] Hshort).
Defined.

(** ** Conversation memory: bounds, isolation, expiry, clearing *)

Section memory_more.
Import Memory.

Lemma add_turn_lookup sid r c mt now p :
  ∃ conv,
    _conversations (memory (add_turn sid r c mt now p)) !! sid = Some conv
    ∧ turns conv = session_turns sid (add_turn sid r c mt now p)
    ∧ updated_at conv = now.
Proof.
  unfold session_turns, add_turn, with_conversations, alloc.
  cbn [memory _conversations]. rewrite lookup_insert_eq.
  eexists. split; [done|]. by split.
Qed.

Lemma cleanup_lookup_Some now p sid conv :
  _conversations (memory (cleanup now p)) !! sid = Some conv →
  _conversations (memory p) !! sid = Some conv.
Proof.
  unfold cleanup. cbn [memory]. rewrite cleanup_expired_lookup.
  destruct (_conversations (memory p) !! sid) as [c|]; simpl; [|done].
  by case_bool_decide.
Qed.

(** X4. Under a positive maximum, "no session holds more than [max]
    turns" is an invariant of the service: it holds of a new service and
    every operation keeps it. *)
Theorem within_maximum_is_invariant (n : nat) :
  0 < n →
  (∀ ttl, within_maximum n (new_service (Z.of_nat n) ttl))
  ∧ ∀ p, max_history (memory p) = Z.of_nat n → within_maximum n p →
      (∀ sid r c mt now, within_maximum n (add_turn sid r c mt now p))
      ∧ (∀ sid now, within_maximum n (snd (get_history sid now p)))
      ∧ (∀ sid now, within_maximum n (snd (get_chat_messages sid now p)))
      ∧ (∀ now, within_maximum n (snd (get_active_sessions now p)))
      ∧ (∀ sid, within_maximum n (snd (clear_session sid p))).
Proof.
  intros Hn. split.
  { intros ttl sid conv Hl. cbn in Hl. by rewrite lookup_empty in Hl. }
  intros p Hmax Hp.
  assert (∀ now, within_maximum n (cleanup now p)) as Hclean.
  { intros now sid conv Hl. apply cleanup_lookup_Some in Hl. by eapply Hp. }
  split; [|split; [|split; [|split]]].
  - intros sid r c mt now sid' conv Hl.
    destruct (decide (sid = sid')) as [<-|Hne].
    + destruct (add_turn_lookup sid r c mt now p) as (conv' & Hl' & Hts & _).
      rewrite Hl' in Hl. injection Hl as <-. rewrite Hts.
      by apply add_turn_positive_maximum_bound.
    + rewrite add_turn_other_session in Hl by done. by eapply Hp.
  - intros sid now. rewrite get_history_state. apply Hclean.
  - intros sid now sid' conv Hl.
    destruct (get_chat_messages_spec sid now p) as (ds & _ & Hmem & _).
    rewrite Hmem in Hl. by eapply (Hclean now).
  - intros now. apply Hclean.
  - intros sid sid' conv Hl. unfold clear_session in Hl.
    destruct (_conversations (memory p) !! sid) as [c|] eqn:Hsid;
      cbn [snd memory with_conversations _conversations] in Hl.
    + destruct (decide (sid = sid')) as [<-|Hne].
      * by rewrite lookup_delete_eq in Hl.
      * rewrite lookup_delete_ne in Hl by done. by eapply Hp.
    + by eapply Hp.
Qed.

Lemma add_turns_other_session sid sid' calls p :
  sid ≠ sid' →
  _conversations (memory (add_turns sid calls p)) !! sid'
  = _conversations (memory p) !! sid'.
Proof.
  intros Hne. revert p. induction calls as [|a calls IH]; intros p; [done|].
  rewrite add_turns_cons, IH. by apply add_turn_other_session.
Qed.

(** X5. Sessions are isolated: a run of [add_turn] calls on one session
    leaves every other session's record as it was, and leaves every
    object that existed before the run unchanged. *)
Theorem add_turns_touch_one_session (sid : string) (calls : list turn_args)
    (p : process) :
  (∀ sid', sid ≠ sid' →
     _conversations (memory (add_turns sid calls p)) !! sid'
     = _conversations (memory p) !! sid')
  ∧ (∀ l o, heap p !! l = Some o →
       heap (add_turns sid calls p) !! l = Some o)
  ∧ length (heap (add_turns sid calls p)) = length (heap p) + length calls.
Proof.
  split; [|split].
  - intros sid' Hne. by apply add_turns_other_session.
  - intros l o Hl. rewrite add_turns_heap. by apply lookup_app_l_Some.
  - by rewrite add_turns_heap, length_app, length_fmap.
Qed.

Lemma cleanup_keeps_live now p sid conv :
  _conversations (memory p) !! sid = Some conv →
  ¬ (updated_at conv < now - timedelta_hours (ttl_hours (memory p)))%Z →
  _conversations (memory (cleanup now p)) !! sid = Some conv.
Proof.
  intros Hsid Hlive. unfold cleanup. cbn [memory].
  rewrite cleanup_expired_lookup, Hsid. simpl. by rewrite bool_decide_false.
Qed.

(** X6. A live session survives the sweep untouched: [get_history]
    returns exactly its stored turns, and [get_active_sessions] lists
    it. *)
Theorem live_session_is_kept (p : process) (sid : string)
    (conv : ConversationHistory) (now : Z) :
  _conversations (memory p) !! sid = Some conv →
  ¬ (updated_at conv < now - timedelta_hours (ttl_hours (memory p)))%Z →
  fst (get_history sid now p) = turns conv
  ∧ (∀ other,
       _conversations (memory (snd (get_history other now p))) !! sid
       = Some conv)
  ∧ (sid ∈ fst (get_active_sessions now p)).
Proof.
  intros Hsid Hlive.
  pose proof (cleanup_keeps_live now p sid conv Hsid Hlive) as Hkept.
  split; [|split].
  - unfold get_history. by rewrite Hkept.
  - intros other. by rewrite get_history_state.
  - unfold get_active_sessions. cbn [fst].
    apply list_elem_of_fmap. exists (sid, conv). split; [done|].
    by apply elem_of_map_to_list.
Qed.

(** X7. [clear_session] answers whether the session existed; once it has
    run, [get_history] returns the empty list for that session at every
    later instant, [get_active_sessions] does not list it, and the other
    sessions are as they were. *)
Theorem clear_session_forgets_one_session (sid : string) (p : process) :
  fst (clear_session sid p)
  = bool_decide (is_Some (_conversations (memory p) !! sid))
  ∧ (∀ now, fst (get_history sid now (snd (clear_session sid p))) = [])
  ∧ (∀ now, sid ∉ fst (get_active_sessions now (snd (clear_session sid p))))
  ∧ (∀ sid', sid ≠ sid' →
       _conversations (memory (snd (clear_session sid p))) !! sid'
       = _conversations (memory p) !! sid')
  ∧ heap (snd (clear_session sid p)) = heap p.
Proof.
  assert (_conversations (memory (snd (clear_session sid p))) !! sid = None)
    as Hgone.
  { unfold clear_session.
    destruct (_conversations (memory p) !! sid) as [c|] eqn:Hsid;
      cbn [snd memory with_conversations _conversations]; [|done].
    apply lookup_delete_eq. }
  split; [|split; [|split; [|split]]].
  - unfold clear_session.
    destruct (_conversations (memory p) !! sid) as [c|]; cbn [fst].
    + by rewrite bool_decide_true.
    + rewrite bool_decide_false; [done|]. by intros [? ?].
  - intros now. by apply get_history_absent.
  - intros now Hin. unfold get_active_sessions in Hin. cbn [fst] in Hin.
    apply list_elem_of_fmap in Hin as ([sid' c] & -> & Hin).
    apply elem_of_map_to_list, cleanup_lookup_Some in Hin.
    simpl in *. congruence.
  - intros sid' Hne. unfold clear_session.
    destruct (_conversations (memory p) !! sid) as [c|];
      cbn [snd memory with_conversations _conversations]; [|done].
    by apply lookup_delete_ne.
  - unfold clear_session. by destruct (_conversations (memory p) !! sid).
Qed.

(** *** Reading back what was added *)

Lemma add_turns_snoc sid calls a p :
  add_turns sid (calls ++ [a]) p
  = add_turn sid a.1.1.1 a.1.1.2 a.1.2 a.2 (add_turns sid calls p).
Proof.
  unfold add_turns. rewrite foldl_app. by destruct a as [[[r c] mt] now].
Qed.

Lemma build_messages_total (ts : list loc) (h : list pyobj)
    (turns : list ConversationTurn) :
  Forall2 (λ l t, h !! l = Some (ObjTurn t)) ts turns →
  build_messages ts h
  = (Return (seq (length h) (length ts)),
     h ++ ((ObjDict ∘ message) <$> turns)).
Proof.
  intros Hall. revert h Hall.
  induction ts as [|l ts IH] in turns |- *; intros h Hall.
  - apply Forall2_nil_inv_l in Hall as ->. by rewrite app_nil_r.
  - apply Forall2_cons_inv_l in Hall as (t & turns' & Hl & Hall & ->).
    cbn [build_messages]. unfold mbind, pyM_bind, mret, pyM_ret, alloc.
    unfold read_turn. rewrite Hl.
    rewrite (IH turns' (h ++ [ObjDict (message t)])).
    + rewrite length_app, Nat.add_1_r, <- app_assoc. done.
    + eapply Forall2_impl; [exact Hall|]. simpl. intros l' t' Hl'.
      by apply lookup_app_l_Some.
Qed.

Lemma lookup_drop_seq {A} (xs : list A) (k : nat) :
  Forall2 (λ l x, xs !! l = Some x) (seq k (length xs - k)) (drop k xs).
Proof.
  apply Forall2_same_length_lookup_2.
  - rewrite length_seq, length_drop. done.
  - intros i l x Hl Hx. apply lookup_seq in Hl as [-> _].
    by rewrite lookup_drop in Hx.
Qed.

Lemma lastn_seq_all (n N : nat) : lastn n (seq 0 N) = seq (N - n) (N - (N - n)).
Proof. unfold lastn. rewrite length_seq, drop_seq. done. Qed.

(** X8. On a service with a positive maximum, after a run of [add_turn]
    calls on a session that is live when read, [get_chat_messages]
    returns one dict per stored turn, in order: the role and content of
    the last [max] calls (of all of them when they are fewer). The stored
    turns are left as they were. *)
Theorem get_chat_messages_reads_back_the_calls (n : nat) (ttl : Z)
    (sid : string) (calls : list turn_args) (a : turn_args) (now : Z) :
  0 < n →
  ¬ (a.2 < now - timedelta_hours ttl)%Z →
  ∃ locs,
    fst (get_chat_messages sid now
           (add_turns sid (calls ++ [a]) (new_service (Z.of_nat n) ttl)))
    = Return locs
    ∧ Processor.read_messages
        (heap (snd (get_chat_messages sid now
                      (add_turns sid (calls ++ [a])
                         (new_service (Z.of_nat n) ttl)))))
        locs
      = (message ∘ turn_of) <$> lastn n (calls ++ [a])
    ∧ stored_turns sid
        (snd (get_chat_messages sid now
                (add_turns sid (calls ++ [a])
                   (new_service (Z.of_nat n) ttl))))
      = (λ c, Some (ObjTurn (turn_of c))) <$> lastn n (calls ++ [a]).
Proof.
  intros Hn Hlive.
  set (p0 := new_service (Z.of_nat n) ttl).
  set (p := add_turns sid (calls ++ [a]) p0).
  set (N := length (calls ++ [a])).
  (* the record of the session *)
  assert (heap p = (ObjTurn ∘ turn_of) <$> (calls ++ [a])) as Hheap
    by (unfold p; by rewrite add_turns_heap).
  assert (session_turns sid p = lastn n (seq 0 N)) as Hturns.
  { unfold p, N. destruct (calls ++ [a]) as [|c cs] eqn:Hcs.
    { by destruct calls. }
    rewrite (add_turns_session_turns_positive _ _ _ _ n); done. }
  destruct (add_turn_lookup sid a.1.1.1 a.1.1.2 a.1.2 a.2
              (add_turns sid calls p0)) as (conv & Hconv & Hts & Hupd).
  rewrite <- add_turns_snoc in Hconv, Hts. fold p in Hconv, Hts.
  assert (ttl_hours (memory p) = ttl) as Httl.
  { unfold p. clear. generalize (calls ++ [a]). intros cs.
    assert (∀ q, ttl_hours (memory (add_turns sid cs q)) = ttl_hours (memory q))
      as Hq.
    { induction cs as [|c cs IH]; intros q; [done|].
      rewrite add_turns_cons, IH. apply add_turn_settings. }
    by rewrite Hq. }
  assert (_conversations (memory (cleanup now p)) !! sid = Some conv) as Hkept.
  { apply cleanup_keeps_live; [done|]. by rewrite Hupd, Httl. }
  (* the references it holds point to the turns of the last calls *)
  assert (Forall2 (λ l t, heap p !! l = Some (ObjTurn t))
            (turns conv) (turn_of <$> lastn n (calls ++ [a]))) as Hrefs.
  { rewrite Hts, Hturns, lastn_seq_all, Hheap.
    apply Forall2_fmap_r.
    eapply Forall2_impl;
      [apply (lookup_drop_seq (calls ++ [a]) (N - n))|].
    simpl. intros l c Hl. by rewrite list_lookup_fmap, Hl. }
  (* the dicts are built from them *)
  assert (get_chat_messages sid now p
          = (Return (seq (length (heap p)) (length (turns conv))),
             {| heap := heap p
                        ++ ((ObjDict ∘ message)
                              <$> (turn_of <$> lastn n (calls ++ [a])));
                memory := memory (cleanup now p) |})) as Hgcm.
  { unfold get_chat_messages, get_history. rewrite Hkept.
    cbn [heap cleanup]. by rewrite (build_messages_total _ _ _ Hrefs). }
  rewrite Hgcm. cbn [fst snd heap].
  eexists. split; [done|]. split.
  - rewrite (list_fmap_compose message ObjDict), (Forall2_length _ _ _ Hrefs).
    rewrite <- (length_fmap message (turn_of <$> lastn n (calls ++ [a]))).
    rewrite read_messages_new.
    by rewrite <- list_fmap_compose.
  - unfold stored_turns. cbn [memory heap]. rewrite Hkept.
    apply list_eq. intros i. rewrite !list_lookup_fmap.
    destruct (turns conv !! i) as [l|] eqn:Hl.
    + destruct (Forall2_lookup_l _ _ _ _ _ Hrefs Hl) as (t & Ht & Hlt).
      rewrite list_lookup_fmap in Ht.
      destruct (lastn n (calls ++ [a]) !! i) as [c|]; [|done].
      simpl in *. injection Ht as <-.
      by rewrite (lookup_app_l_Some _ _ _ _ Hlt).
    + apply Forall2_length in Hrefs. rewrite length_fmap in Hrefs.
      apply lookup_ge_None in Hl.
      rewrite (lookup_ge_None_2 (lastn n (calls ++ [a]))) by lia. done.
Qed.

End memory_more.

(** X4 at the maximum of [test_max_history_limit]. *)
Lemma within_maximum_is_invariant_witness :
  0 < 5
  ∧ within_maximum 5 (Memory.new_service (Z.of_nat 5) 24)
  ∧ within_maximum 5
      (Memory.add_turn "alice" "user" "hello" Memory.TEXT 0
         (Memory.new_service (Z.of_nat 5) 24)).
Proof.
  assert (0 < 5) as Hpos by lia.
  destruct (within_maximum_is_invariant 5 Hpos) as [Hnew Hstep].
  split; [exact Hpos|]. split; [apply Hnew|].
  apply (Hstep (Memory.new_service (Z.of_nat 5) 24) eq_refl (Hnew 24%Z)).
Defined.

(** X6 at a session written at instant 0 and read one hour later. *)
Lemma live_session_is_kept_witness :
  Memory._conversations (Memory.memory stale_process) !! "alice"
  = Some stale_conv
  ∧ ¬ (Memory.updated_at stale_conv
       < 3600000000
         - Memory.timedelta_hours
             (Memory.ttl_hours (Memory.memory stale_process)))%Z
  ∧ fst (Memory.get_history "alice" 3600000000 stale_process) = [0]
  ∧ ("alice" ∈ fst (Memory.get_active_sessions 3600000000 stale_process)).
Proof.
  assert (Memory._conversations (Memory.memory stale_process) !! "alice"
          = Some stale_conv) as Hconv by (vm_compute; reflexivity).
  assert (¬ (Memory.updated_at stale_conv
             < 3600000000
               - Memory.timedelta_hours
                   (Memory.ttl_hours (Memory.memory stale_process)))%Z)
    as Hlive by (vm_compute; discriminate).
  destruct (live_session_is_kept stale_process "alice" stale_conv
              3600000000 Hconv Hlive) as (Hhist & _ & Hactive).
  repeat split; assumption.
Defined.

(** X8 at the calls of [test_max_history_limit] and one more. *)
Lemma get_chat_messages_reads_back_the_calls_witness :
  0 < 5
  ∧ ¬ (10 < 11 - Memory.timedelta_hours 24)%Z
  ∧ ∃ locs,
      fst (Memory.get_chat_messages "alice" 11
             (Memory.add_turns "alice"
                (ten_messages ++ [("user", "again", Memory.TEXT, 10%Z)])
                (Memory.new_service (Z.of_nat 5) 24)))
      = Return locs
      ∧ Processor.read_messages
          (Memory.heap
             (snd (Memory.get_chat_messages "alice" 11
                     (Memory.add_turns "alice"
                        (ten_messages
                         ++ [("user", "again", Memory.TEXT, 10%Z)])
                        (Memory.new_service (Z.of_nat 5) 24)))))
          locs
        = (Memory.message ∘ Memory.turn_of)
            <$> Memory.lastn 5
                  (ten_messages ++ [("user", "again", Memory.TEXT, 10%Z)]).
Proof.
  assert (0 < 5) as Hpos by lia.
  assert (¬ (10 < 11 - Memory.timedelta_hours 24)%Z) as Hlive
    by (vm_compute; discriminate).
  split; [exact Hpos|]. split; [exact Hlive|].
  destruct (get_chat_messages_reads_back_the_calls 5 24 "alice" ten_messages
              ("user", "again", Memory.TEXT, 10%Z) 11 Hpos Hlive)
    as (locs & Hret & Hread & _).
  exists locs. split; assumption.
Defined.

(** ** RAG engine: what ingestion sends to the store *)

Section rag_more.
Import Normalizer Rag.
Context {F : Type} `{PyNum F}.

Lemma comprehension_Return {A B} (f : A → pyresult B) ds ys :
  comprehension f ds = Return ys → Forall2 (λ d y, f d = Return y) ds ys.
Proof.
  revert ys. induction ds as [|d ds IH]; intros ys.
  - intros [= <-]. constructor.
  - cbn [comprehension]. unfold mbind, pyresult_bind.
    destruct (f d) as [y|e] eqn:Hd; [|done].
    destruct (comprehension f ds) as [ys'|e]; [|done].
    intros [= <-]. constructor; [done|by apply IH].
Qed.

Lemma chunk_ids_NoDup (prefix : string) (n : nat) :
  NoDup ((λ i : nat, prefix +:+ "_chunk_" +:+ pretty i) <$> seq 0 n).
Proof.
  apply NoDup_fmap_2; [|apply NoDup_seq].
  intros i j Hij. apply (inj (String.app prefix)) in Hij.
  apply (inj (String.app "_chunk_")) in Hij. by apply (inj pretty) in Hij.
Qed.

(** X9. When the splitter returns at least one chunk and every call
    returns, [ingest_document] makes exactly two calls on the store, the
    collection lookup and then one upsert of all chunks, and returns their
    number. The upsert carries one id, one embedding and one metadata
    dict per chunk, in chunk order; the ids are the first eight characters
    of the file-name digest followed by [_chunk_] and the index, so they
    are pairwise distinct; embedding [i] is that of chunk [i]. Each dict
    holds every key the caller passed, with the caller's value, and
    [source], [chunk_index] and [total_chunks] for the keys the caller did
    not pass. *)
Theorem ingest_document_upserts_every_chunk (eng : RAGEngine F)
    (content filename : string) (metadata : option (gmap string meta_value))
    (tr : list (store_op F)) (embs : list (list (pyval F))) :
  split_text eng content ≠ [] →
  embed_documents eng (split_text eng content) = Return embs →
  chroma_get_or_create_collection eng (collection_name eng) = Return () →
  (∀ ids es docs metas, chroma_upsert eng ids es docs metas = Return ()) →
  ∃ ids metas,
    ingest_document eng content filename metadata tr
    = (Return (Z.of_nat (length (split_text eng content))),
       tr ++ [GetOrCreateCollection (collection_name eng);
              Upsert ids embs (split_text eng content) metas])
    ∧ length ids = length (split_text eng content)
    ∧ length embs = length (split_text eng content)
    ∧ length metas = length (split_text eng content)
    ∧ NoDup ids
    ∧ Forall2 (λ chunk e, embed_query eng chunk = Return e)
        (split_text eng content) embs
    ∧ (∀ i, i < length (split_text eng content) →
         ids !! i
         = Some (String.substring 0 8 (md5_hexdigest eng filename)
                 +:+ "_chunk_" +:+ pretty i))
    ∧ (∀ i m, metas !! i = Some m →
         (∀ k v, default ∅ metadata !! k = Some v → m !! k = Some v)
         ∧ (default ∅ metadata !! "source" = None →
            m !! "source" = Some (MStr filename))
         ∧ (default ∅ metadata !! "chunk_index" = None →
            m !! "chunk_index" = Some (MInt (Z.of_nat i)))
         ∧ (default ∅ metadata !! "total_chunks" = None →
            m !! "total_chunks"
            = Some (MInt (Z.of_nat (length (split_text eng content)))))).
Proof.
  intros Hne Hemb Hcoll Hups.
  pose proof (comprehension_Return _ _ _ Hemb) as Hall.
  unfold ingest_document.
  destruct (split_text eng content) as [|chunk chunks] eqn:Hsplit; [done|].
  set (cs := chunk :: chunks) in *.
  unfold _get_or_create_collection, call, lift.
  unfold mbind, pyM_bind, mret, pyM_ret.
  rewrite Hemb, Hcoll, Hups. rewrite <- app_assoc. cbn [app].
  eexists _, _. split; [reflexivity|].
  split; [by rewrite length_fmap, length_seq|].
  split; [symmetry; by eapply Forall2_length|].
  split; [by rewrite length_fmap, length_seq|].
  split; [apply chunk_ids_NoDup|].
  split; [done|]. split.
  - intros i Hi. rewrite list_lookup_fmap, lookup_seq_lt by done. done.
  - intros i m Hm. rewrite list_lookup_fmap in Hm.
    destruct (seq 0 (length cs) !! i) as [j|] eqn:Hj; [|done].
    apply lookup_seq in Hj as [-> _]. injection Hm as <-.
    split; [|split; [|split]].
    + intros k v Hk. by apply lookup_union_Some_l.
    + intros Hk. rewrite lookup_union_r by done. done.
    + intros Hk. rewrite lookup_union_r by done. done.
    + intros Hk. rewrite lookup_union_r by done. done.
Qed.

(** X10. Ingestion is not atomic, but it is ordered: when the embedding
    of some chunk raises, the call raises before any call on the store;
    when the collection lookup raises, no upsert is made; and a count is
    returned only after the upsert has returned. *)
Theorem ingest_document_stops_at_first_failure (eng : RAGEngine F)
    (content filename : string) (metadata : option (gmap string meta_value))
    (tr : list (store_op F)) :
  split_text eng content ≠ [] →
  (∀ e, embed_documents eng (split_text eng content) = Raise e →
     ingest_document eng content filename metadata tr = (Raise e, tr))
  ∧ (∀ embs e,
       embed_documents eng (split_text eng content) = Return embs →
       chroma_get_or_create_collection eng (collection_name eng) = Raise e →
       ingest_document eng content filename metadata tr
       = (Raise e, tr ++ [GetOrCreateCollection (collection_name eng)]))
  ∧ (∀ n tr',
       ingest_document eng content filename metadata tr = (Return n, tr') →
       ∃ ids embs metas,
         tr' = tr ++ [GetOrCreateCollection (collection_name eng);
                      Upsert ids embs (split_text eng content) metas]
         ∧ chroma_upsert eng ids embs (split_text eng content) metas
           = Return ()).
Proof.
  intros Hne. unfold ingest_document.
  destruct (split_text eng content) as [|chunk chunks] eqn:Hsplit; [done|].
  set (cs := chunk :: chunks) in *.
  unfold _get_or_create_collection, call, lift.
  unfold mbind, pyM_bind, mret, pyM_ret.
  split; [|split].
  - intros e ->. done.
  - intros embs e -> ->. done.
  - intros n tr'.
    destruct (embed_documents eng cs) as [embs|e]; [|done].
    destruct (chroma_get_or_create_collection eng (collection_name eng))
      as [[]|e]; [|done].
    match goal with
    | |- context [chroma_upsert eng ?ids ?es ?docs ?metas] =>
        destruct (chroma_upsert eng ids es docs metas) as [[]|e] eqn:Hups
    end; [|done].
    intros [= <- <-]. eexists _, _, _.
    split; [by rewrite <- app_assoc|exact Hups].
Qed.

End rag_more.

(** X9 at one chunk and a store that answers. *)
Lemma ingest_document_upserts_every_chunk_witness :
  Rag.split_text (demo_engine (Return ()) (Return two_hits) []) "hello" ≠ []
  ∧ Rag.embed_documents (demo_engine (Return ()) (Return two_hits) [])
      (Rag.split_text (demo_engine (Return ()) (Return two_hits) []) "hello")
    = Return [[Normalizer.PyFloat 1%float; Normalizer.PyFloat 0%float]]
  ∧ Rag.chroma_get_or_create_collection
      (demo_engine (Return ()) (Return two_hits) [])
      (Rag.collection_name (demo_engine (Return ()) (Return two_hits) []))
    = Return ()
  ∧ ∃ ids metas,
      Rag.ingest_document (demo_engine (Return ()) (Return two_hits) [])
        "hello" "a.pdf" None []
      = (Return 1%Z,
         [Rag.GetOrCreateCollection "multisense_documents";
          Rag.Upsert ids
            [[Normalizer.PyFloat 1%float; Normalizer.PyFloat 0%float]]
            ["hello"] metas])
      ∧ NoDup ids.
Proof.
  assert (Rag.split_text (demo_engine (Return ()) (Return two_hits) [])
            "hello" ≠ []) as Hsplit by (vm_compute; discriminate).
  assert (Rag.embed_documents (demo_engine (Return ()) (Return two_hits) [])
            (Rag.split_text (demo_engine (Return ()) (Return two_hits) [])
               "hello")
          = Return [[Normalizer.PyFloat 1%float; Normalizer.PyFloat 0%float]])
    as Hemb by (vm_compute; reflexivity).
  assert (Rag.chroma_get_or_create_collection
            (demo_engine (Return ()) (Return two_hits) [])
            (Rag.collection_name
               (demo_engine (Return ()) (Return two_hits) []))
          = Return ()) as Hcoll by reflexivity.
  split; [exact Hsplit|]. split; [exact Hemb|]. split; [exact Hcoll|].
  destruct (ingest_document_upserts_every_chunk
              (demo_engine (Return ()) (Return two_hits) [])
              "hello" "a.pdf" None [] _ Hsplit Hemb Hcoll
              (λ _ _ _ _, eq_refl))
    as (ids & metas & Hrun & _ & _ & _ & Hnodup & _).
  exists ids, metas. split; [exact Hrun|exact Hnodup].
Defined.

(** X10 at a store whose collection lookup fails. *)
Lemma ingest_document_stops_at_first_failure_witness :
  Rag.split_text
    (demo_engine (Raise (ExternalError "connection refused"))
       (Return two_hits) []) "hello" ≠ []
  ∧ Rag.ingest_document
      (demo_engine (Raise (ExternalError "connection refused"))
         (Return two_hits) []) "hello" "a.pdf" None []
    = (Raise (ExternalError "connection refused"),
       [] ++ [Rag.GetOrCreateCollection "multisense_documents"]).
Proof.
  assert (Rag.split_text
            (demo_engine (Raise (ExternalError "connection refused"))
               (Return two_hits) []) "hello" ≠ []) as Hsplit
    by (vm_compute; discriminate).
  split; [exact Hsplit|].
  destruct (ingest_document_stops_at_first_failure
              (demo_engine (Raise (ExternalError "connection refused"))
                 (Return two_hits) [])
              "hello" "a.pdf" None [] Hsplit) as (_ & Hlookup & _).
  apply (Hlookup [[Normalizer.PyFloat 1%float; Normalizer.PyFloat 0%float]]).
  - vm_compute. reflexivity.
  - reflexivity.
Defined.

(** ** RAG engine: which PDFs pass the blank test *)

Section pdf_more.
Import Normalizer Rag.
Context {F : Type} `{PyNum F}.

Lemma lstrip_empty (s : string) : lstrip s = "" ↔ all_space s = true.
Proof.
  induction s as [|c s IH]; [done|]. cbn [lstrip all_space].
  destruct (py_isspace c); [by rewrite IH|]. split; intros; done.
Qed.

Lemma lstrip_idemp (s : string) : lstrip (lstrip s) = lstrip s.
Proof.
  induction s as [|c s IH]; [done|]. cbn [lstrip].
  destruct (py_isspace c) eqn:Hc; [done|]. cbn [lstrip]. by rewrite Hc.
Qed.

Lemma all_space_rev_app (s1 s2 : string) :
  all_space (String.rev_app s1 s2) = all_space s1 && all_space s2.
Proof.
  revert s2. induction s1 as [|c s1 IH]; intros s2; [done|].
  cbn [String.rev_app all_space]. rewrite IH. cbn [all_space].
  by destruct (py_isspace c), (all_space s1), (all_space s2).
Qed.

Lemma rev_app_empty (s1 s2 : string) :
  String.rev_app s1 s2 = "" → s1 = "" ∧ s2 = "".
Proof.
  revert s2. induction s1 as [|c s1 IH]; intros s2; [done|].
  cbn [String.rev_app]. intros Hr. by destruct (IH _ Hr).
Qed.

Lemma strip_empty (s : string) : strip s = "" ↔ all_space s = true.
Proof.
  unfold strip, rstrip, String.rev. split.
  - intros Hs. apply rev_app_empty in Hs as [Hs _].
    apply lstrip_empty in Hs. rewrite all_space_rev_app in Hs.
    apply andb_true_iff in Hs as [Hs _].
    apply lstrip_empty in Hs. rewrite lstrip_idemp in Hs.
    by apply lstrip_empty.
  - intros Hs. apply lstrip_empty in Hs. by rewrite Hs.
Qed.

Lemma truthy_strip (s : string) :
  truthy (strip s) = negb (all_space s).
Proof.
  destruct (all_space s) eqn:Hs.
  - apply strip_empty in Hs. by rewrite Hs.
  - destruct (strip s) eqn:Hstrip; [|done].
    apply strip_empty in Hstrip. congruence.
Qed.

Lemma page_parts_no_text (i : nat) (pages : list string) :
  Forall (λ page_text, page_text = "") pages → page_parts i pages = [].
Proof.
  intros Hall. revert i. induction Hall as [|p pages -> _ IH]; intros i; [done|].
  cbn [page_parts truthy app]. apply IH.
Qed.

Lemma page_parts_some_text (i : nat) (pages : list string) :
  Exists (λ page_text, page_text ≠ "") pages →
  ∃ part parts, page_parts i pages = String "[" part :: parts.
Proof.
  intros Hex. revert i. induction Hex as [p pages Hp|p pages _ IH]; intros i.
  - cbn [page_parts]. destruct p as [|c p]; [done|]. cbn [truthy app].
    by eexists _, _.
  - cbn [page_parts]. destruct (truthy p).
    + by eexists _, _.
    + apply IH.
Qed.

Lemma concat_head (sep part : string) (c : ascii) (parts : list string) :
  ∃ rest, String.concat sep (String c part :: parts) = String c rest.
Proof. destruct parts; by eexists. Qed.

(** X11. The blank test of [ingest_pdf] catches exactly the PDFs without
    any extracted text. When every page's text is empty, the extracted
    text is empty and [ingest_pdf] returns zero without a call on the
    store. As soon as one page has a non-empty text, be it only white
    space, the page marker makes the extracted text non-blank, and
    [ingest_pdf] is [ingest_document] on that text with the metadata
    [type = pdf]. When the reader raises, [ingest_pdf] raises the same
    exception without a call on the store. *)
Theorem ingest_pdf_skips_only_textless_pdfs (eng : RAGEngine F)
    (pdf_data : list Byte.byte) (filename : string)
    (tr : list (store_op F)) :
  (∀ pages, pdf_pages eng pdf_data = Return pages →
     Forall (λ page_text, page_text = "") pages →
     extract_text_from_pdf eng pdf_data = Return ""
     ∧ ingest_pdf eng pdf_data filename tr = (Return 0%Z, tr))
  ∧ (∀ pages, pdf_pages eng pdf_data = Return pages →
       Exists (λ page_text, page_text ≠ "") pages →
       ∃ text, extract_text_from_pdf eng pdf_data = Return text
         ∧ truthy (strip text) = true
         ∧ ingest_pdf eng pdf_data filename tr
           = ingest_document eng text filename
               (Some {[ "type" := MStr "pdf" ]}) tr)
  ∧ (∀ e, pdf_pages eng pdf_data = Raise e →
       ingest_pdf eng pdf_data filename tr = (Raise e, tr)).
Proof.
  unfold ingest_pdf, extract_text_from_pdf, lift.
  unfold mbind, pyM_bind, mret, pyM_ret, pyresult_bind.
  split; [|split].
  - intros pages -> Hall. by rewrite (page_parts_no_text 0 pages Hall).
  - intros pages -> Hex.
    destruct (page_parts_some_text 0 pages Hex) as (part & parts & ->).
    destruct (concat_head (nl +:+ nl) part "[" parts) as [rest ->].
    eexists. split; [done|].
    assert (truthy (strip (String "[" rest)) = true) as Htext
      by by rewrite truthy_strip.
    split; [done|]. by rewrite Htext.
  - intros e ->. done.
Qed.

End pdf_more.

(** ** Text path: failure, success and the plain chat *)

Section processor_more.
Import Normalizer Rag Memory Processor.
Context {F : Type} `{PyNum F}.

Lemma process_text_cases (mp : MultiModalProcessor F) text sid use_rag
    t1 t2 t3 (w : world F) run :
  run = process_text mp text sid use_rag t1 t2 t3 w →
  (∃ e, fst run = Raise e
        ∧ proc (snd run) = add_turn sid "user" text TEXT t1 (proc w)
        ∧ llm_calls (snd run) = llm_calls w)
  ∨ ∃ ds p2,
      p2 = {| heap := heap (add_turn sid "user" text TEXT t1 (proc w))
                      ++ (ObjDict <$> ds);
              memory := _cleanup_expired t2
                          (memory (add_turn sid "user" text TEXT t1 (proc w)))
           |}
      ∧ ((∃ e, fst run = Raise e
               ∧ proc (snd run) = p2
               ∧ (llm_calls (snd run) = llm_calls w
                  ∨ ∃ sent,
                      llm_calls (snd run) = llm_calls w ++ [sent]
                      ∧ chat_completion mp sent = Raise e))
         ∨ (∃ answer srcs sent,
              fst run
              = (if forallb is_str srcs
                 then Return {| response := answer;
                                response_session_id := sid;
                                sources := srcs;
                                response_message_type := TEXT |}
                 else Raise (ExternalError "ValidationError"))
              ∧ (if use_rag
                 then ∃ context,
                        fst (retrieve_context (set_order mp) (rag mp) text
                               None (store w))
                        = Return (context, srcs)
                 else srcs = [])
              ∧ chat_completion mp sent = Return answer
              ∧ llm_calls (snd run) = llm_calls w ++ [sent]
              ∧ proc (snd run) = add_turn sid "assistant" answer TEXT t3 p2)).
Proof.
  intros Hrun. unfold process_text in Hrun.
  set (choice := if use_rag then _ else _) in Hrun.
  unfold in_memory, in_memory_try, call_llm, lift in Hrun.
  unfold mbind at 1 2, pyM_bind at 1 2 in Hrun.
  cbn [proc store llm_calls] in Hrun.
  set (p1 := add_turn sid "user" text TEXT t1 (proc w)) in *.
  set (w1 := {| proc := p1; store := store w; llm_calls := llm_calls w |})
    in Hrun.
  assert (proc (snd (choice w1)) = p1
          ∧ llm_calls (snd (choice w1)) = llm_calls w
          ∧ ∀ prompt srcs, fst (choice w1) = Return (prompt, srcs) →
              if use_rag
              then ∃ context,
                     fst (retrieve_context (set_order mp) (rag mp) text
                            None (store w))
                     = Return (context, srcs)
              else srcs = []) as (Hp & Hl & Hsrcs).
  { subst choice. destruct use_rag.
    - unfold in_store, mbind, pyM_bind, mret, pyM_ret. cbn [store].
      destruct (retrieve_context _ _ _ _ _) as [[[ctx srcs]|e] st];
        cbn [fst snd proc llm_calls]; [|done].
      split; [done|]. split; [done|]. intros ?? [= _ <-]. by exists ctx.
    - split; [done|]. split; [done|]. by intros ?? [= _ <-]. }
  destruct (choice w1) as [[[prompt srcs]|e] w2]; cbn [fst snd] in *.
  2:{ left. subst run. by exists e. }
  specialize (Hsrcs prompt srcs eq_refl).
  right. destruct w2 as [p2 st2 l2]. cbn [proc llm_calls] in *. subst p2 l2.
  unfold mbind, pyM_bind, mret, pyM_ret in Hrun.
  cbn [proc store llm_calls] in Hrun.
  destruct (get_chat_messages_spec sid t2 p1) as (ds & Hheap & Hmem & Hlocs).
  destruct (get_chat_messages sid t2 p1) as [[history|e] p2] eqn:Hgcm;
    cbn [fst snd proc store llm_calls] in *.
  - destruct (Hlocs history eq_refl) as [-> Hall]. clear Hlocs.
    destruct p2 as [h2 m2]. cbn [heap memory] in *. subst h2 m2.
    destruct (snoc_cases ds) as [->|(ds0 & dl & ->)].
    + (* no turn to send *)
      cbn [length seq last] in Hrun. cbn [proc store llm_calls] in Hrun.
      change (read_messages _ []) with (@nil (gmap string string)) in Hrun.
      eexists [], _. split; [done|].
      destruct (chat_completion mp []) as [answer|e] eqn:Hllm; subst run;
        cbn [fst snd proc llm_calls].
      * right. exists answer, srcs, [].
        by destruct (forallb is_str srcs).
      * left. exists e. split; [done|]. split; [done|]. right. by exists [].
    + (* the last dict is rewritten, then all are sent *)
      apply Forall2_app_inv_r in Hall
        as (ts0 & ts1 & Hall0 & Hall1 & Hts).
      apply Forall2_cons_inv_r in Hall1
        as (tl & ts2 & (turn & Hturn & ->) & Hnil & ->).
      apply Forall2_nil_inv_r in Hnil as ->.
      rewrite length_app in Hrun. cbn [length] in Hrun.
      rewrite Nat.add_1_r, seq_S, last_snoc in Hrun.
      cbn [proc store llm_calls] in Hrun.
      rewrite setitem_new, augmented_message in Hrun.
      cbn [proc store llm_calls heap] in Hrun.
      set (dl := {[ "role" := role turn; "content" := prompt ]}) in *.
      assert (read_messages (heap p1 ++ (ObjDict <$> (ds0 ++ [dl])))
                (seq (length (heap p1)) (length ds0)
                 ++ [length (heap p1) + length ds0])
              = ds0 ++ [dl]) as Hread.
      { rewrite <- seq_S.
        replace (S (length ds0)) with (length (ds0 ++ [dl]))
          by (rewrite length_app; simpl; lia).
        apply read_messages_new. }
      rewrite Hread in Hrun. eexists (ds0 ++ [dl]), _. split; [done|].
      destruct (chat_completion mp (ds0 ++ [dl])) as [answer|e] eqn:Hllm;
        subst run; cbn [fst snd proc llm_calls].
      * right. exists answer, srcs, (ds0 ++ [dl]).
        by destruct (forallb is_str srcs).
      * left. exists e. split; [done|]. split; [done|].
        right. by exists (ds0 ++ [dl]).
  - (* building the messages raised *)
    destruct p2 as [h2 m2]. cbn [heap memory] in *. subst h2 m2.
    eexists ds, _. split; [done|]. left. subst run. exists e.
    split; [done|]. split; [done|]. by left.
Qed.

Lemma lastn_fmap {A B} (f : A → B) (n : nat) (l : list A) :
  lastn n (f <$> l) = f <$> lastn n l.
Proof. unfold lastn. by rewrite fmap_drop, length_fmap. Qed.

Lemma lastn_lastn {A} (m n : nat) (l : list A) :
  m ≤ n → lastn m (lastn n l) = lastn m l.
Proof.
  intros Hmn. unfold lastn at 1 3. rewrite lastn_length.
  unfold lastn. rewrite drop_drop. f_equal. lia.
Qed.

(** Once the user turn is recorded on a service with a positive maximum
    and the session is still live at the read, the session holds, after
    the read, the references it held after the write. *)
Lemma user_turn_kept sid text t1 t2 (p : process) (n : nat)
    (ds : list (gmap string string)) :
  max_history (memory p) = Z.of_nat n → 0 < n →
  ¬ (t1 < t2 - timedelta_hours (ttl_hours (memory p)))%Z →
  session_turns sid
    {| heap := heap (add_turn sid "user" text TEXT t1 p) ++ (ObjDict <$> ds);
       memory := _cleanup_expired t2
                   (memory (add_turn sid "user" text TEXT t1 p)) |}
  = lastn n (session_turns sid p ++ [length (heap p)]).
Proof.
  intros Hmax Hn Hlive.
  destruct (add_turn_lookup sid "user" text TEXT t1 p)
    as (conv & Hconv & Hturns & Hupd).
  pose proof (cleanup_keeps_live t2 (add_turn sid "user" text TEXT t1 p)
                sid conv Hconv) as Hkept.
  rewrite Hupd in Hkept. specialize (Hkept Hlive).
  unfold session_turns at 1. cbn [memory]. unfold cleanup in Hkept.
  cbn [memory] in Hkept. rewrite Hkept, Hturns.
  by apply add_turn_session_turns_positive.
Qed.

Lemma last_lastn {A} (n : nat) (l : list A) :
  0 < n → last (lastn n l) = last l.
Proof.
  intros Hn. unfold lastn.
  destruct (last_drop (length l - n) l) as [Hnil|Hlast]; [|done].
  apply (f_equal length) in Hnil. rewrite length_drop in Hnil.
  destruct l; [done|]. simpl in Hnil. lia.
Qed.

(** The state a raising text call leaves, on a service with a positive
    maximum and for a session that has not expired between the write and
    the read. *)
Lemma process_text_raise_state
    (mp : MultiModalProcessor F) (text sid : string) (use_rag : bool)
    (t_user t_read t_reply : Z) (w : world F) (n : nat) (e : exn) :
  max_history (memory (proc w)) = Z.of_nat n → 0 < n →
  ¬ (t_user
     < t_read - timedelta_hours (ttl_hours (memory (proc w))))%Z →
  fst (process_text mp text sid use_rag t_user t_read t_reply w) = Raise e →
  (last (stored_turns sid
           (proc (snd (process_text mp text sid use_rag
                         t_user t_read t_reply w))))
   = Some (Some (ObjTurn {| role := "user"; content := text;
                            timestamp := t_user; message_type := TEXT |}))
   ∧ ∃ ds : list (gmap string string),
       heap (proc (snd (process_text mp text sid use_rag
                          t_user t_read t_reply w)))
       = heap (proc w)
         ++ [ObjTurn {| role := "user"; content := text;
                        timestamp := t_user; message_type := TEXT |}]
         ++ (ObjDict <$> ds))
  ∨ (e = ExternalError "ValidationError"
     ∧ use_rag = true
     ∧ (∃ context srcs,
          fst (retrieve_context (set_order mp) (rag mp) text None (store w))
          = Return (context, srcs)
          ∧ forallb is_str srcs = false)
     ∧ ∃ answer sent,
         chat_completion mp sent = Return answer
         ∧ llm_calls (snd (process_text mp text sid use_rag
                             t_user t_read t_reply w))
           = llm_calls w ++ [sent]
         ∧ last (stored_turns sid
                   (proc (snd (process_text mp text sid use_rag
                                 t_user t_read t_reply w))))
           = Some (Some (ObjTurn {| role := "assistant"; content := answer;
                                    timestamp := t_reply;
                                    message_type := TEXT |}))).
Proof.
  intros Hmax Hn Hlive Hraise.
  destruct (process_text_cases mp text sid use_rag t_user t_read t_reply w
              _ eq_refl)
    as [(e' & _ & Hproc & _)
       |(ds & p2 & -> & [(e' & _ & Hproc & _)
                        |(answer & srcs & sent & Hret & Hsrcs & Hllm & Hcalls
                          & Hproc)])].
  - left. rewrite Hproc.
    split; [|exists []; by rewrite add_turn_heap].
    rewrite stored_turns_session_turns, fmap_last.
    rewrite (add_turn_session_turns_positive _ _ _ _ _ _ n) by done.
    rewrite last_lastn, last_snoc, add_turn_heap by done.
    cbn [fmap option_fmap option_map]. f_equal. by apply list_lookup_middle.
  - left. rewrite Hproc.
    split; [|exists ds; by rewrite add_turn_heap, <- app_assoc].
    rewrite stored_turns_session_turns, fmap_last.
    rewrite (user_turn_kept _ _ _ _ _ n) by done.
    rewrite last_lastn, last_snoc by done.
    cbn [heap fmap option_fmap option_map]. f_equal.
    rewrite add_turn_heap, <- app_assoc. by apply list_lookup_middle.
  - right. rewrite Hret in Hraise.
    destruct (forallb is_str srcs) eqn:Hvalid; [done|].
    injection Hraise as <-. split; [done|].
    destruct use_rag; [|by subst srcs]. split; [done|].
    destruct Hsrcs as [context Hsrcs].
    split; [by exists context, srcs|].
    exists answer, sent. split; [done|]. split; [done|].
    rewrite Hproc, stored_turns_session_turns, fmap_last.
    rewrite (add_turn_session_turns_positive _ _ _ _ _ _ n) by done.
    rewrite last_lastn, last_snoc, add_turn_heap by done.
    cbn [fmap option_fmap option_map]. f_equal. by apply list_lookup_middle.
Qed.

(** X12. A failed call is not rolled back. On a service with a positive
    maximum, when [process_text] raises and the session has not expired
    between the write and the read, one of two states is left. Either the
    last turn of the session is the user turn that the call recorded, with
    the original text: no assistant turn is stored, and besides that user
    turn the call has only added message dicts to the heap. Or the model
    has answered and the response was rejected by its validation, because
    the retrieval returned a source that is not a string: the exception is
    a validation error, and the last turn of the session is the assistant
    turn with the answer that was never returned. *)
Theorem process_text_failure_is_not_rolled_back
    (mp : MultiModalProcessor F) (text sid : string) (use_rag : bool)
    (t_user t_read t_reply : Z) (w : world F) (n : nat) (e : exn) :
  max_history (memory (proc w)) = Z.of_nat n → 0 < n →
  ¬ (t_user
     < t_read - timedelta_hours (ttl_hours (memory (proc w))))%Z →
  fst (process_text mp text sid use_rag t_user t_read t_reply w) = Raise e →
  (last (stored_turns sid
           (proc (snd (process_text mp text sid use_rag
                         t_user t_read t_reply w))))
   = Some (Some (ObjTurn {| role := "user"; content := text;
                            timestamp := t_user; message_type := TEXT |}))
   ∧ ∃ ds : list (gmap string string),
       heap (proc (snd (process_text mp text sid use_rag
                          t_user t_read t_reply w)))
       = heap (proc w)
         ++ [ObjTurn {| role := "user"; content := text;
                        timestamp := t_user; message_type := TEXT |}]
         ++ (ObjDict <$> ds))
  ∨ (e = ExternalError "ValidationError"
     ∧ use_rag = true
     ∧ (∃ context srcs,
          fst (retrieve_context (set_order mp) (rag mp) text None (store w))
          = Return (context, srcs)
          ∧ forallb is_str srcs = false)
     ∧ ∃ answer sent,
         chat_completion mp sent = Return answer
         ∧ llm_calls (snd (process_text mp text sid use_rag
                             t_user t_read t_reply w))
           = llm_calls w ++ [sent]
         ∧ last (stored_turns sid
                   (proc (snd (process_text mp text sid use_rag
                                 t_user t_read t_reply w))))
           = Some (Some (ObjTurn {| role := "assistant"; content := answer;
                                    timestamp := t_reply;
                                    message_type := TEXT |}))).
Proof.
  intros Hmax Hn Hlive Hraise.
  by apply (process_text_raise_state mp text sid use_rag
              t_user t_read t_reply w n e).
Qed.

Lemma process_text_return_fields
    (mp : MultiModalProcessor F) (text sid : string) (use_rag : bool)
    (t_user t_read t_reply : Z) (w : world F) (resp : ChatResponse) :
  fst (process_text mp text sid use_rag t_user t_read t_reply w)
  = Return resp →
  response_session_id resp = sid ∧ response_message_type resp = TEXT.
Proof.
  intros Hreturn.
  destruct (process_text_cases mp text sid use_rag t_user t_read t_reply w
              _ eq_refl)
    as [(e' & Hret & _)
       |(ds & p2 & -> & [(e' & Hret & _)
                        |(answer & srcs & sent & Hret & _)])];
    [by rewrite Hret in Hreturn..|].
  rewrite Hret in Hreturn.
  destruct (forallb is_str srcs); [|done]. by injection Hreturn as <-.
Qed.

(** The state a returning text call leaves, on a service whose maximum
    is at least two and for a session that has not expired between the
    write and the read. *)
Lemma process_text_return_state
    (mp : MultiModalProcessor F) (text sid : string) (use_rag : bool)
    (t_user t_read t_reply : Z) (w : world F) (n : nat)
    (resp : ChatResponse) :
  max_history (memory (proc w)) = Z.of_nat n → 2 ≤ n →
  ¬ (t_user
     < t_read - timedelta_hours (ttl_hours (memory (proc w))))%Z →
  fst (process_text mp text sid use_rag t_user t_read t_reply w)
  = Return resp →
  response_session_id resp = sid
  ∧ response_message_type resp = TEXT
  ∧ (if use_rag
     then ∃ context,
            fst (retrieve_context (set_order mp) (rag mp) text None (store w))
            = Return (context, sources resp)
     else sources resp = [])
  ∧ (∃ sent,
       llm_calls (snd (process_text mp text sid use_rag
                         t_user t_read t_reply w))
       = llm_calls w ++ [sent]
       ∧ chat_completion mp sent = Return (response resp))
  ∧ lastn 2 (stored_turns sid
               (proc (snd (process_text mp text sid use_rag
                             t_user t_read t_reply w))))
    = [Some (ObjTurn {| role := "user"; content := text;
                        timestamp := t_user; message_type := TEXT |});
       Some (ObjTurn {| role := "assistant"; content := response resp;
                        timestamp := t_reply; message_type := TEXT |})].
Proof.
  intros Hmax Hn Hlive Hreturn.
  destruct (process_text_cases mp text sid use_rag t_user t_read t_reply w
              _ eq_refl)
    as [(e' & Hret & _)
       |(ds & p2 & -> & [(e' & Hret & _)
                        |(answer & srcs & sent & Hret & Hsrcs & Hllm & Hcalls
                          & Hproc)])];
    [by rewrite Hret in Hreturn..|].
  rewrite Hret in Hreturn.
  destruct (forallb is_str srcs); [|done]. injection Hreturn as <-.
  cbn [response response_session_id sources response_message_type].
  split; [done|]. split; [done|]. split; [done|].
  split; [by exists sent|]. rewrite Hproc. clear Hproc Hcalls Hret.
  rewrite stored_turns_session_turns, lastn_fmap.
  rewrite (add_turn_session_turns_positive _ _ _ _ _ _ n)
    by (done || lia).
  rewrite (user_turn_kept _ _ _ _ _ n) by (done || lia).
  rewrite lastn_lastn_app, lastn_lastn, <- app_assoc by done.
  rewrite lastn_app_long by (simpl; lia).
  change (lastn 2 ([length (heap (proc w))] ++ ?l)) with
    ([length (heap (proc w))] ++ l).
  cbn [app fmap list_fmap]. rewrite !add_turn_heap. cbn [heap].
  f_equal; [|f_equal].
  - rewrite <- !app_assoc. by apply list_lookup_middle.
  - by apply list_lookup_middle.
Qed.

(** X13. What a successful text call leaves behind. On a service whose
    maximum is at least two, when [process_text] returns and the session
    has not expired between the write and the read: the response is what
    the model answered to the one list of messages it was sent, it carries
    the session id, the sources that the retrieval returned (none when RAG
    is off) and the type [TEXT]; and the last two turns of the session are
    the user turn with the original text and the assistant turn with the
    response. *)
Theorem process_text_success_records_both_turns
    (mp : MultiModalProcessor F) (text sid : string) (use_rag : bool)
    (t_user t_read t_reply : Z) (w : world F) (n : nat)
    (resp : ChatResponse) :
  max_history (memory (proc w)) = Z.of_nat n → 2 ≤ n →
  ¬ (t_user
     < t_read - timedelta_hours (ttl_hours (memory (proc w))))%Z →
  fst (process_text mp text sid use_rag t_user t_read t_reply w)
  = Return resp →
  response_session_id resp = sid
  ∧ response_message_type resp = TEXT
  ∧ (if use_rag
     then ∃ context,
            fst (retrieve_context (set_order mp) (rag mp) text None (store w))
            = Return (context, sources resp)
     else sources resp = [])
  ∧ (∃ sent,
       llm_calls (snd (process_text mp text sid use_rag
                         t_user t_read t_reply w))
       = llm_calls w ++ [sent]
       ∧ chat_completion mp sent = Return (response resp))
  ∧ lastn 2 (stored_turns sid
               (proc (snd (process_text mp text sid use_rag
                             t_user t_read t_reply w))))
    = [Some (ObjTurn {| role := "user"; content := text;
                        timestamp := t_user; message_type := TEXT |});
       Some (ObjTurn {| role := "assistant"; content := response resp;
                        timestamp := t_reply; message_type := TEXT |})].
Proof.
  intros Hmax Hn Hlive Hreturn.
  by apply (process_text_return_state mp text sid use_rag
              t_user t_read t_reply w n).
Qed.

(** X14. Without a retrieved context the text path is the plain chat.
    When the retrieval returns an empty context (nothing found, or a
    failure that [retrieve_context] turned into the empty result), the call
    with RAG on leaves the memory service in the state the call with RAG
    off leaves, and sends the model the same messages. Its outcome is
    that of the call with RAG off: the same exception, or the same
    response text, session id and type with the sources of the
    retrieval, unless one of these sources is not a string, in which case
    the call with RAG on raises a validation error where the other
    returns. With RAG off the sources are empty and the store is not
    called. *)
Theorem process_text_empty_context_is_plain_chat
    (mp : MultiModalProcessor F) (text sid : string)
    (t_user t_read t_reply : Z) (w : world F) (srcs : list meta_value)
    (store' : list (store_op F)) :
  retrieve_context (set_order mp) (rag mp) text None (store w)
  = (Return (EmptyString, srcs), store') →
  match fst (process_text mp text sid false t_user t_read t_reply w) with
  | Return plain =>
      fst (process_text mp text sid true t_user t_read t_reply w)
      = (if forallb is_str srcs
         then Return {| response := response plain;
                        response_session_id := response_session_id plain;
                        sources := srcs;
                        response_message_type :=
                          response_message_type plain |}
         else Raise (ExternalError "ValidationError"))
      ∧ sources plain = []
  | Raise e =>
      fst (process_text mp text sid true t_user t_read t_reply w) = Raise e
  end
  ∧ proc (snd (process_text mp text sid true t_user t_read t_reply w))
    = proc (snd (process_text mp text sid false t_user t_read t_reply w))
  ∧ llm_calls (snd (process_text mp text sid true t_user t_read t_reply w))
    = llm_calls (snd (process_text mp text sid false t_user t_read t_reply w))
  ∧ store (snd (process_text mp text sid true t_user t_read t_reply w))
    = store'
  ∧ store (snd (process_text mp text sid false t_user t_read t_reply w))
    = store w.
Proof.
  intros Hretr.
  unfold process_text, in_memory, in_store, in_memory_try, call_llm, lift.
  unfold mbind, pyM_bind, mret, pyM_ret. cbn [proc store llm_calls].
  rewrite Hretr. cbn [truthy proc store llm_calls forallb].
  destruct (get_chat_messages sid t_read
              (add_turn sid "user" text TEXT t_user (proc w)))
    as [[history|e] p2]; cbn [proc store llm_calls]; [|done].
  destruct (last history) as [l|]; cbn [proc store llm_calls].
  - destruct (setitem l "content" text p2) as [[[]|e] p3];
      cbn [proc store llm_calls]; [|done].
    destruct (chat_completion mp (read_messages (heap p3) history));
      [|done].
    by destruct (forallb is_str srcs).
  - destruct (chat_completion mp (read_messages (heap p2) history));
      [|done].
    by destruct (forallb is_str srcs).
Qed.

End processor_more.

(** X14 with the vector store down. *)
Lemma process_text_empty_context_is_plain_chat_witness :
  Rag.retrieve_context Rag.order_elements
    (demo_engine (Raise (ExternalError "connection refused"))
       (Return two_hits) []) "topic" None []
  = (Return (EmptyString, []),
     [Rag.GetOrCreateCollection "multisense_documents"])
  ∧ Processor.proc
      (snd (Processor.process_text offline_processor "topic" "alice" true
              1 2 3 new_world))
    = Processor.proc
        (snd (Processor.process_text offline_processor "topic" "alice" false
                1 2 3 new_world))
  ∧ Processor.llm_calls
      (snd (Processor.process_text offline_processor "topic" "alice" true
              1 2 3 new_world))
    = Processor.llm_calls
        (snd (Processor.process_text offline_processor "topic" "alice" false
                1 2 3 new_world)).
Proof.
  assert (Rag.retrieve_context Rag.order_elements
            (demo_engine (Raise (ExternalError "connection refused"))
               (Return two_hits) []) "topic" None []
          = (Return (EmptyString, []),
             [Rag.GetOrCreateCollection "multisense_documents"]))
    as Hretr by (vm_compute; reflexivity).
  split; [exact Hretr|].
  destruct (process_text_empty_context_is_plain_chat offline_processor
              "topic" "alice" 1 2 3 new_world [] _ Hretr)
    as (_ & Hproc & Hcalls & _).
  split; assumption.
Defined.

(** X12 with a model whose call fails. *)
Lemma process_text_failure_is_not_rolled_back_witness :
  Memory.max_history (Memory.memory (Processor.proc new_world)) = Z.of_nat 20
  ∧ 0 < 20
  ∧ ¬ (1 < 2 - Memory.timedelta_hours
                 (Memory.ttl_hours
                    (Memory.memory (Processor.proc new_world))))%Z
  ∧ fst (Processor.process_text failing_processor "topic" "alice" true
           1 2 3 new_world)
    = Raise (ExternalError "503")
  ∧ last (Memory.stored_turns "alice"
            (Processor.proc
               (snd (Processor.process_text failing_processor "topic" "alice"
                       true 1 2 3 new_world))))
    = Some (Some (Memory.ObjTurn
                    {| Memory.role := "user"; Memory.content := "topic";
                       Memory.timestamp := 1;
                       Memory.message_type := Memory.TEXT |})).
Proof.
  assert (Memory.max_history (Memory.memory (Processor.proc new_world))
          = Z.of_nat 20) as Hmax by reflexivity.
  assert (0 < 20) as Hpos by lia.
  assert (¬ (1 < 2 - Memory.timedelta_hours
                       (Memory.ttl_hours
                          (Memory.memory (Processor.proc new_world))))%Z)
    as Hlive by (vm_compute; discriminate).
  assert (fst (Processor.process_text failing_processor "topic" "alice" true
                 1 2 3 new_world)
          = Raise (ExternalError "503")) as Hraise
    by (vm_compute; reflexivity).
  repeat (split; [assumption|]).
  destruct (process_text_failure_is_not_rolled_back failing_processor
              "topic" "alice" true 1 2 3 new_world 20
              (ExternalError "503") Hmax Hpos Hlive Hraise)
    as [[Hlast _]|[Hvalidation _]]; [exact Hlast|discriminate Hvalidation].
Defined.

(** The other case: the one hit names its source by a number. The model
    answers, the answer is stored, and the call raises. *)
Example process_text_rejects_a_numbered_source :
  fst (Processor.process_text numbered_processor "topic" "alice" true
         1 2 3 new_world)
  = Raise (ExternalError "ValidationError")
  ∧ Memory.stored_turns "alice"
      (Processor.proc
         (snd (Processor.process_text numbered_processor "topic" "alice" true
                 1 2 3 new_world)))
    = [Some (Memory.ObjTurn
               {| Memory.role := "user"; Memory.content := "topic";
                  Memory.timestamp := 1;
                  Memory.message_type := Memory.TEXT |});
       Some (Memory.ObjTurn
               {| Memory.role := "assistant";
                  Memory.content := "It is about beta.";
                  Memory.timestamp := 3;
                  Memory.message_type := Memory.TEXT |})].
Proof. split; vm_compute; reflexivity. Qed.

(** X13 at a new service, two hits and a model that answers. *)
Lemma process_text_success_records_both_turns_witness :
  Memory.max_history (Memory.memory (Processor.proc new_world)) = Z.of_nat 20
  ∧ 2 ≤ 20
  ∧ ¬ (1 < 2 - Memory.timedelta_hours
                 (Memory.ttl_hours
                    (Memory.memory (Processor.proc new_world))))%Z
  ∧ fst (Processor.process_text demo_processor "topic" "alice" true
           1 2 3 new_world)
    = Return {| Processor.response := "It is about beta.";
                Processor.response_session_id := "alice";
                Processor.sources := [Rag.MStr "a.pdf"; Rag.MStr "b.pdf"];
                Processor.response_message_type := Memory.TEXT |}
  ∧ Memory.lastn 2
      (Memory.stored_turns "alice"
         (Processor.proc
            (snd (Processor.process_text demo_processor "topic" "alice" true
                    1 2 3 new_world))))
    = [Some (Memory.ObjTurn
               {| Memory.role := "user"; Memory.content := "topic";
                  Memory.timestamp := 1;
                  Memory.message_type := Memory.TEXT |});
       Some (Memory.ObjTurn
               {| Memory.role := "assistant";
                  Memory.content := "It is about beta.";
                  Memory.timestamp := 3;
                  Memory.message_type := Memory.TEXT |})].
Proof.
  assert (Memory.max_history (Memory.memory (Processor.proc new_world))
          = Z.of_nat 20) as Hmax by reflexivity.
  assert (2 ≤ 20) as Hpos by lia.
  assert (¬ (1 < 2 - Memory.timedelta_hours
                       (Memory.ttl_hours
                          (Memory.memory (Processor.proc new_world))))%Z)
    as Hlive by (vm_compute; discriminate).
  assert (fst (Processor.process_text demo_processor "topic" "alice" true
                 1 2 3 new_world)
          = Return {| Processor.response := "It is about beta.";
                      Processor.response_session_id := "alice";
                      Processor.sources :=
                        [Rag.MStr "a.pdf"; Rag.MStr "b.pdf"];
                      Processor.response_message_type := Memory.TEXT |})
    as Hreturn by (vm_compute; reflexivity).
  repeat (split; [assumption|]).
  destruct (process_text_success_records_both_turns demo_processor
              "topic" "alice" true 1 2 3 new_world 20 _
              Hmax Hpos Hlive Hreturn) as (_ & _ & _ & _ & Hlast).
  exact Hlast.
Defined.

(** ** Voice, image and document paths *)

Section media_more.
Import Normalizer Rag Memory Processor Media.
Context {F : Type} `{PyNum F}.

(** Two writes in a row to one session, under a maximum of at least two:
    they are its last two turns. *)
Lemma add_turn_twice_last_two sid r1 c1 mt1 t1 r2 c2 mt2 t2 (p : process)
    (n : nat) :
  max_history (memory p) = Z.of_nat n → 2 ≤ n →
  lastn 2 (stored_turns sid
             (add_turn sid r2 c2 mt2 t2 (add_turn sid r1 c1 mt1 t1 p)))
  = [Some (ObjTurn {| role := r1; content := c1; timestamp := t1;
                      message_type := mt1 |});
     Some (ObjTurn {| role := r2; content := c2; timestamp := t2;
                      message_type := mt2 |})].
Proof.
  intros Hmax Hn.
  rewrite stored_turns_session_turns, lastn_fmap.
  rewrite (add_turn_session_turns_positive _ _ _ _ _ _ n)
    by (done || lia).
  rewrite (add_turn_session_turns_positive _ _ _ _ _ _ n)
    by (done || lia).
  rewrite lastn_lastn_app, lastn_lastn, <- app_assoc by done.
  rewrite lastn_app_long by (simpl; lia).
  change (lastn 2 ([length (heap p)] ++ ?l)) with ([length (heap p)] ++ l).
  cbn [app fmap list_fmap]. rewrite !add_turn_heap.
  f_equal; [|f_equal].
  - rewrite <- !app_assoc. by apply list_lookup_middle.
  - by apply list_lookup_middle.
Qed.

(** X15. A voice message is stored as a text exchange. When the
    transcription returns and the text path returns, the response is the
    transcription line followed by the answer of the model, with the
    session id and the type [VOICE]. On a service whose maximum is at
    least two and for a session that has not expired between the write
    and the read, the last two turns of the session are the transcription
    alone and the answer alone, both of type [TEXT]. *)
Theorem process_voice_stores_a_text_exchange (g : Glyphs) (hf : HFService)
    (mp : MultiModalProcessor F) (audio_data : list Byte.byte)
    (sid filename : string) (t_user t_read t_reply : Z) (w : world F)
    (transcription : string) (resp : ChatResponse) :
  transcribe_audio hf audio_data filename = Return transcription →
  fst (process_voice g hf mp audio_data sid filename
         t_user t_read t_reply w) = Return resp →
  ∃ answer,
    response resp
    = microphone g +:+ " *Transcription:* _" +:+ transcription +:+ "_"
      +:+ nl +:+ nl +:+ answer
    ∧ response_message_type resp = VOICE
    ∧ response_session_id resp = sid
    ∧ ∀ n : nat,
        max_history (memory (proc w)) = Z.of_nat n → 2 ≤ n →
        ¬ (t_user
           < t_read - timedelta_hours (ttl_hours (memory (proc w))))%Z →
        lastn 2 (stored_turns sid
                   (proc (snd (process_voice g hf mp audio_data sid filename
                                 t_user t_read t_reply w))))
        = [Some (ObjTurn {| role := "user"; content := transcription;
                            timestamp := t_user; message_type := TEXT |});
           Some (ObjTurn {| role := "assistant"; content := answer;
                            timestamp := t_reply; message_type := TEXT |})].
Proof.
  intros Htrans. unfold process_voice, lift.
  unfold mbind, pyM_bind, mret, pyM_ret. rewrite Htrans.
  pose proof (process_text_return_state mp transcription sid true
                t_user t_read t_reply w) as Hstate.
  pose proof (process_text_return_fields mp transcription sid true
                t_user t_read t_reply w) as Hfields.
  destruct (process_text mp transcription sid true t_user t_read t_reply w)
    as [[result|e] w'] eqn:Hrun; cbn [fst snd] in *; [|done].
  intros [= <-]. cbn [response response_session_id response_message_type].
  destruct (Hfields result eq_refl) as [Hsid _].
  exists (response result). split; [done|]. split; [done|]. split; [done|].
  intros n Hmax Hn Hlive.
  by destruct (Hstate n result Hmax Hn Hlive eq_refl) as (_ & _ & _ & _ & Hlast).
Qed.

(** X16. An image is recorded once it has been analysed. When
    [vision_analysis] returns, the call returns the analysis under its
    heading, with the session id, no sources and the type [IMAGE],
    without a call on the vector store. Under a maximum of at least two,
    the last two turns of the session are then the marker [[Image sent]]
    with the caption, or with the stock phrase when the caption is
    missing or empty, and the bare analysis, both of type [IMAGE]. *)
Theorem process_image_records_the_analysis (g : Glyphs) (hf : HFService)
    (image_data : list Byte.byte) (sid : string) (caption : option string)
    (mime_type : string) (t_user t_reply : Z) (w : world F)
    (analysis : string) :
  vision_analysis hf image_data (py_or caption default_image_prompt) mime_type
  = Return analysis →
  fst (process_image g hf image_data sid caption mime_type t_user t_reply w)
  = Return {| response := camera g +:+ " *Image Analysis:*" +:+ nl +:+ nl
                          +:+ analysis;
              response_session_id := sid;
              sources := [];
              response_message_type := IMAGE |}
  ∧ store (snd (process_image g hf image_data sid caption mime_type
                  t_user t_reply w)) = store w
  ∧ ∀ n : nat,
      max_history (memory (proc w)) = Z.of_nat n → 2 ≤ n →
      lastn 2 (stored_turns sid
                 (proc (snd (process_image g hf image_data sid caption
                               mime_type t_user t_reply w))))
      = [Some (ObjTurn
                 {| role := "user";
                    content :=
                      "[Image sent] "
                      +:+ match caption with
                          | Some (String c s) => String c s
                          | _ => "Image analysis requested"
                          end;
                    timestamp := t_user; message_type := IMAGE |});
         Some (ObjTurn {| role := "assistant"; content := analysis;
                          timestamp := t_reply; message_type := IMAGE |})].
Proof.
  intros Hvision. unfold process_image, lift, in_memory.
  unfold mbind, pyM_bind, mret, pyM_ret. rewrite Hvision.
  cbn [fst snd proc store llm_calls].
  split; [done|]. split; [done|].
  intros n Hmax Hn.
  rewrite (add_turn_twice_last_two _ _ _ _ _ _ _ _ _ _ n) by done.
  by destruct caption as [[|c s]|].
Qed.

Lemma ingest_pdf_textless (eng : RAGEngine F) (pdf_data : list Byte.byte)
    (filename : string) (pages : list string) (tr : list (store_op F)) :
  pdf_pages eng pdf_data = Return pages →
  Forall (λ page_text, page_text = "") pages →
  ingest_pdf eng pdf_data filename tr = (Return 0%Z, tr).
Proof.
  intros Hpages Hall. unfold ingest_pdf, extract_text_from_pdf, lift.
  unfold mbind, pyM_bind, mret, pyM_ret, pyresult_bind.
  by rewrite Hpages, (page_parts_no_text 0 pages Hall).
Qed.

(** X17. A file that is not taken for a PDF is not ingested, yet it is
    recorded and named as a source. When neither the MIME type mentions
    [pdf] nor the file name ends in [.pdf], in any letter case, the call
    returns the refusal with the type [DOCUMENT] and the file name as its
    one source, without a call on the vector store or the model, and has
    created two turn objects: the marker [[Document sent: name]] and the
    refusal. Under a maximum of at least two they are the last two turns
    of the session. *)
Theorem process_document_refuses_other_files (g : Glyphs)
    (mp : MultiModalProcessor F) (doc_data : list Byte.byte)
    (sid filename : string) (mime_type : option string)
    (t_user t_reply : Z) (w : world F) :
  is_pdf mime_type filename = false →
  fst (process_document g mp doc_data sid filename mime_type
         t_user t_reply w)
  = Return {| response := unsupported_reply g mime_type;
              response_session_id := sid;
              sources := [MStr filename];
              response_message_type := DOCUMENT |}
  ∧ store (snd (process_document g mp doc_data sid filename mime_type
                  t_user t_reply w)) = store w
  ∧ llm_calls (snd (process_document g mp doc_data sid filename mime_type
                      t_user t_reply w)) = llm_calls w
  ∧ heap (proc (snd (process_document g mp doc_data sid filename mime_type
                       t_user t_reply w)))
    = heap (proc w)
      ++ [ObjTurn {| role := "user";
                     content := "[Document sent: " +:+ filename +:+ "]";
                     timestamp := t_user; message_type := DOCUMENT |};
          ObjTurn {| role := "assistant";
                     content := unsupported_reply g mime_type;
                     timestamp := t_reply; message_type := DOCUMENT |}]
  ∧ ∀ n : nat,
      max_history (memory (proc w)) = Z.of_nat n → 2 ≤ n →
      lastn 2 (stored_turns sid
                 (proc (snd (process_document g mp doc_data sid filename
                               mime_type t_user t_reply w))))
      = [Some (ObjTurn
                 {| role := "user";
                    content := "[Document sent: " +:+ filename +:+ "]";
                    timestamp := t_user; message_type := DOCUMENT |});
         Some (ObjTurn
                 {| role := "assistant";
                    content := unsupported_reply g mime_type;
                    timestamp := t_reply; message_type := DOCUMENT |})].
Proof.
  intros Hpdf. unfold process_document, in_memory.
  unfold mbind, pyM_bind, mret, pyM_ret. rewrite Hpdf.
  cbn [fst snd proc store llm_calls].
  split; [done|]. split; [done|]. split; [done|]. split.
  - by rewrite !add_turn_heap, <- app_assoc.
  - intros n Hmax Hn.
    by rewrite (add_turn_twice_last_two _ _ _ _ _ _ _ _ _ _ n).
Qed.

(** X18. A PDF without any text is answered as a success. When the file
    is taken for a PDF and none of its pages has text, the call makes no
    call on the vector store and returns the confirmation
    [Successfully ingested] with a count of zero chunks and the file name
    as its source, and has created two turn objects: the marker of the
    document and this confirmation. Under a maximum of at least two they
    are the last two turns of the session. *)
Theorem process_document_confirms_a_textless_pdf (g : Glyphs)
    (mp : MultiModalProcessor F) (doc_data : list Byte.byte)
    (sid filename : string) (mime_type : option string)
    (t_user t_reply : Z) (w : world F) (pages : list string) :
  is_pdf mime_type filename = true →
  pdf_pages (rag mp) doc_data = Return pages →
  Forall (λ page_text, page_text = "") pages →
  fst (process_document g mp doc_data sid filename mime_type
         t_user t_reply w)
  = Return {| response := ingested_reply g filename 0;
              response_session_id := sid;
              sources := [MStr filename];
              response_message_type := DOCUMENT |}
  ∧ store (snd (process_document g mp doc_data sid filename mime_type
                  t_user t_reply w)) = store w
  ∧ heap (proc (snd (process_document g mp doc_data sid filename mime_type
                       t_user t_reply w)))
    = heap (proc w)
      ++ [ObjTurn {| role := "user";
                     content := "[Document sent: " +:+ filename +:+ "]";
                     timestamp := t_user; message_type := DOCUMENT |};
          ObjTurn {| role := "assistant";
                     content := ingested_reply g filename 0;
                     timestamp := t_reply; message_type := DOCUMENT |}]
  ∧ ∀ n : nat,
      max_history (memory (proc w)) = Z.of_nat n → 2 ≤ n →
      lastn 2 (stored_turns sid
                 (proc (snd (process_document g mp doc_data sid filename
                               mime_type t_user t_reply w))))
      = [Some (ObjTurn
                 {| role := "user";
                    content := "[Document sent: " +:+ filename +:+ "]";
                    timestamp := t_user; message_type := DOCUMENT |});
         Some (ObjTurn
                 {| role := "assistant";
                    content := ingested_reply g filename 0;
                    timestamp := t_reply; message_type := DOCUMENT |})].
Proof.
  intros Hpdf Hpages Hall. unfold process_document, in_memory, in_store.
  unfold mbind, pyM_bind, mret, pyM_ret. rewrite Hpdf.
  rewrite (ingest_pdf_textless _ _ _ pages) by done.
  cbn [fst snd proc store llm_calls].
  split; [done|]. split; [done|]. split.
  - by rewrite !add_turn_heap, <- app_assoc.
  - intros n Hmax Hn.
    by rewrite (add_turn_twice_last_two _ _ _ _ _ _ _ _ _ _ n).
Qed.

(** X19. In the voice, image and document paths nothing is recorded for
    an input whose first step fails. When the transcription raises, or
    the image analysis raises, the call raises the same exception and
    leaves the process as it was; when the ingestion of a PDF raises, the
    call raises the same exception and the memory service is as it was. In
    none of the three is a turn recorded, unlike the text path, which
    records the user turn before anything can fail. *)
Theorem media_failure_records_nothing (g : Glyphs) (hf : HFService)
    (mp : MultiModalProcessor F) (data : list Byte.byte)
    (sid filename : string) (caption mime_type : option string)
    (image_type : string) (t_user t_read t_reply : Z) (w : world F) :
  (∀ e, transcribe_audio hf data filename = Raise e →
     process_voice g hf mp data sid filename t_user t_read t_reply w
     = (Raise e, w))
  ∧ (∀ e, vision_analysis hf data (py_or caption default_image_prompt)
            image_type = Raise e →
       process_image g hf data sid caption image_type t_user t_reply w
       = (Raise e, w))
  ∧ (∀ e, is_pdf mime_type filename = true →
       fst (ingest_pdf (rag mp) data filename (store w)) = Raise e →
       fst (process_document g mp data sid filename mime_type
              t_user t_reply w) = Raise e
       ∧ proc (snd (process_document g mp data sid filename mime_type
                      t_user t_reply w)) = proc w).
Proof.
  split; [|split].
  - intros e He. unfold process_voice, lift.
    unfold mbind, pyM_bind. by rewrite He.
  - intros e He. unfold process_image, lift.
    unfold mbind, pyM_bind. by rewrite He.
  - intros e Hpdf He. unfold process_document, in_store.
    unfold mbind, pyM_bind, mret, pyM_ret. rewrite Hpdf.
    destruct (ingest_pdf (rag mp) data filename (store w)) as [[k|e'] tr];
      cbn [fst] in He; [done|]. by injection He as ->.
Qed.

End media_more.

(** X15 at a new service and models that answer. *)
Lemma process_voice_stores_a_text_exchange_witness :
  Media.transcribe_audio demo_hf [] "voice.ogg" = Return "what is beta"
  ∧ Memory.max_history (Memory.memory (Processor.proc new_world))
    = Z.of_nat 20
  ∧ 2 ≤ 20
  ∧ ¬ (1 < 2 - Memory.timedelta_hours
                 (Memory.ttl_hours
                    (Memory.memory (Processor.proc new_world))))%Z
  ∧ fst (Media.process_voice demo_glyphs demo_hf demo_processor []
           "alice" "voice.ogg" 1 2 3 new_world)
    = Return {| Processor.response :=
                  "(microphone) *Transcription:* _what is beta_" +:+ nl
                  +:+ nl +:+ "It is about beta.";
                Processor.response_session_id := "alice";
                Processor.sources := [Rag.MStr "a.pdf"; Rag.MStr "b.pdf"];
                Processor.response_message_type := Memory.VOICE |}
  ∧ ∃ answer,
      Memory.lastn 2
        (Memory.stored_turns "alice"
           (Processor.proc
              (snd (Media.process_voice demo_glyphs demo_hf demo_processor []
                      "alice" "voice.ogg" 1 2 3 new_world))))
      = [Some (Memory.ObjTurn
                 {| Memory.role := "user"; Memory.content := "what is beta";
                    Memory.timestamp := 1;
                    Memory.message_type := Memory.TEXT |});
         Some (Memory.ObjTurn
                 {| Memory.role := "assistant"; Memory.content := answer;
                    Memory.timestamp := 3;
                    Memory.message_type := Memory.TEXT |})].
Proof.
  assert (Media.transcribe_audio demo_hf [] "voice.ogg"
          = Return "what is beta") as Htrans by reflexivity.
  assert (Memory.max_history (Memory.memory (Processor.proc new_world))
          = Z.of_nat 20) as Hmax by reflexivity.
  assert (2 ≤ 20) as Hn by lia.
  assert (¬ (1 < 2 - Memory.timedelta_hours
                       (Memory.ttl_hours
                          (Memory.memory (Processor.proc new_world))))%Z)
    as Hlive by (vm_compute; discriminate).
  assert (fst (Media.process_voice demo_glyphs demo_hf demo_processor []
                 "alice" "voice.ogg" 1 2 3 new_world)
          = Return {| Processor.response :=
                        "(microphone) *Transcription:* _what is beta_"
                        +:+ nl +:+ nl +:+ "It is about beta.";
                      Processor.response_session_id := "alice";
                      Processor.sources :=
                        [Rag.MStr "a.pdf"; Rag.MStr "b.pdf"];
                      Processor.response_message_type := Memory.VOICE |})
    as Hreturn by (vm_compute; reflexivity).
  repeat (split; [assumption|]).
  destruct (process_voice_stores_a_text_exchange demo_glyphs demo_hf
              demo_processor [] "alice" "voice.ogg" 1 2 3 new_world
              "what is beta" _ Htrans Hreturn)
    as (answer & _ & _ & _ & Hlast).
  exists answer. exact (Hlast 20 Hmax Hn Hlive).
Defined.

(** X16 at an image sent with an empty caption. *)
Lemma process_image_records_the_analysis_witness :
  Media.vision_analysis demo_hf []
    (Media.py_or (Some EmptyString) Media.default_image_prompt) "image/png"
  = Return "a cat on a mat"
  ∧ Memory.max_history (Memory.memory (Processor.proc new_world))
    = Z.of_nat 20
  ∧ 2 ≤ 20
  ∧ Memory.lastn 2
      (Memory.stored_turns "alice"
         (Processor.proc
            (snd (Media.process_image demo_glyphs demo_hf [] "alice"
                    (Some EmptyString) "image/png" 1 3 new_world))))
    = [Some (Memory.ObjTurn
               {| Memory.role := "user";
                  Memory.content :=
                    "[Image sent] " +:+ "Image analysis requested";
                  Memory.timestamp := 1;
                  Memory.message_type := Memory.IMAGE |});
       Some (Memory.ObjTurn
               {| Memory.role := "assistant";
                  Memory.content := "a cat on a mat";
                  Memory.timestamp := 3;
                  Memory.message_type := Memory.IMAGE |})].
Proof.
  assert (Media.vision_analysis demo_hf []
            (Media.py_or (Some EmptyString) Media.default_image_prompt)
            "image/png"
          = Return "a cat on a mat") as Hvision by reflexivity.
  assert (Memory.max_history (Memory.memory (Processor.proc new_world))
          = Z.of_nat 20) as Hmax by reflexivity.
  assert (2 ≤ 20) as Hn by lia.
  repeat (split; [assumption|]).
  destruct (process_image_records_the_analysis demo_glyphs demo_hf []
              "alice" (Some EmptyString) "image/png" 1 3 new_world
              "a cat on a mat" Hvision) as (_ & _ & Hlast).
  exact (Hlast 20 Hmax Hn).
Defined.

(** X17 at a spreadsheet. *)
Lemma process_document_refuses_other_files_witness :
  Media.is_pdf (Some "application/vnd.ms-excel") "Budget.XLS" = false
  ∧ fst (Media.process_document demo_glyphs demo_processor [] "alice"
           "Budget.XLS" (Some "application/vnd.ms-excel") 1 3 new_world)
    = Return {| Processor.response :=
                  Media.unsupported_reply demo_glyphs
                    (Some "application/vnd.ms-excel");
                Processor.response_session_id := "alice";
                Processor.sources := [Rag.MStr "Budget.XLS"];
                Processor.response_message_type := Memory.DOCUMENT |}
  ∧ Processor.store
      (snd (Media.process_document demo_glyphs demo_processor [] "alice"
              "Budget.XLS" (Some "application/vnd.ms-excel") 1 3 new_world))
    = []
  ∧ Memory.lastn 2
      (Memory.stored_turns "alice"
         (Processor.proc
            (snd (Media.process_document demo_glyphs demo_processor []
                    "alice" "Budget.XLS" (Some "application/vnd.ms-excel")
                    1 3 new_world))))
    = [Some (Memory.ObjTurn
               {| Memory.role := "user";
                  Memory.content := "[Document sent: " +:+ "Budget.XLS"
                                    +:+ "]";
                  Memory.timestamp := 1;
                  Memory.message_type := Memory.DOCUMENT |});
       Some (Memory.ObjTurn
               {| Memory.role := "assistant";
                  Memory.content :=
                    Media.unsupported_reply demo_glyphs
                      (Some "application/vnd.ms-excel");
                  Memory.timestamp := 3;
                  Memory.message_type := Memory.DOCUMENT |})].
Proof.
  assert (Media.is_pdf (Some "application/vnd.ms-excel") "Budget.XLS" = false)
    as Hpdf by (vm_compute; reflexivity).
  split; [exact Hpdf|].
  destruct (process_document_refuses_other_files demo_glyphs demo_processor
              [] "alice" "Budget.XLS" (Some "application/vnd.ms-excel")
              1 3 new_world Hpdf) as (Hret & Hstore & _ & _ & Hlast).
  split; [exact Hret|]. split; [exact Hstore|].
  apply (Hlast 20); [reflexivity|lia].
Defined.

(** X18 at a scanned PDF of two pages, named in capitals. *)
Lemma process_document_confirms_a_textless_pdf_witness :
  Media.is_pdf None "SCAN.PDF" = true
  ∧ Rag.pdf_pages
      (Processor.rag
         {| Processor.rag :=
              demo_engine (Return ()) (Return two_hits)
                [EmptyString; EmptyString];
            Processor.set_order := Rag.order_elements;
            Processor.chat_completion := λ _, Return "It is about beta." |})
      []
    = Return [EmptyString; EmptyString]
  ∧ Forall (λ page_text, page_text = EmptyString) [EmptyString; EmptyString]
  ∧ fst (Media.process_document demo_glyphs
           {| Processor.rag :=
                demo_engine (Return ()) (Return two_hits)
                  [EmptyString; EmptyString];
              Processor.set_order := Rag.order_elements;
              Processor.chat_completion := λ _, Return "It is about beta." |}
           [] "alice" "SCAN.PDF" None 1 3 new_world)
    = Return {| Processor.response :=
                  Media.ingested_reply demo_glyphs "SCAN.PDF" 0;
                Processor.response_session_id := "alice";
                Processor.sources := [Rag.MStr "SCAN.PDF"];
                Processor.response_message_type := Memory.DOCUMENT |}.
Proof.
  assert (Media.is_pdf None "SCAN.PDF" = true) as Hpdf
    by (vm_compute; reflexivity).
  assert (Forall (λ page_text, page_text = EmptyString)
            [EmptyString; EmptyString]) as Hall by (repeat constructor).
  split; [exact Hpdf|]. split; [reflexivity|]. split; [exact Hall|].
  exact (proj1 (process_document_confirms_a_textless_pdf demo_glyphs
                  {| Processor.rag :=
                       demo_engine (Return ()) (Return two_hits)
                         [EmptyString; EmptyString];
                     Processor.set_order := Rag.order_elements;
                     Processor.chat_completion :=
                       λ _, Return "It is about beta." |}
                  [] "alice" "SCAN.PDF" None 1 3 new_world
                  [EmptyString; EmptyString] Hpdf eq_refl Hall)).
Defined.

(** ** The background task of the webhook *)

Section whatsapp_more.
Import Normalizer Rag Memory Processor Media WhatsApp.
Context {F : Type} `{PyNum F}.

Local Abbreviation chars := String.list_ascii_of_string.

Lemma chars_app (s1 s2 : string) : chars (s1 +:+ s2) = chars s1 ++ chars s2.
Proof. induction s1 as [|c s1 IH]; [done|]. cbn. by rewrite <- IH. Qed.

Lemma chars_length (s : string) : length (chars s) = String.length s.
Proof. induction s as [|c s IH]; [done|]. cbn. by rewrite IH. Qed.

Lemma chars_inj (s1 s2 : string) : chars s1 = chars s2 → s1 = s2.
Proof.
  intros Heq. rewrite <- (String.string_of_list_ascii_of_string s1).
  rewrite <- (String.string_of_list_ascii_of_string s2). by rewrite Heq.
Qed.

Lemma chars_substring (n m : nat) (s : string) :
  chars (String.substring n m s) = take m (drop n (chars s)).
Proof.
  revert n m.
  induction s as [|c s IH]; intros [|n] [|m]; cbn; rewrite ?IH; done.
Qed.

Lemma chars_concat (ms : list string) :
  chars (String.concat "" ms) = mjoin (chars <$> ms).
Proof.
  induction ms as [|m ms IH]; [done|].
  destruct ms as [|m' ms].
  - cbn. by rewrite app_nil_r.
  - change (String.concat "" (m :: m' :: ms))
      with (m +:+ "" +:+ String.concat "" (m' :: ms)).
    rewrite !chars_app, IH. done.
Qed.

Lemma chunks_join {A} (k q : nat) (l : list A) :
  mjoin ((λ j, take k (drop (j * k) l)) <$> seq 0 q) = take (q * k) l.
Proof.
  induction q as [|q IH]; [done|].
  rewrite seq_S, fmap_app, join_app, IH. cbn [fmap list_fmap mjoin list_join].
  rewrite app_nil_r, take_take_drop. f_equal. lia.
Qed.

Lemma range_step_covers (stop step : nat) :
  0 < step → stop ≤ (stop + step - 1) / step * step.
Proof.
  intros Hstep.
  pose proof (Nat.div_mod_eq (stop + step - 1) step) as Hdiv.
  pose proof (Nat.mod_upper_bound (stop + step - 1) step) as Hmod. nia.
Qed.

Lemma range_step_starts (stop step : nat) (i : nat) :
  0 < step → i ∈ range_step stop step → i < stop.
Proof.
  intros Hstep (j & -> & Hj)%list_elem_of_fmap.
  apply elem_of_seq in Hj.
  pose proof (Nat.div_mod_eq (stop + step - 1) step) as Hdiv.
  pose proof (Nat.mod_upper_bound (stop + step - 1) step) as Hmod. nia.
Qed.

(** The slices of a text at the multiples of a positive width: joined
    they are the text, none is longer than the width, and none is empty. *)
Lemma slices_spec (k : nat) (s : string) :
  0 < k →
  String.concat ""
    ((λ i, String.substring i k s) <$> range_step (String.length s) k) = s
  ∧ Forall (λ m, String.length m ≤ k ∧ m ≠ "")
      ((λ i, String.substring i k s) <$> range_step (String.length s) k)
  ∧ length ((λ i, String.substring i k s) <$> range_step (String.length s) k)
    = (String.length s + k - 1) / k.
Proof.
  intros Hk. split; [|split].
  - apply chars_inj. rewrite chars_concat, <- list_fmap_compose.
    unfold range_step. rewrite <- list_fmap_compose.
    erewrite list_fmap_ext; [|intros ? j _; apply chars_substring].
    rewrite (chunks_join k _ (chars s)). apply take_ge.
    rewrite chars_length. by apply range_step_covers.
  - apply Forall_fmap, Forall_forall. intros i Hi.
    apply range_step_starts in Hi; [|done]. cbn. split.
    + rewrite <- chars_length, chars_substring, length_take. lia.
    + intros Hempty. apply (f_equal chars) in Hempty.
      rewrite chars_substring in Hempty. apply (f_equal length) in Hempty.
      rewrite length_take, length_drop, chars_length in Hempty.
      simpl in Hempty. lia.
  - unfold range_step. by rewrite !length_fmap, length_seq.
Qed.

Lemma for_each_sends (svc : WhatsAppService) (to : string)
    (ms : list string) (r : runtime F) :
  (∀ to m, send_text_message_request svc to m = Return ()) →
  for_each ms (λ m, send_text_message svc to m) r
  = (Return (),
     {| services := services r;
        outbox := outbox r ++ (SendTextMessage to <$> ms) |}).
Proof.
  intros Hsend. revert r. induction ms as [|m ms IH]; intros r.
  - cbn. rewrite app_nil_r. by destruct r.
  - cbn [for_each]. unfold mbind, pyM_bind.
    unfold send_text_message at 1, request. rewrite Hsend, IH.
    cbn [services outbox fmap list_fmap]. by rewrite <- app_assoc.
Qed.

Lemma mark_as_read_run (svc : WhatsAppService) (id : string) (r : runtime F) :
  errors_only (mark_as_read_request svc id) →
  mark_as_read svc id r
  = (Return (),
     {| services := services r; outbox := outbox r ++ [MarkAsRead id] |}).
Proof.
  intros Herr. unfold mark_as_read, try_except, request.
  destruct (mark_as_read_request svc id) as [[]|e] eqn:Hreq; [done|].
  by rewrite (Herr e eq_refl).
Qed.

(** The task up to the routing: the two requests that acknowledge the
    message, then the routing from the acknowledged state. *)
Lemma process_whatsapp_message_unfold (g : Glyphs) (svc : WhatsAppService)
    (hf : HFService) (mp : MultiModalProcessor F) (message : WhatsAppMessage)
    (t1 t2 t3 : Z) (r : runtime F) :
  errors_only (mark_as_read_request svc (message_id message)) →
  (∀ to id emoji, send_reaction_request svc to id emoji = Return ()) →
  process_whatsapp_message g svc hf mp message t1 t2 t3 r
  = try_except
      (result ← route_message g svc hf mp message t1 t2 t3;
       send_response g svc message result)
      (λ _,
         try_except
           (_ ← send_text_message svc (from_number message) (apology g);
            send_reaction svc (from_number message) (message_id message)
              (cross_mark g))
           (λ _, mret ()))
      (acknowledged g message r).
Proof.
  intros Hmark Hreact. unfold process_whatsapp_message, try_except.
  unfold mbind at 1 2, pyM_bind at 1 2.
  rewrite mark_as_read_run by done.
  unfold send_reaction at 1, request. rewrite Hreact.
  cbn [services outbox]. unfold acknowledged. by rewrite <- app_assoc.
Qed.

(** X20. A response is delivered whole, in messages of at most 4000
    characters. When the requests on the API are accepted (a failed read
    receipt is put up with) and the routing returns a response, the task
    returns and has sent, after the routing, the texts [ms] and then the
    reaction that stands for "done", where the texts joined are the
    response, none is longer than 4000 characters, their number is the
    length divided by 4000 and rounded up, one at least, and none is
    empty unless the response is. *)
Theorem response_is_delivered_whole (g : Glyphs) (svc : WhatsAppService)
    (hf : HFService) (mp : MultiModalProcessor F) (message : WhatsAppMessage)
    (t_user t_read t_reply : Z) (r : runtime F) (result : ChatResponse) :
  errors_only (mark_as_read_request svc (message_id message)) →
  (∀ to m, send_text_message_request svc to m = Return ()) →
  (∀ to id emoji, send_reaction_request svc to id emoji = Return ()) →
  fst (route_message g svc hf mp message t_user t_read t_reply
         (acknowledged g message r)) = Return result →
  ∃ ms : list string,
    process_whatsapp_message g svc hf mp message t_user t_read t_reply r
    = (Return (),
       {| services :=
            services (snd (route_message g svc hf mp message
                             t_user t_read t_reply
                             (acknowledged g message r)));
          outbox :=
            outbox (snd (route_message g svc hf mp message
                           t_user t_read t_reply (acknowledged g message r)))
            ++ (SendTextMessage (from_number message) <$> ms)
            ++ [SendReaction (from_number message) (message_id message)
                  (check_mark g)] |})
    ∧ String.concat "" ms = response result
    ∧ Forall (λ m, String.length m ≤ 4000) ms
    ∧ length ms
      = Nat.max 1 ((String.length (response result) + 4000 - 1) / 4000)
    ∧ (response result ≠ "" → Forall (λ m, m ≠ "") ms).
Proof.
  intros Hmark Hsend Hreact Hroute.
  rewrite process_whatsapp_message_unfold by done.
  unfold try_except at 1. unfold mbind at 1, pyM_bind at 1.
  destruct (route_message g svc hf mp message t_user t_read t_reply
              (acknowledged g message r)) as [[result'|e] r2];
    cbn [fst snd] in *; [|done].
  injection Hroute as ->. unfold send_response.
  unfold mbind, pyM_bind. case_bool_decide as Hlong.
  - destruct (slices_spec 4000 (response result)) as (Hjoin & Hall & Hlen);
      [lia|].
    rewrite for_each_sends by done.
    unfold send_reaction, request. rewrite Hreact. cbn [services outbox].
    eexists. split; [by rewrite <- app_assoc|].
    split; [exact Hjoin|]. split; [|split].
    + eapply Forall_impl; [exact Hall|]. by intros m [Hm _].
    + rewrite Hlen.
      pose proof (Nat.div_mod_eq (String.length (response result) + 4000 - 1)
                    4000) as Hdiv.
      pose proof (Nat.mod_upper_bound
                    (String.length (response result) + 4000 - 1) 4000).
      lia.
    + intros _. eapply Forall_impl; [exact Hall|]. by intros m [_ Hm].
  - unfold send_text_message, send_reaction, request.
    rewrite Hsend, Hreact. cbn [services outbox].
    exists [response result]. split; [by rewrite <- app_assoc|].
    split; [done|]. split; [|split].
    + constructor; [lia|done].
    + cbn [length].
      pose proof (Nat.div_mod_eq (String.length (response result) + 4000 - 1)
                    4000) as Hdiv.
      pose proof (Nat.mod_upper_bound
                    (String.length (response result) + 4000 - 1) 4000).
      lia.
    + intros Hne. by constructor.
Qed.

(** X21. A failure is answered with the apology. When the requests on
    the API are accepted and the routing raises an error (the download or
    the processing failed, or the message has no text), the task returns:
    it sends the apology and then the reaction that stands for "failed",
    and nothing else after the routing. *)
Theorem failure_is_answered_with_the_apology (g : Glyphs)
    (svc : WhatsAppService) (hf : HFService) (mp : MultiModalProcessor F)
    (message : WhatsAppMessage) (t_user t_read t_reply : Z) (r : runtime F)
    (e : exn) :
  errors_only (mark_as_read_request svc (message_id message)) →
  (∀ to m, send_text_message_request svc to m = Return ()) →
  (∀ to id emoji, send_reaction_request svc to id emoji = Return ()) →
  fst (route_message g svc hf mp message t_user t_read t_reply
         (acknowledged g message r)) = Raise e →
  is_Exception e = true →
  process_whatsapp_message g svc hf mp message t_user t_read t_reply r
  = (Return (),
     {| services :=
          services (snd (route_message g svc hf mp message
                           t_user t_read t_reply (acknowledged g message r)));
        outbox :=
          outbox (snd (route_message g svc hf mp message
                         t_user t_read t_reply (acknowledged g message r)))
          ++ [SendTextMessage (from_number message) (apology g);
              SendReaction (from_number message) (message_id message)
                (cross_mark g)] |}).
Proof.
  intros Hmark Hsend Hreact Hroute Herr.
  rewrite process_whatsapp_message_unfold by done.
  unfold try_except at 1. unfold mbind at 1, pyM_bind at 1.
  destruct (route_message g svc hf mp message t_user t_read t_reply
              (acknowledged g message r)) as [[result|e'] r2];
    cbn [fst snd] in *; [done|].
  injection Hroute as ->. rewrite Herr.
  unfold try_except, mbind, pyM_bind, send_text_message, send_reaction,
    request.
  rewrite Hsend, Hreact. cbn [services outbox]. by rewrite <- app_assoc.
Qed.

Lemma try_except_raises {S A} (body : pyM S A) (handler : exn → pyM S A)
    (s : S) (e : exn) :
  fst (try_except body handler s) = Raise e →
  (fst (body s) = Raise e ∧ is_Exception e = false)
  ∨ ∃ e', fst (body s) = Raise e' ∧ fst (handler e' (snd (body s))) = Raise e.
Proof.
  unfold try_except. destruct (body s) as [[a|e'] s']; [done|].
  destruct (is_Exception e') eqn:He'; cbn [fst snd].
  - intros Hh. right. by exists e'.
  - intros [= <-]. by left.
Qed.

Lemma process_whatsapp_message_contains_errors (g : Glyphs)
    (svc : WhatsAppService) (hf : HFService) (mp : MultiModalProcessor F)
    (message : WhatsAppMessage) (t_user t_read t_reply : Z) (r : runtime F)
    (e : exn) :
  fst (process_whatsapp_message g svc hf mp message t_user t_read t_reply r)
  = Raise e →
  is_Exception e = false.
Proof.
  unfold process_whatsapp_message. intros Hraise.
  apply try_except_raises in Hraise as [[_ He]|(e1 & _ & Hraise)]; [done|].
  apply try_except_raises in Hraise as [[_ He]|(e2 & _ & Hraise)]; [done|].
  done.
Qed.

(** X22. An error leaves the task only while its services are obtained.
    The two services are obtained before the [try]. When an instance of
    [Exception] leaves a call of [process_whatsapp_message], it is the
    error of obtaining the WhatsApp service, or that service was obtained
    and it is the error of obtaining the processor; no request has then
    been made on the API and nothing has been recorded. Once both are
    obtained no such error leaves the call, whatever the API, the models
    and the store do: errors of the processing are answered with the
    apology, and errors of the apology are dropped. *)
Theorem errors_leave_the_task_only_before_the_try (g : Glyphs)
    (get_whatsapp_service : pyresult WhatsAppService)
    (get_processor : pyresult (HFService * MultiModalProcessor F))
    (message : WhatsAppMessage) (t_user t_read t_reply : Z) (r : runtime F)
    (e : exn) :
  fst (process_whatsapp_message_call g get_whatsapp_service get_processor
         message t_user t_read t_reply r) = Raise e →
  is_Exception e = true →
  (get_whatsapp_service = Raise e
   ∨ ∃ svc, get_whatsapp_service = Return svc ∧ get_processor = Raise e)
  ∧ snd (process_whatsapp_message_call g get_whatsapp_service get_processor
           message t_user t_read t_reply r) = r.
Proof.
  unfold process_whatsapp_message_call, lift. unfold mbind, pyM_bind.
  intros Hraise He.
  destruct get_whatsapp_service as [svc|e1]; cbn [fst snd] in *.
  - destruct get_processor as [[hf mp]|e2]; cbn [fst snd] in *.
    + apply process_whatsapp_message_contains_errors in Hraise. congruence.
    + injection Hraise as ->. split; [|done]. right. by exists svc.
  - injection Hraise as ->. split; [|done]. by left.
Qed.

(** X23. A document sent without a caption is always handed to the PDF
    ingestion. The routing names such a document [document.pdf], and that
    name passes the test of [process_document] whatever the MIME type
    says: once the download has returned, the calls made on the vector
    store are those of [ingest_pdf] on the downloaded bytes. *)
Theorem captionless_document_is_ingested_as_pdf (g : Glyphs)
    (svc : WhatsAppService) (hf : HFService) (mp : MultiModalProcessor F)
    (message : WhatsAppMessage) (t_user t_read t_reply : Z) (r : runtime F)
    (doc_data : list Byte.byte) :
  message_type message = DOCUMENT →
  caption message = None ∨ caption message = Some EmptyString →
  download_media_request svc (media_id message) = Return doc_data →
  is_pdf (mime_type message) (py_or (caption message) "document.pdf") = true
  ∧ store (services (snd (route_message g svc hf mp message
                            t_user t_read t_reply r)))
    = snd (ingest_pdf (rag mp) doc_data "document.pdf"
             (store (services r))).
Proof.
  intros Htype Hcaption Hdata.
  assert (py_or (caption message) "document.pdf" = "document.pdf") as Hname
    by (by destruct Hcaption as [-> | ->]).
  assert (is_pdf (mime_type message) "document.pdf" = true) as Hpdf.
  { unfold is_pdf. apply orb_true_iff. right. vm_compute. reflexivity. }
  rewrite Hname. split; [exact Hpdf|].
  unfold route_message. rewrite Htype, Hname.
  unfold mbind at 1, pyM_bind at 1. unfold download_media, request.
  rewrite Hdata. unfold in_services, process_document, in_store, in_memory.
  unfold mbind, pyM_bind, mret, pyM_ret. rewrite Hpdf.
  cbn [services outbox].
  by destruct (ingest_pdf (rag mp) doc_data "document.pdf"
                 (store (services r))) as [[k|e] tr].
Qed.

End whatsapp_more.

(** X20 at a text message and an API that accepts every request. *)
Lemma response_is_delivered_whole_witness :
  errors_only (WhatsApp.mark_as_read_request demo_api
                 (WhatsApp.message_id text_message))
  ∧ fst (WhatsApp.route_message demo_glyphs demo_api demo_hf demo_processor
           text_message 1 2 3 (acknowledged demo_glyphs text_message
                                 new_runtime))
    = Return {| Processor.response := "It is about beta.";
                Processor.response_session_id := "alice";
                Processor.sources := [Rag.MStr "a.pdf"; Rag.MStr "b.pdf"];
                Processor.response_message_type := Memory.TEXT |}
  ∧ ∃ ms : list string,
      fst (WhatsApp.process_whatsapp_message demo_glyphs demo_api demo_hf
             demo_processor text_message 1 2 3 new_runtime) = Return ()
      ∧ WhatsApp.outbox
          (snd (WhatsApp.process_whatsapp_message demo_glyphs demo_api demo_hf
                  demo_processor text_message 1 2 3 new_runtime))
        = [WhatsApp.MarkAsRead "wamid.1";
           WhatsApp.SendReaction "alice" "wamid.1" "(working)"]
          ++ (WhatsApp.SendTextMessage "alice" <$> ms)
          ++ [WhatsApp.SendReaction "alice" "wamid.1" "(done)"]
      ∧ String.concat "" ms = "It is about beta.".
Proof.
  assert (errors_only (WhatsApp.mark_as_read_request demo_api
                         (WhatsApp.message_id text_message))) as Hmark
    by (intros e He; discriminate He).
  assert (fst (WhatsApp.route_message demo_glyphs demo_api demo_hf
                 demo_processor text_message 1 2 3
                 (acknowledged demo_glyphs text_message new_runtime))
          = Return {| Processor.response := "It is about beta.";
                      Processor.response_session_id := "alice";
                      Processor.sources :=
                        [Rag.MStr "a.pdf"; Rag.MStr "b.pdf"];
                      Processor.response_message_type := Memory.TEXT |})
    as Hroute by (vm_compute; reflexivity).
  split; [exact Hmark|]. split; [exact Hroute|].
  destruct (response_is_delivered_whole demo_glyphs demo_api demo_hf
              demo_processor text_message 1 2 3 new_runtime _ Hmark
              (λ _ _, eq_refl) (λ _ _ _, eq_refl) Hroute)
    as (ms & Hrun & Hjoin & _).
  exists ms. rewrite Hrun. split; [reflexivity|]. split; [|exact Hjoin].
  cbn [snd WhatsApp.outbox]. reflexivity.
Defined.

(** X21 at a message of a type the parser does not know. *)
Lemma failure_is_answered_with_the_apology_witness :
  errors_only (WhatsApp.mark_as_read_request demo_api
                 (WhatsApp.message_id sticker_message))
  ∧ fst (WhatsApp.route_message demo_glyphs demo_api demo_hf demo_processor
           sticker_message 1 2 3
           (acknowledged demo_glyphs sticker_message new_runtime))
    = Raise (ExternalError "ValidationError")
  ∧ is_Exception (ExternalError "ValidationError") = true
  ∧ fst (WhatsApp.process_whatsapp_message demo_glyphs demo_api demo_hf
           demo_processor sticker_message 1 2 3 new_runtime) = Return ()
  ∧ WhatsApp.outbox
      (snd (WhatsApp.process_whatsapp_message demo_glyphs demo_api demo_hf
              demo_processor sticker_message 1 2 3 new_runtime))
    = [WhatsApp.MarkAsRead "wamid.2";
       WhatsApp.SendReaction "alice" "wamid.2" "(working)";
       WhatsApp.SendTextMessage "alice" (WhatsApp.apology demo_glyphs);
       WhatsApp.SendReaction "alice" "wamid.2" "(failed)"].
Proof.
  assert (errors_only (WhatsApp.mark_as_read_request demo_api
                         (WhatsApp.message_id sticker_message))) as Hmark
    by (intros e He; discriminate He).
  assert (fst (WhatsApp.route_message demo_glyphs demo_api demo_hf
                 demo_processor sticker_message 1 2 3
                 (acknowledged demo_glyphs sticker_message new_runtime))
          = Raise (ExternalError "ValidationError")) as Hroute
    by (vm_compute; reflexivity).
  split; [exact Hmark|]. split; [exact Hroute|]. split; [reflexivity|].
  rewrite (failure_is_answered_with_the_apology demo_glyphs demo_api demo_hf
             demo_processor sticker_message 1 2 3 new_runtime _ Hmark
             (λ _ _, eq_refl) (λ _ _ _, eq_refl) Hroute eq_refl).
  split; reflexivity.
Defined.

(** X22 at a first message, while the vector store cannot be reached. *)
Lemma errors_leave_the_task_only_before_the_try_witness :
  fst (WhatsApp.process_whatsapp_message_call demo_glyphs (Return demo_api)
         (Raise (ExternalError "could not connect to chroma"))
         text_message 1 2 3 new_runtime)
  = Raise (ExternalError "could not connect to chroma")
  ∧ is_Exception (ExternalError "could not connect to chroma") = true
  ∧ snd (WhatsApp.process_whatsapp_message_call demo_glyphs (Return demo_api)
           (Raise (ExternalError "could not connect to chroma"))
           text_message 1 2 3 new_runtime)
    = new_runtime.
Proof.
  assert (fst (WhatsApp.process_whatsapp_message_call demo_glyphs
                 (Return demo_api)
                 (Raise (ExternalError "could not connect to chroma"))
                 text_message 1 2 3 new_runtime)
          = Raise (ExternalError "could not connect to chroma")) as Hraise
    by reflexivity.
  split; [exact Hraise|]. split; [reflexivity|].
  exact (proj2 (errors_leave_the_task_only_before_the_try demo_glyphs
                  (Return demo_api)
                  (Raise (ExternalError "could not connect to chroma"))
                  text_message 1 2 3 new_runtime _ Hraise eq_refl)).
Defined.

(** Once the services are obtained only a bare [BaseException] leaves
    the task: here it is cancelled while it sends its first reaction. *)
Example cancelled_task_raises :
  fst (WhatsApp.process_whatsapp_message_call demo_glyphs
         (Return cancelling_api) (Return (demo_hf, demo_processor))
         text_message 1 2 3 new_runtime)
  = Raise (BaseExc "CancelledError").
Proof. vm_compute. reflexivity. Qed.

(** X23 at a spreadsheet sent without a caption. *)
Lemma captionless_document_is_ingested_as_pdf_witness :
  WhatsApp.message_type spreadsheet_message = Memory.DOCUMENT
  ∧ (WhatsApp.caption spreadsheet_message = None
     ∨ WhatsApp.caption spreadsheet_message = Some EmptyString)
  ∧ WhatsApp.download_media_request demo_api
      (WhatsApp.media_id spreadsheet_message) = Return []
  ∧ Media.is_pdf (WhatsApp.mime_type spreadsheet_message)
      (Media.py_or (WhatsApp.caption spreadsheet_message) "document.pdf")
    = true.
Proof.
  assert (WhatsApp.caption spreadsheet_message = None
          ∨ WhatsApp.caption spreadsheet_message = Some EmptyString)
    as Hcaption by (left; reflexivity).
  split; [reflexivity|]. split; [exact Hcaption|]. split; [reflexivity|].
  exact (proj1 (captionless_document_is_ingested_as_pdf demo_glyphs demo_api
                  demo_hf demo_processor spreadsheet_message 1 2 3 new_runtime
                  [] eq_refl Hcaption eq_refl)).
Defined.

(** ** Chat and upload routes *)

Section routes_more.
Import Normalizer Rag Memory Processor Media Routes.
Context {F : Type} `{PyNum F}.
Variable str : exn → string.



End routes_more.

